(** * nginxfmt: a shallow embedding of [Formatter] (src/nginxfmt.py)

    Python strings are modelled as lists of characters.  A character is a
    code point in the range 0..255 (the range produced by the [latin1]
    fallback decoder of [format_file]); the classes [\s], [\w] and the
    line boundaries of [str.splitlines] are the ones Python 3 uses on that
    range.  Python integers are modelled as [Z]. *)

From Stdlib Require Import String Ascii List ZArith Lia Bool Arith PeanoNat.
Import ListNotations.

Local Open Scope char_scope.
Local Open Scope list_scope.

Definition str := list ascii.

(** A string literal of the source. *)
Definition lit (s : string) : str := list_ascii_of_string s.

(** ** Characters *)

Definition LF : ascii := "010".
Definition CR : ascii := "013".
Definition DQUOTE : ascii := "034".
Definition SQUOTE : ascii := "039".
Definition BACKSLASH : ascii := "092".

Definition in_range (lo hi : nat) (c : ascii) : bool :=
  let n := nat_of_ascii c in (lo <=? n)%nat && (n <=? hi)%nat.

(** [str.isspace] and the regex class [\s] (they agree). *)
Definition isspace (c : ascii) : bool :=
  in_range 9 13 c || in_range 28 32 c || in_range 133 133 c || in_range 160 160 c.

(** The line boundaries of [str.splitlines]. *)
Definition is_linebreak (c : ascii) : bool :=
  in_range 10 13 c || in_range 28 30 c || in_range 133 133 c.

(** The regex class [\w] of a [str] pattern: alphanumerics and [_]. *)
Definition isword (c : ascii) : bool :=
  in_range 48 57 c || in_range 65 90 c || in_range 95 95 c || in_range 97 122 c
  || in_range 170 170 c || in_range 178 179 c || in_range 181 181 c
  || in_range 185 186 c || in_range 188 190 c || in_range 192 214 c
  || in_range 216 246 c || in_range 248 255 c.

(** ** The string methods the formatter calls *)

Module Py.

Fixpoint str_eqb (a b : str) : bool :=
  match a, b with
  | [], [] => true
  | x :: a', y :: b' => Ascii.eqb x y && str_eqb a' b'
  | _, _ => false
  end.

Fixpoint startswith (p s : str) : bool :=
  match p, s with
  | [], _ => true
  | x :: p', y :: s' => Ascii.eqb x y && startswith p' s'
  | _ :: _, [] => false
  end.

Definition endswith (p s : str) : bool := startswith (rev p) (rev s).

Fixpoint dropwhile (f : ascii -> bool) (s : str) : str :=
  match s with
  | [] => []
  | c :: s' => if f c then dropwhile f s' else s
  end.

Fixpoint takewhile (f : ascii -> bool) (s : str) : str :=
  match s with
  | [] => []
  | c :: s' => if f c then c :: takewhile f s' else []
  end.

Definition lstrip (s : str) : str := dropwhile isspace s.
Definition rstrip (s : str) : str := rev (dropwhile isspace (rev s)).

(** [s.strip()] *)
Definition strip (s : str) : str := rstrip (lstrip s).

(** [s.count(c)] for a one-character [c]. *)
Fixpoint count (c : ascii) (s : str) : nat :=
  match s with
  | [] => 0
  | x :: s' => (if Ascii.eqb x c then 1 else 0) + count c s'
  end.

(** [s.split(d)] for a one-character separator; also [re.split] of a
    one-character pattern.  The result has one more piece than [s] has
    separators. *)
Fixpoint split (d : ascii) (s : str) : list str :=
  match s with
  | [] => [[]]
  | c :: s' =>
      if Ascii.eqb c d then [] :: split d s'
      else match split d s' with
           | p :: ps => (c :: p) :: ps
           | [] => [[c]]
           end
  end.

(** [sep.join(parts)] *)
Fixpoint join (sep : str) (parts : list str) : str :=
  match parts with
  | [] => []
  | [p] => p
  | p :: ps => p ++ sep ++ join sep ps
  end.

(** [s.splitlines()]: a CR LF pair is one boundary, and a boundary at the
    very end opens no further line. *)
Fixpoint splitlines (s : str) : list str :=
  match s with
  | [] => []
  | c :: s' =>
      if is_linebreak c then
        match s' with
        | d :: s'' =>
            if Ascii.eqb c CR && Ascii.eqb d LF then [] :: splitlines s''
            else [] :: splitlines s'
        | [] => [[]]
        end
      else match splitlines s' with
           | p :: ps => (c :: p) :: ps
           | [] => [[c]]
           end
  end.

(** [n * s] for an integer [n]: the empty string when [n <= 0]. *)
Definition repeat_str (n : Z) (s : str) : str :=
  concat (repeat s (Z.to_nat n)).

(** *** [re.sub] and [str.replace]

    [try_match s] says whether the pattern matches at the head of [s], and
    gives the replacement and the (positive) number of characters the match
    consumes.  The scan goes left to right; after a match it resumes behind
    the match ([skip] counts the characters of the match still to pass).
    [count] is the optional maximal number of replacements. *)
Section ReSub.
Variable try_match : str -> option (str * nat).

Fixpoint sub_go (count : option nat) (skip : nat) (s : str) : str :=
  match s with
  | [] => []
  | c :: s' =>
      match skip with
      | S k => sub_go count k s'
      | O =>
          match count with
          | Some O => c :: sub_go count O s'
          | _ =>
              match try_match s with
              | Some (r, n) => r ++ sub_go (option_map pred count) (pred n) s'
              | None => c :: sub_go count O s'
              end
          end
      end
  end.

Definition sub (count : option nat) (s : str) : str := sub_go count O s.
End ReSub.

(** [s.replace(old, new)] for a non-empty [old]. *)
Definition replace (old new : str) (s : str) : str :=
  sub (fun t => if startswith old t then Some (new, length old) else None) None s.

(** [re.split(r"([{}])", s)]: the pieces between braces, with the braces. *)
Fixpoint re_split_braces (s : str) : list str :=
  match s with
  | [] => [[]]
  | c :: s' =>
      if Ascii.eqb c "{" || Ascii.eqb c "}" then [] :: [c] :: re_split_braces s'
      else match re_split_braces s' with
           | p :: ps => (c :: p) :: ps
           | [] => [[c]]
           end
  end.

End Py.

(** ** The formatter *)

Record FormatterOptions := { indentation : Z }.

Definition default_options : FormatterOptions := {| indentation := 4 |}.

Module Formatter.

Definition _TEMPLATE_VARIABLE_OPENING_TAG : str := lit "___TEMPLATE_VARIABLE_OPENING_TAG___".
Definition _TEMPLATE_VARIABLE_CLOSING_TAG : str := lit "___TEMPLATE_VARIABLE_CLOSING_TAG___".
Definition _TEMPLATE_BRACKET_OPENING_TAG : str := lit "___TEMPLATE_BRACKET_OPENING_TAG___".
Definition _TEMPLATE_BRACKET_CLOSING_TAG : str := lit "___TEMPLATE_BRACKET_CLOSING_TAG___".

(** [re.sub(r'[\s]+', ' ', part)]: a match is a maximal run of whitespace. *)
Definition match_spaces (s : str) : option (str * nat) :=
  match Py.takewhile isspace s with
  | [] => None
  | run => Some ([" "], length run)
  end.

Definition collapse_spaces (part : str) : str := Py.sub match_spaces None part.

(** The loop of [_strip_line], [_count_multi_semicolon] and
    [multi_semicolon] over the parts of [single_line] between double
    quotes ([re.split] on the double quote): [within_quotes] flips after
    every part. *)
Fixpoint strip_parts (within_quotes : bool) (ps : list str) : list str :=
  match ps with
  | [] => []
  | part :: ps' =>
      (if within_quotes then part else collapse_spaces part)
        :: strip_parts (negb within_quotes) ps'
  end.

Definition _strip_line (single_line : str) : str :=
  let single_line := Py.strip single_line in
  if Py.startswith ["#"] single_line then single_line
  else Py.join [DQUOTE] (strip_parts false (Py.split DQUOTE single_line)).

Fixpoint count_parts (within_quotes : bool) (q c : nat) (ps : list str) : nat * nat :=
  match ps with
  | [] => (q, c)
  | part :: ps' =>
      if within_quotes then count_parts (negb within_quotes) 1 c ps'
      else count_parts (negb within_quotes) q (c + Py.count ";" part) ps'
  end.

Definition _count_multi_semicolon (single_line : str) : nat * nat :=
  let single_line := Py.strip single_line in
  if Py.startswith ["#"] single_line then (0, 0)
  else count_parts false 0 0 (Py.split DQUOTE single_line).

Fixpoint semicolon_parts (within_quotes : bool) (ps : list str) : list str :=
  match ps with
  | [] => []
  | part :: ps' =>
      (if within_quotes then part else Py.replace [";"] [";"; LF] part)
        :: semicolon_parts (negb within_quotes) ps'
  end.

Definition multi_semicolon (single_line : str) : str :=
  let single_line := Py.strip single_line in
  if Py.startswith ["#"] single_line then single_line
  else Py.join [DQUOTE] (semicolon_parts false (Py.split DQUOTE single_line)).

(** The pattern [\${\s*(\w+)\s*}] at the head of [s].  The classes [\s],
    [\w] and the character [}] are pairwise disjoint, so the greedy
    repetitions never give anything back. *)
Definition match_variable (s : str) : option (str * nat) :=
  match s with
  | "$" :: "{" :: s1 =>
      let ws1 := Py.takewhile isspace s1 in
      let s2 := Py.dropwhile isspace s1 in
      let w := Py.takewhile isword s2 in
      let s3 := Py.dropwhile isword s2 in
      let ws2 := Py.takewhile isspace s3 in
      match w, Py.dropwhile isspace s3 with
      | _ :: _, "}" :: _ =>
          Some (_TEMPLATE_VARIABLE_OPENING_TAG ++ w ++ _TEMPLATE_VARIABLE_CLOSING_TAG,
                2 + length ws1 + length w + length ws2 + 1)
      | _, _ => None
      end
  | _ => None
  end.

Definition apply_variable_template_tags (line : str) : str :=
  Py.sub match_variable None line.

(** The group [(\w+)] of the closing pattern is greedy and the closing tag
    is itself made of word characters: the regex engine first takes the
    whole run of word characters and gives characters back one at a time
    until the rest of the pattern, [\s*] and the closing tag, matches.
    [backtrack_word k s] tries the lengths [k], [k-1], ..., [1]. *)
Fixpoint backtrack_word (k : nat) (s : str) : option (nat * nat) :=
  match k with
  | O => None
  | S k' =>
      let rest := skipn k s in
      if Py.startswith _TEMPLATE_VARIABLE_CLOSING_TAG (Py.dropwhile isspace rest)
      then Some (k, length (Py.takewhile isspace rest))
      else backtrack_word k' s
  end.

Definition match_variable_tag (s : str) : option (str * nat) :=
  if Py.startswith _TEMPLATE_VARIABLE_OPENING_TAG s then
    let s1 := skipn (length _TEMPLATE_VARIABLE_OPENING_TAG) s in
    let ws1 := Py.takewhile isspace s1 in
    let s2 := Py.dropwhile isspace s1 in
    match backtrack_word (length (Py.takewhile isword s2)) s2 with
    | Some (k, ws2) =>
        Some (["$"; "{"] ++ firstn k s2 ++ ["}"],
              length _TEMPLATE_VARIABLE_OPENING_TAG + length ws1 + k + ws2
              + length _TEMPLATE_VARIABLE_CLOSING_TAG)
    | None => None
    end
  else None.

Definition strip_variable_template_tags (line : str) : str :=
  Py.sub match_variable_tag None line.

Definition reverse_in_quotes_status (status : bool) : bool :=
  if status then false else true.

(** The character loop of [apply_bracket_template_tags]; [last_char] is
    [None] for the initial empty string. *)
Fixpoint tag_chars (in_quotes : bool) (last_char : option ascii) (line : str) : str :=
  match line with
  | [] => []
  | char :: rest =>
      let escaped := match last_char with
                     | Some l => Ascii.eqb l BACKSLASH
                     | None => false
                     end in
      let in_quotes :=
        if (Ascii.eqb char SQUOTE || Ascii.eqb char DQUOTE) && negb escaped
        then reverse_in_quotes_status in_quotes else in_quotes in
      (if in_quotes then
         if Ascii.eqb char "{" then _TEMPLATE_BRACKET_OPENING_TAG
         else if Ascii.eqb char "}" then _TEMPLATE_BRACKET_CLOSING_TAG
         else [char]
       else [char]) ++ tag_chars in_quotes (Some char) rest
  end.

Definition tag_line (line : str) : str :=
  if Py.startswith ["#"] line then line else tag_chars false None line.

Definition apply_bracket_template_tags (lines : list str) : list str :=
  map tag_line lines.

Definition strip_bracket_template_tags (content : str) : str :=
  let content := Py.replace _TEMPLATE_BRACKET_OPENING_TAG ["{"] content in
  Py.replace _TEMPLATE_BRACKET_CLOSING_TAG ["}"] content.

(** One round of the loop of [clean_lines]: the lines it appends, or the
    lines it hands to the recursive call. *)
Inductive action :=
| Emit (out : list str)
| Recurse (sub_lines : list str).

Definition nonempty (ln : str) : bool := negb (Py.str_eqb ln []).

Definition clean_line (line : str) : action :=
  let line := _strip_line line in
  let line := apply_variable_template_tags line in
  if Py.str_eqb line [] then Emit [[]]
  else if Py.startswith ["#"] line then Emit [strip_variable_template_tags line]
  else
    let '(q, c) := _count_multi_semicolon line in
    if (q =? 1)%nat && (1 <? c)%nat then
      let ml := multi_semicolon line in
      Recurse (Py.splitlines ml)
    else if negb (q =? 1)%nat && (1 <? c)%nat then
      let newlines := Py.split ";" line in
      Recurse (map (fun ln => ln ++ [";"]) (filter nonempty newlines))
    else if Py.startswith (lit "rewrite") line then
      Emit [strip_variable_template_tags line]
    else
      Emit (map (fun ln => Py.strip (strip_variable_template_tags ln))
                (filter nonempty (Py.re_split_braces line))).

(** [clean_lines] calls itself; [fuel] bounds the depth of the calls. *)
Fixpoint clean_lines_fuel (fuel : nat) (orig_lines : list str) : option (list str) :=
  match fuel with
  | O => None
  | S fuel' =>
      (fix loop (ls : list str) : option (list str) :=
         match ls with
         | [] => Some []
         | line :: rest =>
             match match clean_line line with
                   | Emit out => Some out
                   | Recurse sub_lines => clean_lines_fuel fuel' sub_lines
                   end, loop rest with
             | Some out, Some cleaned => Some (out ++ cleaned)
             | _, _ => None
             end
         end) orig_lines
  end.

(** A call on a line with [n] semicolons goes at most [n] calls deep (see
    [clean_lines_fuel_total] below). *)
Definition depth_bound (orig_lines : list str) : nat :=
  S (list_max (map (Py.count ";") orig_lines)).

Definition clean_lines (orig_lines : list str) : list str :=
  match clean_lines_fuel (depth_bound orig_lines) orig_lines with
  | Some cleaned => cleaned
  | None => []
  end.

(** [modified_lines[-1] += " {"] *)
Definition append_to_last (modified_lines : list str) (s : str) : list str :=
  match rev modified_lines with
  | last :: front => rev front ++ [last ++ s]
  | [] => []
  end.

Fixpoint join_loop (i : nat) (modified_lines lines : list str) : list str :=
  match lines with
  | [] => modified_lines
  | line :: rest =>
      if (0 <? i)%nat && Py.str_eqb line ["{"]
      then join_loop (S i) (append_to_last modified_lines (lit " {")) rest
      else join_loop (S i) (modified_lines ++ [line]) rest
  end.

Definition _join_opening_bracket (lines : list str) : list str :=
  join_loop 0 [] lines.

Record indent_state := { indented_lines : list str; current_indent : Z }.

Definition is_comment (line : str) : bool := Py.startswith ["#"] line.

(** The counter with which [line] is written. *)
Definition dedent (current_indent : Z) (line : str) : Z :=
  if negb (is_comment line) && Py.endswith ["}"] line && (0 <? current_indent)%Z
  then (current_indent - 1)%Z else current_indent.

(** The counter after [line]. *)
Definition indent (current_indent : Z) (line : str) : Z :=
  if negb (is_comment line) && Py.endswith ["{"] line
  then (current_indent + 1)%Z else current_indent.

Definition indent_step (indentation_str : str) (st : indent_state) (line : str)
  : indent_state :=
  let current_indent := dedent (current_indent st) line in
  let indented_lines :=
    if nonempty line
    then indented_lines st ++ [Py.repeat_str current_indent indentation_str ++ line]
    else indented_lines st ++ [[]] in
  {| indented_lines := indented_lines; current_indent := indent current_indent line |}.

Definition indent_loop (options : FormatterOptions) (lines : list str) : indent_state :=
  let indentation_str := Py.repeat_str (indentation options) [" "] in
  fold_left (indent_step indentation_str) lines
            {| indented_lines := []; current_indent := 0 |}.

Definition _perform_indentation (options : FormatterOptions) (lines : list str)
  : list str :=
  indented_lines (indent_loop options lines).

(** [re.MULTILINE], which [format_string] hands to [re.sub] as its fourth
    positional argument, the maximal number of replacements. *)
Definition re_MULTILINE : nat := 8.

(** [\n{3,}]: a run of three or more newlines, as long as it goes. *)
Definition match_newlines (s : str) : option (str * nat) :=
  let run := Py.takewhile (Ascii.eqb LF) s in
  if (3 <=? length run)%nat then Some ([LF; LF; LF], length run) else None.

(** [^\n] with no flag: [^] holds at the start of the text only, so the
    scan has one candidate position. *)
Definition sub_leading_newline (count : option nat) (text : str) : str :=
  match count, text with
  | Some O, _ => text
  | _, c :: rest => if Ascii.eqb c LF then rest else text
  | _, [] => []
  end.

(** [\n$] with no flag: [$] holds at the end of the text and before a
    newline that ends the text. *)
Definition match_trailing_newline (s : str) : option (str * nat) :=
  match s with
  | c :: [] => if Ascii.eqb c LF then Some ([], 1%nat) else None
  | c :: d :: [] => if Ascii.eqb c LF && Ascii.eqb d LF then Some ([], 1%nat) else None
  | _ => None
  end.

(** The three substitutions at the end of [format_string]. *)
Definition squash (text : str) : str :=
  let text := Py.sub match_newlines (Some re_MULTILINE) text in
  let text := sub_leading_newline (Some re_MULTILINE) text in
  Py.sub match_trailing_newline (Some re_MULTILINE) text.

(** [text] of [format_string] before the three substitutions. *)
Definition indented_text (options : FormatterOptions) (contents : str) : str :=
  let lines := Py.splitlines contents in
  let lines := apply_bracket_template_tags lines in
  let lines := clean_lines lines in
  let lines := _join_opening_bracket lines in
  let lines := _perform_indentation options lines in
  let text := Py.join [LF] lines in
  strip_bracket_template_tags text.

Definition format_string (options : FormatterOptions) (contents : str) : str :=
  squash (indented_text options contents) ++ [LF].

End Formatter.

Import Formatter.

(** ** Vocabulary of the properties *)

(** The number of newlines at the head of [s]. *)
Definition leading_newlines (s : str) : nat := length (Py.takewhile (Ascii.eqb LF) s).

(** The number of newlines at the end of [s]. *)
Definition trailing_newlines (s : str) : nat := leading_newlines (rev s).

(** The length of the longest run of consecutive newlines of [s]. *)
Fixpoint longest_newline_run (s : str) : nat :=
  match s with
  | [] => 0
  | _ :: s' => Nat.max (leading_newlines s) (longest_newline_run s')
  end.

(** The number of maximal runs of three or more newlines of [s];
    [in_run] says that the character before [s] is a newline. *)
Fixpoint long_newline_runs (in_run : bool) (s : str) : nat :=
  match s with
  | [] => 0
  | c :: s' =>
      if Ascii.eqb LF c then
        (if negb in_run && (3 <=? leading_newlines s)%nat then 1 else 0)
        + long_newline_runs true s'
      else long_newline_runs false s'
  end.

(** The text [t] with every run of newlines cut to its first three;
    [run] is the number of newlines just before [t]. *)
Fixpoint cut_long_runs (run : nat) (t : str) : str :=
  match t with
  | [] => []
  | c :: t' =>
      if Ascii.eqb c LF
      then if (run <? 3)%nat then c :: cut_long_runs (S run) t'
           else cut_long_runs (S run) t'
      else c :: cut_long_runs 0 t'
  end.

(** The text [t] without the newline it begins with, if it begins with
    one. *)
Definition without_first_newline (t : str) : str :=
  match t with
  | c :: t' => if Ascii.eqb c LF then t' else t
  | [] => []
  end.

(** The text [t] without its first [n] characters, as far as they are
    newlines. *)
Fixpoint drop_newlines (n : nat) (t : str) : str :=
  match n, t with
  | S n', c :: t' => if Ascii.eqb c LF then drop_newlines n' t' else t
  | _, _ => t
  end.

(** The text [t] without its last two characters, as far as they are
    newlines. *)
Definition without_final_newlines (t : str) : str := rev (drop_newlines 2 (rev t)).

(** The specification on newlines: the result ends with exactly one
    newline and has no run of three or more newlines. *)
Definition one_final_newline_no_long_run (out : str) : Prop :=
  trailing_newlines out = 1 /\ longest_newline_run out < 3.

(** The text [single_line] with a newline behind every semicolon that is
    outside double quotes, read off character by character:
    [within_quotes] flips at every double quote. *)
Fixpoint break_after_semicolons (within_quotes : bool) (single_line : str) : str :=
  match single_line with
  | [] => []
  | c :: rest =>
      if Ascii.eqb c DQUOTE then c :: break_after_semicolons (negb within_quotes) rest
      else if Ascii.eqb c ";" && negb within_quotes
           then c :: LF :: break_after_semicolons within_quotes rest
           else c :: break_after_semicolons within_quotes rest
  end.

(** The number of semicolons of [single_line] outside double quotes. *)
Fixpoint unquoted_semicolons (within_quotes : bool) (single_line : str) : nat :=
  match single_line with
  | [] => 0
  | c :: rest =>
      if Ascii.eqb c DQUOTE then unquoted_semicolons (negb within_quotes) rest
      else (if Ascii.eqb c ";" && negb within_quotes then 1 else 0)
           + unquoted_semicolons within_quotes rest
  end.

(** The occurrences of [c] in all parts together. *)
Definition total (c : ascii) (parts : list str) : nat :=
  list_sum (map (Py.count c) parts).

(** The number of semicolons of [single_line] inside double quotes. *)
Fixpoint quoted_semicolons (within_quotes : bool) (single_line : str) : nat :=
  match single_line with
  | [] => 0
  | c :: rest =>
      if Ascii.eqb c DQUOTE then quoted_semicolons (negb within_quotes) rest
      else (if Ascii.eqb c ";" && within_quotes then 1 else 0)
           + quoted_semicolons within_quotes rest
  end.

(** The specification of the split of a line with a quoted semicolon: a
    newline behind every semicolon of the line, by literal substitution. *)
Definition break_after_every_semicolon (line : str) : str :=
  Py.replace [";"] [";"; LF] line.

(** The occurrences of the brace [b] outside quotes on a line; the quotes
    are read as [apply_bracket_template_tags] reads them. *)
Fixpoint unquoted_braces (b : ascii) (in_quotes : bool) (last_char : option ascii)
  (line : str) : nat :=
  match line with
  | [] => 0
  | char :: rest =>
      let escaped := match last_char with
                     | Some l => Ascii.eqb l BACKSLASH
                     | None => false
                     end in
      let in_quotes :=
        if (Ascii.eqb char SQUOTE || Ascii.eqb char DQUOTE) && negb escaped
        then negb in_quotes else in_quotes in
      (if Ascii.eqb char b && negb in_quotes then 1 else 0)
      + unquoted_braces b in_quotes (Some char) rest
  end.

(** The structural braces of a text, line by line. *)
Definition structural_braces (b : ascii) (text : str) : nat :=
  list_sum (map (unquoted_braces b false None) (Py.splitlines text)).

(** [p] occurs in [s]. *)
Fixpoint occurs (p s : str) : bool :=
  Py.startswith p s
  || match s with
     | [] => false
     | _ :: s' => occurs p s'
     end.

(** The character loop of [apply_bracket_template_tags] with any two
    texts in the place of the two bracket tags. *)
Fixpoint tag_with (opening closing : str) (in_quotes : bool) (last_char : option ascii)
  (line : str) : str :=
  match line with
  | [] => []
  | char :: rest =>
      let escaped := match last_char with
                     | Some l => Ascii.eqb l BACKSLASH
                     | None => false
                     end in
      let in_quotes :=
        if (Ascii.eqb char SQUOTE || Ascii.eqb char DQUOTE) && negb escaped
        then reverse_in_quotes_status in_quotes else in_quotes in
      (if in_quotes then
         if Ascii.eqb char "{" then opening
         else if Ascii.eqb char "}" then closing
         else [char]
       else [char]) ++ tag_with opening closing in_quotes (Some char) rest
  end.

(** No whitespace in [s] but single spaces, each of them before a character
    that is no whitespace, or at the end. *)
Fixpoint single_spaced (s : str) : bool :=
  match s with
  | [] => true
  | c :: s' =>
      (if isspace c
       then Ascii.eqb c " " && match s' with [] => true | d :: _ => negb (isspace d) end
       else true)
      && single_spaced s'
  end.

(** The characters of [s] that are no whitespace. *)
Definition visible (s : str) : str := filter (fun c => negb (isspace c)) s.

(** A line with one plain directive: it is not blank and no comment, and
    holds no brace, no quote, no [$], no [_] and at most one semicolon. *)
Definition plain_directive (line : str) : Prop :=
  visible line <> []
  /\ Py.startswith ["#"] (Py.strip line) = false
  /\ Py.count ";" line <= 1
  /\ Py.count "{" line = 0 /\ Py.count "}" line = 0
  /\ Py.count SQUOTE line = 0 /\ Py.count DQUOTE line = 0
  /\ Py.count "$" line = 0 /\ Py.count "_" line = 0.

(** What stands before a line of the text: nothing, or a text that ends
    with a newline. *)
Definition line_start (X : str) : Prop := X = [] \/ exists X0, X = X0 ++ [LF].

(** What stands behind a line of the text: nothing, or a text that begins
    with a newline. *)
Definition line_stop (Y : str) : Prop := Y = [] \/ exists Y0, Y = LF :: Y0.

(** The placeholder tags give the text of [line] back: the stripped line
    with its braces tagged by [apply_bracket_template_tags] and its
    variables by [apply_variable_template_tags] is the stripped line again
    behind [strip_variable_template_tags] and
    [strip_bracket_template_tags]. *)
Definition placeholders_round_trip (line : str) : Prop :=
  strip_bracket_template_tags
    (strip_variable_template_tags
       (apply_variable_template_tags (Py.strip (tag_line line))))
  = Py.strip line.

(** The opening braces of [k] lines, joined to the line before them. *)
Definition joined_braces (k : nat) : str := concat (repeat (lit " {") k).

(** The number of lines at the head of [lines] that are an opening brace
    and no more. *)
Fixpoint leading_braces (lines : list str) : nat :=
  match lines with
  | l :: rest => if Py.str_eqb l ["{"] then S (leading_braces rest) else 0
  | [] => 0
  end.

(** The number of spaces before a line that follows [lines] and does not
    close a block: the counter behind [lines], times the width. *)
Definition indentation_behind (options : FormatterOptions) (lines : list str) : nat :=
  Z.to_nat (current_indent (indent_loop options lines) * indentation options).

(** The weight of a text whose characters weigh [w]. *)
Definition weight (w : ascii -> nat) (s : str) : nat := list_sum (map w s).

(** * Properties *)

(** ** The indenter *)

Section Indenter.
Variable options : FormatterOptions.

Lemma indent_loop_snoc (lines : list str) (line : str) :
  indent_loop options (lines ++ [line])
  = indent_step (Py.repeat_str (indentation options) [" "]) (indent_loop options lines) line.
Proof. unfold indent_loop. now rewrite fold_left_app. Qed.

Lemma dedent_nonneg (d : Z) (line : str) : (0 <= d -> 0 <= dedent d line)%Z.
Proof.
  unfold dedent. intros Hd.
  destruct (negb (is_comment line) && Py.endswith ["}"] line); simpl; [|assumption].
  destruct (Z.ltb_spec 0 d); lia.
Qed.

Lemma indent_nonneg (d : Z) (line : str) : (0 <= d -> 0 <= indent d line)%Z.
Proof. unfold indent. destruct (_ && _); lia. Qed.

Lemma current_indent_nonneg (lines : list str) :
  (0 <= current_indent (indent_loop options lines))%Z.
Proof.
  induction lines as [|line lines IH] using rev_ind.
  - simpl. lia.
  - rewrite indent_loop_snoc. simpl. now apply indent_nonneg, dedent_nonneg.
Qed.

Lemma fold_indent_step_lines (s : str) (lines : list str) (st : indent_state) :
  exists outs,
    indented_lines (fold_left (indent_step s) lines st) = indented_lines st ++ outs
    /\ length outs = length lines.
Proof.
  revert st. induction lines as [|line lines IH]; intros st; simpl.
  - exists []. now rewrite app_nil_r.
  - destruct (IH (indent_step s st line)) as (outs & -> & Hlen).
    unfold indent_step; simpl.
    destruct (nonempty line); rewrite <- app_assoc; eexists; split;
      try reflexivity; simpl; now rewrite Hlen.
Qed.

Lemma length_perform_indentation (lines : list str) :
  length (_perform_indentation options lines) = length lines.
Proof.
  unfold _perform_indentation, indent_loop.
  destruct (fold_indent_step_lines (Py.repeat_str (indentation options) [" "]) lines
              {| indented_lines := []; current_indent := 0 |}) as (outs & -> & Hlen).
  exact Hlen.
Qed.

Lemma repeat_str_spaces (n k : Z) :
  (0 <= n)%Z ->
  Py.repeat_str n (Py.repeat_str k [" "]) = repeat " " (Z.to_nat (n * k)).
Proof.
  intros Hn. unfold Py.repeat_str.
  assert (Hs : forall m, concat (repeat [" "] m) = repeat " " m).
  { induction m; simpl; congruence. }
  rewrite Hs.
  assert (Hc : forall a b, concat (repeat (repeat " " b) a) = repeat " " (a * b)).
  { induction a; intros b; simpl; [reflexivity|]. now rewrite IHa, repeat_app. }
  rewrite Hc. f_equal.
  destruct (Z.le_gt_cases 0 k).
  - now rewrite Z2Nat.inj_mul.
  - assert (Z.to_nat k = 0%nat) as -> by lia.
    assert (Z.to_nat (n * k) = 0%nat) as -> by nia. lia.
Qed.

(** The line written for [line] when it follows the lines [before]. *)
Lemma perform_indentation_nth (before after : list str) (line : str) :
  nth_error (_perform_indentation options (before ++ line :: after)) (length before)
  = Some (if nonempty line
          then Py.repeat_str (dedent (current_indent (indent_loop options before)) line)
                             (Py.repeat_str (indentation options) [" "]) ++ line
          else []).
Proof.
  unfold _perform_indentation, indent_loop. rewrite fold_left_app. simpl.
  set (st := fold_left (indent_step (Py.repeat_str (indentation options) [" "])) before _).
  destruct (fold_indent_step_lines (Py.repeat_str (indentation options) [" "]) after (indent_step (Py.repeat_str (indentation options) [" "]) st line))
    as (outs & -> & _).
  assert (Hlen : length (indented_lines st) = length before).
  { subst st.
    destruct (fold_indent_step_lines (Py.repeat_str (indentation options) [" "]) before
                {| indented_lines := []; current_indent := 0 |}) as (o & -> & Hl).
    exact Hl. }
  unfold indent_step; simpl.
  destruct (nonempty line); rewrite <- app_assoc; simpl;
    rewrite nth_error_app2 by lia; rewrite Hlen, Nat.sub_diag; reflexivity.
Qed.

End Indenter.

(** C9.  The nesting counter of [_perform_indentation] is never negative:
    after any lines [before] it is at least 0, also when they close more
    blocks than they open; the counter a line is written with is at least 0;
    a line met at depth 0 is written at depth 0, closing brace or not; and
    the line written for [line] is [line] behind exactly counter times
    indentation spaces when [line] is not empty, and the empty line when it
    is. *)
Theorem indenter_counter_never_negative :
  forall (options : FormatterOptions) (before after : list str) (line : str),
    let st := indent_loop options before in
    let counter := dedent (current_indent st) line in
    (0 <= current_indent st)%Z
    /\ (0 <= counter)%Z
    /\ dedent 0 line = 0%Z
    /\ (0 <= current_indent (indent_loop options (before ++ line :: after)))%Z
    /\ nth_error (_perform_indentation options (before ++ line :: after)) (length before)
       = Some (if nonempty line
               then repeat " " (Z.to_nat (counter * indentation options)) ++ line
               else []).
Proof.
  intros options before after line st counter.
  assert (H0 : (0 <= current_indent st)%Z) by apply current_indent_nonneg.
  assert (H1 : (0 <= counter)%Z) by now apply dedent_nonneg.
  repeat split; try assumption.
  - unfold dedent. now rewrite Z.ltb_irrefl, andb_false_r.
  - apply current_indent_nonneg.
  - rewrite perform_indentation_nth. fold st. fold counter.
    now rewrite repeat_str_spaces.
Qed.

(** ** [re.sub] *)

Section ReSubFacts.
Variable try_match : str -> option (str * nat).

Lemma sub_go_skip (count : option nat) (k : nat) (s : str) :
  Py.sub_go try_match count k s = Py.sub try_match count (skipn k s).
Proof.
  revert k. induction s as [|c s IH]; intros [|k]; try reflexivity.
  simpl. apply IH.
Qed.

Lemma sub_done (s : str) : Py.sub try_match (Some 0) s = s.
Proof. unfold Py.sub. induction s; simpl; congruence. Qed.

Lemma sub_no_match (count : option nat) (c : ascii) (s : str) :
  try_match (c :: s) = None ->
  Py.sub try_match count (c :: s) = c :: Py.sub try_match count s.
Proof.
  intros H. unfold Py.sub. simpl. rewrite H. now destruct count as [[|n]|].
Qed.

Lemma sub_match (count : option nat) (c : ascii) (s r : str) (n : nat) :
  count <> Some 0 ->
  try_match (c :: s) = Some (r, n) ->
  Py.sub try_match count (c :: s)
  = r ++ Py.sub try_match (option_map pred count) (skipn (pred n) s).
Proof.
  intros Hc H. unfold Py.sub at 1. simpl. rewrite H.
  destruct count as [[|m]|]; [congruence | | ]; now rewrite sub_go_skip.
Qed.

End ReSubFacts.

(** ** Newlines of the result *)

Lemma leading_newlines_cons (c : ascii) (s : str) :
  leading_newlines (c :: s) = if Ascii.eqb LF c then S (leading_newlines s) else 0.
Proof.
  unfold leading_newlines. cbn [Py.takewhile].
  destruct (Ascii.eqb LF c); reflexivity.
Qed.

Lemma leading_le_longest (s : str) : leading_newlines s <= longest_newline_run s.
Proof. destruct s; cbn [longest_newline_run]; [apply Nat.le_refl | lia]. Qed.

Lemma longest_cons_other (c : ascii) (s : str) :
  c <> LF -> longest_newline_run (c :: s) = longest_newline_run s.
Proof.
  intros H. cbn [longest_newline_run]. rewrite leading_newlines_cons.
  destruct (Ascii.eqb_spec LF c); [congruence | reflexivity].
Qed.

Lemma longest_cons_le (c : ascii) (s : str) :
  longest_newline_run s <= longest_newline_run (c :: s).
Proof. cbn [longest_newline_run]. lia. Qed.

Lemma longest_cons_newline (s : str) :
  longest_newline_run (LF :: s)
  = Nat.max (S (leading_newlines s)) (longest_newline_run s).
Proof.
  cbn [longest_newline_run]. rewrite leading_newlines_cons.
  now rewrite Ascii.eqb_refl.
Qed.

Lemma skipn_takewhile (f : ascii -> bool) (s : str) :
  skipn (length (Py.takewhile f s)) s = Py.dropwhile f s.
Proof. induction s as [|c s IH]; simpl; [|destruct (f c)]; auto. Qed.

Lemma dropwhile_head (f : ascii -> bool) (s : str) :
  match Py.dropwhile f s with
  | [] => True
  | c :: _ => f c = false
  end.
Proof.
  induction s as [|c s IH]; simpl; [exact I|].
  destruct (f c) eqn:E; [exact IH | exact E].
Qed.

Lemma length_dropwhile (f : ascii -> bool) (s : str) :
  length (Py.dropwhile f s) <= length s.
Proof. induction s as [|c s IH]; simpl; [|destruct (f c); simpl]; lia. Qed.

Lemma long_runs_in_run (s : str) :
  long_newline_runs true s = long_newline_runs false (Py.dropwhile (Ascii.eqb LF) s).
Proof.
  induction s as [|c s IH]; [reflexivity|].
  cbn [long_newline_runs Py.dropwhile].
  destruct (Ascii.eqb LF c) eqn:E; [exact IH|].
  cbn [long_newline_runs]. now rewrite E.
Qed.

Lemma match_newlines_other (c : ascii) (s : str) :
  c <> LF -> match_newlines (c :: s) = None.
Proof.
  intros H. unfold match_newlines. cbn [Py.takewhile].
  destruct (Ascii.eqb_spec LF c); [congruence | reflexivity].
Qed.

(** With enough replacements for its long runs, a text keeps no run of more
    than three newlines, and a text that starts with another character
    still does. *)
Lemma sub_newlines_longest (len : nat) :
  forall (t : str) (n : nat),
    length t <= len ->
    long_newline_runs false t <= n ->
    longest_newline_run (Py.sub match_newlines (Some n) t) <= 3
    /\ (leading_newlines t = 0 ->
        leading_newlines (Py.sub match_newlines (Some n) t) = 0).
Proof.
  induction len as [|len IH]; intros t n Hlen Hruns.
  { destruct t; [|simpl in Hlen; lia]. split; [cbn; lia | reflexivity]. }
  assert (Hother : forall c u m,
             c <> LF -> length u <= len -> long_newline_runs false (c :: u) <= m ->
             Py.sub match_newlines (Some m) (c :: u)
             = c :: Py.sub match_newlines (Some m) u
             /\ longest_newline_run (Py.sub match_newlines (Some m) u) <= 3).
  { intros c u m Hc Hu Hm. split.
    - now apply sub_no_match, match_newlines_other.
    - apply IH; [exact Hu|].
      cbn [long_newline_runs] in Hm.
      destruct (Ascii.eqb_spec LF c); [congruence | exact Hm]. }
  destruct t as [|c1 t1]; [split; [cbn; lia | reflexivity]|].
  cbn [length] in Hlen.
  destruct (Ascii.eqb_spec LF c1) as [<-|Hc1].
  2:{ destruct (Hother c1 t1 n) as [-> H]; [congruence | lia | exact Hruns |].
      split.
      - rewrite longest_cons_other by congruence. exact H.
      - intros _. rewrite leading_newlines_cons.
        destruct (Ascii.eqb_spec LF c1); [congruence | reflexivity]. }
  split; [|rewrite leading_newlines_cons, Ascii.eqb_refl; discriminate].
  destruct t1 as [|c2 t2].
  { rewrite sub_no_match by reflexivity. cbn. lia. }
  cbn [length] in Hlen.
  destruct (Ascii.eqb_spec LF c2) as [<-|Hc2].
  2:{ rewrite sub_no_match.
      2:{ unfold match_newlines. cbn [Py.takewhile]. rewrite Ascii.eqb_refl.
          destruct (Ascii.eqb_spec LF c2); [congruence | reflexivity]. }
      cbn [long_newline_runs] in Hruns. rewrite Ascii.eqb_refl in Hruns.
      destruct (Ascii.eqb_spec LF c2) as [|_]; [congruence|].
      destruct (Hother c2 t2 n) as [-> H]; [congruence | lia | | ].
      { cbn [long_newline_runs].
        destruct (Ascii.eqb_spec LF c2); [congruence | lia]. }
      rewrite longest_cons_newline, leading_newlines_cons.
      destruct (Ascii.eqb_spec LF c2); [congruence|].
      rewrite longest_cons_other by congruence. lia. }
  destruct t2 as [|c3 t3].
  { rewrite sub_no_match by reflexivity. rewrite sub_no_match by reflexivity. cbn. lia. }
  cbn [length] in Hlen.
  destruct (Ascii.eqb_spec LF c3) as [<-|Hc3].
  2:{ assert (Hm : forall (m : nat) u, match_newlines (LF :: c3 :: u) = None
                               /\ match_newlines (LF :: LF :: c3 :: u) = None).
      { intros m u. unfold match_newlines. cbn [Py.takewhile].
        rewrite Ascii.eqb_refl.
        destruct (Ascii.eqb_spec LF c3); [congruence | now split]. }
      rewrite sub_no_match by apply (Hm 0).
      rewrite sub_no_match by apply (Hm 0).
      cbn [long_newline_runs] in Hruns. rewrite Ascii.eqb_refl in Hruns.
      destruct (Ascii.eqb_spec LF c3) as [|_]; [congruence|].
      destruct (Hother c3 t3 n) as [-> H]; [congruence | lia | | ].
      { cbn [long_newline_runs].
        destruct (Ascii.eqb_spec LF c3); [congruence | lia]. }
      rewrite !longest_cons_newline, !leading_newlines_cons, Ascii.eqb_refl.
      destruct (Ascii.eqb_spec LF c3); [congruence|].
      rewrite longest_cons_other by congruence. lia. }
  (* a run of three or more *)
  set (rest := Py.dropwhile (Ascii.eqb LF) t3).
  assert (Hmatch : match_newlines (LF :: LF :: LF :: t3)
                   = Some ([LF; LF; LF], S (S (S (leading_newlines t3))))).
  { unfold match_newlines, leading_newlines. cbn [Py.takewhile].
    rewrite Ascii.eqb_refl. reflexivity. }
  assert (Hr : long_newline_runs false (LF :: LF :: LF :: t3)
               = S (long_newline_runs false rest)).
  { cbn [long_newline_runs]. rewrite !leading_newlines_cons, !Ascii.eqb_refl.
    cbn [negb andb Nat.leb]. rewrite long_runs_in_run. fold rest. lia. }
  rewrite Hr in Hruns. destruct n as [|n]; [lia|].
  rewrite (sub_match _ (Some (S n)) _ _ _ _ ltac:(discriminate) Hmatch).
  cbn [option_map pred skipn]. unfold leading_newlines.
  rewrite skipn_takewhile. fold rest.
  destruct (IH rest n) as [H1 H2].
  { subst rest. pose proof (length_dropwhile (Ascii.eqb LF) t3). lia. }
  { lia. }
  assert (H0 : leading_newlines rest = 0).
  { subst rest. pose proof (dropwhile_head (Ascii.eqb LF) t3) as Hd.
    destruct (Py.dropwhile (Ascii.eqb LF) t3); [reflexivity|].
    rewrite leading_newlines_cons, Hd. reflexivity. }
  specialize (H2 H0).
  cbn [app]. rewrite !longest_cons_newline, !leading_newlines_cons, !Ascii.eqb_refl.
  rewrite H2. lia.
Qed.

Lemma leading_le_length (s : str) : leading_newlines s <= length s.
Proof.
  induction s as [|c s IH]; [apply Nat.le_refl|].
  rewrite leading_newlines_cons. destruct (Ascii.eqb LF c); simpl; lia.
Qed.

Lemma leading_app_le (a b : str) : leading_newlines a <= leading_newlines (a ++ b).
Proof.
  induction a as [|c a IH]; [apply Nat.le_0_l|].
  cbn [app]. rewrite !leading_newlines_cons. destruct (Ascii.eqb LF c); lia.
Qed.

(** A run that stops inside [a] is not made longer by what follows [a]. *)
Lemma leading_app_stop (a b : str) :
  leading_newlines a < length a -> leading_newlines (a ++ b) = leading_newlines a.
Proof.
  induction a as [|c a IH]; cbn [length app]; [lia|].
  rewrite !leading_newlines_cons. destruct (Ascii.eqb LF c); intros H; [|reflexivity].
  f_equal. apply IH. lia.
Qed.

Lemma leading_app_all (a b : str) :
  leading_newlines a = length a ->
  leading_newlines (a ++ b) = length a + leading_newlines b.
Proof.
  induction a as [|c a IH]; cbn [length app]; [reflexivity|].
  rewrite !leading_newlines_cons. destruct (Ascii.eqb LF c); intros H; [|discriminate].
  cbn. f_equal. apply IH. lia.
Qed.

Lemma leading_all_rev (a : str) :
  leading_newlines a = length a -> leading_newlines (rev a) = length a.
Proof.
  induction a as [|c a IH]; [reflexivity|].
  rewrite leading_newlines_cons. destruct (Ascii.eqb_spec LF c) as [<-|]; [|discriminate].
  cbn [length rev]. intros H.
  assert (Ha : leading_newlines (rev a) = length (rev a)).
  { rewrite length_rev. apply IH. lia. }
  rewrite (leading_app_all _ _ Ha), length_rev.
  rewrite leading_newlines_cons, Ascii.eqb_refl. cbn. lia.
Qed.

Lemma trailing_cons_le (c : ascii) (s : str) :
  trailing_newlines s <= trailing_newlines (c :: s).
Proof. unfold trailing_newlines. cbn [rev]. apply leading_app_le. Qed.

Lemma longest_app_le (a b : str) :
  longest_newline_run a <= longest_newline_run (a ++ b).
Proof.
  induction a as [|c a IH]; [apply Nat.le_0_l|].
  cbn [app longest_newline_run].
  pose proof (leading_app_le (c :: a) b) as H. cbn [app] in H. lia.
Qed.

(** One more newline at the end lengthens the last run only. *)
Lemma longest_snoc_newline (t : str) :
  longest_newline_run (t ++ [LF])
  <= Nat.max (longest_newline_run t) (S (trailing_newlines t)).
Proof.
  induction t as [|c t IH]; [cbn; lia|].
  cbn [app longest_newline_run].
  pose proof (trailing_cons_le c t) as Ht.
  apply Nat.max_lub; [|lia].
  destruct (Nat.eq_dec (leading_newlines (c :: t)) (length (c :: t))) as [Hall|Hstop].
  - pose proof (leading_all_rev _ Hall) as Hrev. fold (trailing_newlines (c :: t)) in Hrev.
    change (c :: t ++ [LF]) with ((c :: t) ++ [LF]).
    rewrite leading_app_all by exact Hall. cbn [leading_newlines]. rewrite Hrev.
    rewrite leading_newlines_cons, Ascii.eqb_refl. cbn. lia.
  - change (c :: t ++ [LF]) with ((c :: t) ++ [LF]).
    rewrite leading_app_stop; [lia|].
    pose proof (leading_le_length (c :: t)). lia.
Qed.

Lemma sub_leading_newline_longest (count : option nat) (t : str) :
  longest_newline_run (sub_leading_newline count t) <= longest_newline_run t.
Proof.
  unfold sub_leading_newline.
  destruct count as [[|n]|], t as [|c t]; try apply Nat.le_refl;
    (destruct (Ascii.eqb c LF); [apply longest_cons_le | apply Nat.le_refl]).
Qed.

(** [\n$] takes the last one or two newlines of the text away. *)
Lemma sub_trailing_newline_spec (u : str) (m : nat) :
  2 <= m ->
  exists j, u = Py.sub match_trailing_newline (Some m) u ++ repeat LF j
            /\ (j = 2 \/ (j <= 1
                          /\ trailing_newlines (Py.sub match_trailing_newline (Some m) u) = 0)).
Proof.
  intros Hm. destruct m as [|[|m]]; [lia | lia | clear Hm].
  induction u as [|c s IH].
  { exists 0. split; [reflexivity | right; split; [lia | reflexivity]]. }
  destruct s as [|d [|e s]].
  - destruct (Ascii.eqb_spec c LF) as [->|Hc].
    + exists 1. split; [reflexivity | right; split; [lia | reflexivity]].
    + exists 0. rewrite sub_no_match.
      2:{ cbn. destruct (Ascii.eqb_spec c LF); [congruence | reflexivity]. }
      split; [reflexivity | right; split; [lia|]].
      unfold trailing_newlines. cbn [rev app Py.sub Py.sub_go].
      rewrite leading_newlines_cons.
      destruct (Ascii.eqb_spec LF c); [congruence | reflexivity].
  - destruct (Ascii.eqb_spec c LF) as [->|Hc], (Ascii.eqb_spec d LF) as [->|Hd].
    + exists 2. split; [reflexivity | now left].
    + exists 0. rewrite sub_no_match.
      2:{ cbn. destruct (Ascii.eqb_spec d LF); [congruence | reflexivity]. }
      rewrite sub_no_match.
      2:{ cbn. destruct (Ascii.eqb_spec d LF); [congruence | reflexivity]. }
      split; [reflexivity | right; split; [lia|]].
      unfold trailing_newlines. cbn [rev app Py.sub Py.sub_go].
      rewrite leading_newlines_cons.
      destruct (Ascii.eqb_spec LF d); [congruence | reflexivity].
    + exists 1. rewrite sub_no_match.
      2:{ cbn. destruct (Ascii.eqb_spec c LF); [congruence | reflexivity]. }
      split; [reflexivity | right; split; [lia|]].
      unfold trailing_newlines. cbn [rev app Py.sub Py.sub_go match_trailing_newline].
      rewrite Ascii.eqb_refl. cbn [rev app Py.sub Py.sub_go].
      rewrite leading_newlines_cons.
      destruct (Ascii.eqb_spec LF c); [congruence | reflexivity].
    + exists 0. rewrite sub_no_match.
      2:{ cbn. destruct (Ascii.eqb_spec c LF); [congruence | reflexivity]. }
      rewrite sub_no_match.
      2:{ cbn. destruct (Ascii.eqb_spec d LF); [congruence | reflexivity]. }
      split; [reflexivity | right; split; [lia|]].
      unfold trailing_newlines. cbn [rev app Py.sub Py.sub_go].
      rewrite leading_newlines_cons.
      destruct (Ascii.eqb_spec LF d); [congruence | reflexivity].
  - destruct IH as (j & Hu & Hj).
    rewrite sub_no_match by reflexivity.
    set (t := Py.sub match_trailing_newline (Some (S (S m))) (d :: e :: s)) in *.
    exists j. split; [cbn [app]; now rewrite <- Hu|].
    destruct Hj as [Hj|[Hj Ht]]; [now left | right; split; [exact Hj|]].
    destruct (rev t) as [|x r] eqn:Hrev.
    { apply (f_equal (@length ascii)) in Hu. rewrite length_app, repeat_length in Hu.
      apply (f_equal (@length ascii)) in Hrev. rewrite length_rev in Hrev.
      cbn [length] in Hu, Hrev. lia. }
    unfold trailing_newlines in *. cbn [rev]. rewrite Hrev in *.
    rewrite leading_newlines_cons in Ht. cbn [app].
    rewrite leading_newlines_cons. destruct (Ascii.eqb LF x); [discriminate | reflexivity].
Qed.

Lemma squash_longest (text : str) :
  long_newline_runs false text <= re_MULTILINE ->
  longest_newline_run (squash text ++ [LF]) <= 3.
Proof.
  intros Hruns. unfold squash.
  destruct (sub_newlines_longest (length text) text re_MULTILINE (Nat.le_refl _) Hruns)
    as [H1 _].
  set (t1 := Py.sub match_newlines (Some re_MULTILINE) text) in *.
  pose proof (sub_leading_newline_longest (Some re_MULTILINE) t1) as H2.
  set (t2 := sub_leading_newline (Some re_MULTILINE) t1) in *.
  destruct (sub_trailing_newline_spec t2 re_MULTILINE) as (j & Hu & Hj);
    [unfold re_MULTILINE; lia|].
  set (t3 := Py.sub match_trailing_newline (Some re_MULTILINE) t2) in *.
  destruct Hj as [->|[Hj Ht]].
  - apply Nat.le_trans with (longest_newline_run t2); [|lia].
    rewrite Hu. change (repeat LF 2) with ([LF] ++ [LF]).
    rewrite app_assoc. apply longest_app_le.
  - pose proof (longest_snoc_newline t3) as H3. rewrite Ht in H3.
    pose proof (longest_app_le t3 (repeat LF j)) as H4. rewrite <- Hu in H4. lia.
Qed.

(** *** The three substitutions, read character by character *)

Lemma cut_long_runs_run (t : str) :
  forall run,
    cut_long_runs run t
    = firstn (3 - run) (Py.takewhile (Ascii.eqb LF) t)
      ++ cut_long_runs 0 (Py.dropwhile (Ascii.eqb LF) t).
Proof.
  induction t as [|c t IH]; intros run; [now destruct (3 - run)|].
  cbn [cut_long_runs Py.takewhile Py.dropwhile].
  rewrite (Ascii.eqb_sym LF c). destruct (Ascii.eqb c LF) eqn:E.
  - rewrite IH. destruct (Nat.ltb_spec run 3) as [Hr|Hr].
    + replace (3 - run) with (S (3 - S run)) by lia. reflexivity.
    + replace (3 - run) with 0 by lia. replace (3 - S run) with 0 by lia. reflexivity.
  - cbn [cut_long_runs]. rewrite E. now destruct (3 - run).
Qed.

Lemma takewhile_dropwhile (f : ascii -> bool) (s : str) :
  s = Py.takewhile f s ++ Py.dropwhile f s.
Proof.
  induction s as [|c s IH]; [reflexivity|]. cbn [Py.takewhile Py.dropwhile].
  destruct (f c); [cbn [app]; now f_equal | reflexivity].
Qed.

Lemma sub_over_prefix (try_match : str -> option (str * nat)) (cnt : option nat)
  (T R : str) :
  (forall k, k < length T -> try_match (skipn k T ++ R) = None) ->
  Py.sub try_match cnt (T ++ R) = T ++ Py.sub try_match cnt R.
Proof.
  induction T as [|t0 T IH]; intros H; [reflexivity|].
  cbn [app]. rewrite sub_no_match by (apply (H 0); cbn; lia).
  f_equal. apply IH. intros k Hk. apply (H (S k)). cbn [length]. lia.
Qed.

Lemma firstn_repeat (a : ascii) (k n : nat) :
  firstn k (repeat a n) = repeat a (Nat.min k n).
Proof.
  revert n. induction k as [|k IH]; intros [|n]; cbn [firstn repeat Nat.min]; try reflexivity.
  now rewrite IH.
Qed.

Lemma skipn_repeat (a : ascii) (k n : nat) : skipn k (repeat a n) = repeat a (n - k).
Proof.
  revert n. induction k as [|k IH]; intros [|n]; cbn [skipn repeat Nat.sub]; try reflexivity.
  apply IH.
Qed.

Lemma takewhile_newlines (t : str) :
  Py.takewhile (Ascii.eqb LF) t = repeat LF (leading_newlines t).
Proof.
  unfold leading_newlines. induction t as [|c t IH]; [reflexivity|].
  cbn [Py.takewhile]. destruct (Ascii.eqb_spec LF c) as [<-|]; [|reflexivity].
  cbn [length repeat]. now rewrite <- IH.
Qed.

Lemma long_runs_short_run (t : str) :
  leading_newlines t < 3 ->
  long_newline_runs false t = long_newline_runs false (Py.dropwhile (Ascii.eqb LF) t).
Proof.
  destruct t as [|c t]; [reflexivity|]. intros H.
  cbn [long_newline_runs Py.dropwhile]. destruct (Ascii.eqb LF c) eqn:E.
  - replace (3 <=? leading_newlines (c :: t))%nat with false
      by (symmetry; apply Nat.leb_gt; exact H).
    cbn [negb andb Nat.add]. apply long_runs_in_run.
  - cbn [long_newline_runs]. now rewrite E.
Qed.

Lemma long_runs_long_run (t : str) :
  3 <= leading_newlines t ->
  long_newline_runs false t
  = S (long_newline_runs false (Py.dropwhile (Ascii.eqb LF) t)).
Proof.
  destruct t as [|c t]; [cbn; lia|]. intros H.
  cbn [long_newline_runs Py.dropwhile]. rewrite leading_newlines_cons in H.
  destruct (Ascii.eqb LF c) eqn:E; [|lia].
  replace (3 <=? leading_newlines (c :: t))%nat with true
    by (symmetry; apply Nat.leb_le; rewrite leading_newlines_cons, E; exact H).
  cbn [negb andb Nat.add]. now rewrite long_runs_in_run.
Qed.

(** [\n{3,}], while its count lasts: every run of newlines is cut to its
    first three. *)
Lemma sub_newlines_cut (len : nat) :
  forall (t : str) (m : nat),
    length t <= len ->
    long_newline_runs false t <= m ->
    Py.sub match_newlines (Some m) t = cut_long_runs 0 t.
Proof.
  induction len as [|len IH]; intros [|c t] m Hl Hm; try reflexivity; [cbn in Hl; lia|].
  cbn [length] in Hl. destruct (Ascii.eqb_spec c LF) as [->|Hc].
  - set (s := LF :: t) in *.
    assert (Hlead : leading_newlines s = S (leading_newlines t))
      by (unfold s; now rewrite leading_newlines_cons, Ascii.eqb_refl).
    assert (Hdrop : length (Py.dropwhile (Ascii.eqb LF) s) <= len).
    { unfold s. cbn [Py.dropwhile]. rewrite Ascii.eqb_refl.
      pose proof (length_dropwhile (Ascii.eqb LF) t). lia. }
    rewrite cut_long_runs_run, takewhile_newlines. cbn [Nat.sub].
    destruct (Nat.le_gt_cases 3 (leading_newlines s)) as [H3|H3].
    + rewrite (long_runs_long_run s H3) in Hm. destruct m as [|m]; [lia|].
      unfold s at 1.
      rewrite (sub_match _ (Some (S m)) LF t [LF; LF; LF] (leading_newlines s)
                 ltac:(discriminate)).
      2:{ unfold match_newlines. fold s. fold (leading_newlines s).
          replace (3 <=? leading_newlines s)%nat with true
            by (symmetry; now apply Nat.leb_le).
          reflexivity. }
      cbn [option_map pred]. rewrite Hlead. cbn [pred].
      unfold leading_newlines at 1. rewrite skipn_takewhile.
      replace (Py.dropwhile (Ascii.eqb LF) t) with (Py.dropwhile (Ascii.eqb LF) s)
        by (unfold s; cbn [Py.dropwhile]; now rewrite Ascii.eqb_refl).
      rewrite IH by (assumption || lia). f_equal.
      rewrite firstn_repeat, Nat.min_l by lia. reflexivity.
    + rewrite (long_runs_short_run s H3) in Hm.
      rewrite (takewhile_dropwhile (Ascii.eqb LF) s) at 1.
      rewrite sub_over_prefix.
      * rewrite IH by assumption. rewrite takewhile_newlines. f_equal.
        rewrite firstn_all2; [reflexivity | rewrite repeat_length; lia].
      * intros k Hk. rewrite takewhile_newlines, repeat_length in Hk.
        unfold match_newlines.
        replace (Py.takewhile (Ascii.eqb LF)
                   (skipn k (Py.takewhile (Ascii.eqb LF) s)
                    ++ Py.dropwhile (Ascii.eqb LF) s))
          with (skipn k (Py.takewhile (Ascii.eqb LF) s)).
        { rewrite length_skipn, takewhile_newlines, repeat_length.
          replace (3 <=? leading_newlines s - k)%nat with false
            by (symmetry; apply Nat.leb_gt; lia).
          reflexivity. }
        rewrite takewhile_newlines, skipn_repeat.
        pose proof (dropwhile_head (Ascii.eqb LF) s) as Hh.
        generalize (leading_newlines s - k). intros j.
        induction j as [|j IHj]; cbn [repeat app Py.takewhile].
        -- destruct (Py.dropwhile (Ascii.eqb LF) s); [reflexivity|].
           cbn [Py.takewhile]. now rewrite Hh.
        -- now rewrite Ascii.eqb_refl, <- IHj.
  - rewrite sub_no_match by now apply match_newlines_other.
    cbn [cut_long_runs]. replace (Ascii.eqb c LF) with false
      by (symmetry; now apply Ascii.eqb_neq).
    f_equal. apply IH; [lia|].
    cbn [long_newline_runs] in Hm.
    replace (Ascii.eqb LF c) with false in Hm
      by (symmetry; apply Ascii.eqb_neq; congruence).
    exact Hm.
Qed.

Lemma sub_leading_newline_first (t : str) :
  sub_leading_newline (Some re_MULTILINE) t = without_first_newline t.
Proof. now destruct t. Qed.

(** [\n$] takes the last two characters away, as far as they are
    newlines. *)
Lemma sub_trailing_newline_final (u : str) :
  Py.sub match_trailing_newline (Some re_MULTILINE) u = without_final_newlines u.
Proof.
  destruct (sub_trailing_newline_spec u re_MULTILINE) as (j & Hu & Hj);
    [unfold re_MULTILINE; lia|].
  set (r := Py.sub match_trailing_newline (Some re_MULTILINE) u) in *. clearbody r.
  unfold without_final_newlines. subst u.
  rewrite rev_app_distr, rev_repeat.
  destruct Hj as [-> | [Hj Hr]].
  - change (drop_newlines 2 (repeat LF 2 ++ rev r)) with (rev r).
    symmetry. apply rev_involutive.
  - assert (Hd : forall n, drop_newlines n (rev r) = rev r).
    { intros n. unfold trailing_newlines in Hr. destruct (rev r) as [|x q]; [now destruct n|].
      rewrite leading_newlines_cons in Hr. destruct n as [|n]; [reflexivity|].
      cbn [drop_newlines]. rewrite (Ascii.eqb_sym x LF).
      now destruct (Ascii.eqb LF x). }
    destruct j as [|[|j]]; [| |lia].
    + cbn [repeat app]. now rewrite Hd, rev_involutive.
    + change (drop_newlines 2 (repeat LF 1 ++ rev r)) with (drop_newlines 1 (rev r)).
      now rewrite Hd, rev_involutive.
Qed.

Lemma squash_reads (text : str) :
  long_newline_runs false text <= re_MULTILINE ->
  squash text
  = without_final_newlines (without_first_newline (cut_long_runs 0 text)).
Proof.
  intros H. unfold squash.
  rewrite (sub_newlines_cut (length text) text re_MULTILINE (Nat.le_refl _) H).
  now rewrite sub_leading_newline_first, sub_trailing_newline_final.
Qed.

(** ** The result of [format_string] on given documents *)

(** C10.  The empty document is formatted to the one-character text made of
    a newline. *)
Theorem format_string_empty :
  format_string default_options [] = [LF].
Proof. reflexivity. Qed.

(** C1.  On [server{listen 80;server_name a.com;}] with an indentation of 4
    the cleaner splits the line at its semicolons and puts a semicolon
    behind every piece, also behind the closing brace, which was behind the
    last semicolon: the result has a fifth line that holds a semicolon. *)
Theorem format_string_server_block :
  format_string {| indentation := 4 |} (lit "server{listen 80;server_name a.com;}")
  = lit "server {" ++ [LF]
    ++ lit "    listen 80;" ++ [LF]
    ++ lit "    server_name a.com;" ++ [LF]
    ++ lit "}" ++ [LF]
    ++ lit ";" ++ [LF].
Proof. vm_compute. reflexivity. Qed.

(** ** The newlines of the result *)

(** C2 fails on two directives with three empty lines between them: the run
    of four newlines is cut to three, not to two. *)
Lemma format_string_keeps_three_newlines :
  ~ one_final_newline_no_long_run
      (format_string default_options (lit "a;" ++ [LF; LF; LF; LF] ++ lit "b;")).
Proof. intros [_ H]. vm_compute in H. lia. Qed.

(** C2, amended.  The result ends with a newline, whatever the document.
    When the text joined from the indented lines has at most
    [re.MULTILINE] runs of three or more newlines, the result is that text
    with every run of newlines cut to its first three, without the newline
    it begins with, without its last two characters as far as they are
    newlines, and with a newline behind it; so it has no run of more than
    three newlines. *)
Theorem format_string_newlines (options : FormatterOptions) (contents : str) :
  Py.endswith [LF] (format_string options contents) = true
  /\ (long_newline_runs false (indented_text options contents) <= re_MULTILINE ->
      format_string options contents
      = without_final_newlines
          (without_first_newline (cut_long_runs 0 (indented_text options contents)))
        ++ [LF]
      /\ longest_newline_run (format_string options contents) <= 3).
Proof.
  unfold format_string. split.
  - unfold Py.endswith. rewrite rev_app_distr. reflexivity.
  - intros H. split; [now rewrite squash_reads | now apply squash_longest].
Qed.

Lemma format_string_newlines_witness :
  let contents := lit "a;" ++ [LF; LF; LF; LF; LF] ++ lit "b {" ++ [LF; LF; LF] ++ lit "}" in
  format_string default_options contents
  = lit "a;" ++ [LF; LF; LF] ++ lit "b {" ++ [LF; LF; LF] ++ lit "}" ++ [LF]
  /\ longest_newline_run (format_string default_options contents) <= 3.
Proof.
  intros contents.
  destruct (proj2 (format_string_newlines default_options contents)) as [H1 H2].
  - vm_compute. lia.
  - split; [rewrite H1; reflexivity | exact H2].
Defined.

(** ** Counting characters *)

Lemma count_app (c : ascii) (a b : str) :
  Py.count c (a ++ b) = Py.count c a + Py.count c b.
Proof. induction a as [|x a IH]; simpl; [reflexivity | rewrite IH; lia]. Qed.

Lemma count_rev (c : ascii) (a : str) : Py.count c (rev a) = Py.count c a.
Proof.
  induction a as [|x a IH]; [reflexivity|].
  cbn [rev]. rewrite count_app, IH. simpl. lia.
Qed.

Lemma count_dropwhile_le (c : ascii) (f : ascii -> bool) (a : str) :
  Py.count c (Py.dropwhile f a) <= Py.count c a.
Proof.
  induction a as [|x a IH]; [apply Nat.le_refl|].
  cbn [Py.dropwhile]. destruct (f x); [simpl; lia | apply Nat.le_refl].
Qed.

Lemma count_strip_le (c : ascii) (a : str) : Py.count c (Py.strip a) <= Py.count c a.
Proof.
  unfold Py.strip, Py.rstrip, Py.lstrip. rewrite count_rev.
  eapply Nat.le_trans; [apply count_dropwhile_le|].
  rewrite count_rev. apply count_dropwhile_le.
Qed.

Lemma count_skipn_le (c : ascii) (k : nat) (a : str) :
  Py.count c (skipn k a) <= Py.count c a.
Proof.
  revert k. induction a as [|x a IH]; intros [|k]; simpl; try lia.
  specialize (IH k). lia.
Qed.

Lemma count_le_length (c : ascii) (a : str) : Py.count c a <= length a.
Proof. induction a as [|x a IH]; simpl; [|destruct (Ascii.eqb x c)]; lia. Qed.

(** A substitution whose replacements hold no [c] adds no [c]. *)
Lemma sub_count_le (try_match : str -> option (str * nat)) (c : ascii) :
  (forall s r n, try_match s = Some (r, n) -> Py.count c r = 0) ->
  forall (len : nat) (s : str) (cnt : option nat),
    length s <= len -> Py.count c (Py.sub try_match cnt s) <= Py.count c s.
Proof.
  intros Hr. induction len as [|len IH]; intros s cnt Hlen.
  { destruct s; [apply Nat.le_refl | simpl in Hlen; lia]. }
  destruct s as [|x s]; [apply Nat.le_refl|]. cbn [length] in Hlen.
  destruct cnt as [[|m]|].
  - rewrite sub_done. apply Nat.le_refl.
  - destruct (try_match (x :: s)) as [[r n]|] eqn:E.
    + rewrite (sub_match _ (Some (S m)) _ _ _ _ ltac:(discriminate) E), count_app, (Hr _ _ _ E).
      eapply Nat.le_trans; [apply IH; rewrite length_skipn; lia|].
      eapply Nat.le_trans; [apply count_skipn_le|]. simpl. lia.
    + rewrite (sub_no_match _ _ _ _ E). specialize (IH s (Some (S m))). simpl. lia.
  - destruct (try_match (x :: s)) as [[r n]|] eqn:E.
    + rewrite (sub_match _ None _ _ _ _ ltac:(discriminate) E), count_app, (Hr _ _ _ E).
      eapply Nat.le_trans; [apply IH; rewrite length_skipn; lia|].
      eapply Nat.le_trans; [apply count_skipn_le|]. simpl. lia.
    + rewrite (sub_no_match _ _ _ _ E). specialize (IH s None). simpl. lia.
Qed.

Lemma split_cons (d c : ascii) (s : str) :
  Py.split d (c :: s)
  = if Ascii.eqb c d then [] :: Py.split d s
    else match Py.split d s with
         | p :: ps => (c :: p) :: ps
         | [] => [[c]]
         end.
Proof. reflexivity. Qed.

Lemma split_not_nil (d : ascii) (s : str) : Py.split d s <> [].
Proof.
  induction s as [|c s IH]; [discriminate|].
  rewrite split_cons. destruct (Ascii.eqb c d); [discriminate|].
  destruct (Py.split d s); discriminate.
Qed.

Lemma total_split (c d : ascii) (s : str) :
  c <> d -> total c (Py.split d s) = Py.count c s.
Proof.
  intros Hcd. induction s as [|x s IH]; [reflexivity|].
  rewrite split_cons. destruct (Ascii.eqb_spec x d) as [->|Hx].
  - change (total c ([] :: Py.split d s)) with (0 + total c (Py.split d s)).
    rewrite IH. cbn [Py.count].
    destruct (Ascii.eqb_spec d c); [congruence | reflexivity].
  - pose proof (split_not_nil d s) as Hne.
    destruct (Py.split d s) as [|p ps]; [congruence|].
    change (total c ((x :: p) :: ps)) with (Py.count c (x :: p) + total c ps).
    change (total c (p :: ps)) with (Py.count c p + total c ps) in IH.
    cbn [Py.count]. lia.
Qed.

Lemma join_cons2 (sep p q : str) (ps : list str) :
  Py.join sep (p :: q :: ps) = p ++ sep ++ Py.join sep (q :: ps).
Proof. reflexivity. Qed.

Lemma count_join (c d : ascii) (parts : list str) :
  c <> d -> Py.count c (Py.join [d] parts) = total c parts.
Proof.
  intros Hcd. induction parts as [|p [|q ps] IH]; [reflexivity | |].
  - unfold total. simpl. lia.
  - rewrite join_cons2, !count_app, IH.
    change (total c (p :: q :: ps)) with (Py.count c p + total c (q :: ps)).
    cbn [Py.count]. destruct (Ascii.eqb_spec d c); [congruence | lia].
Qed.

Lemma count_takewhile (c : ascii) (f : ascii -> bool) (s : str) :
  f c = false -> Py.count c (Py.takewhile f s) = 0.
Proof.
  intros Hc. induction s as [|x s IH]; [reflexivity|].
  cbn [Py.takewhile]. destruct (f x) eqn:E; [|reflexivity].
  cbn [Py.count]. rewrite IH.
  destruct (Ascii.eqb_spec x c); [congruence | reflexivity].
Qed.

Lemma count_collapse_spaces_le (part : str) :
  Py.count ";" (collapse_spaces part) <= Py.count ";" part.
Proof.
  apply sub_count_le with (len := length part); [|apply Nat.le_refl].
  intros s r n. unfold match_spaces.
  destruct (Py.takewhile isspace s); [discriminate|].
  intros [= <- _]. reflexivity.
Qed.

Lemma total_strip_parts_le (within_quotes : bool) (ps : list str) :
  total ";" (strip_parts within_quotes ps) <= total ";" ps.
Proof.
  revert within_quotes. induction ps as [|p ps IH]; intros b; [apply Nat.le_refl|].
  cbn [strip_parts].
  change (total ";" (?x :: ?l)) with (Py.count ";" x + total ";" l).
  specialize (IH (negb b)). pose proof (count_collapse_spaces_le p).
  destruct b; lia.
Qed.

Lemma count_strip_line_le (single_line : str) :
  Py.count ";" (_strip_line single_line) <= Py.count ";" single_line.
Proof.
  unfold _strip_line. pose proof (count_strip_le ";" single_line) as Hs.
  destruct (Py.startswith ["#"] (Py.strip single_line)); [exact Hs|].
  rewrite count_join by discriminate.
  eapply Nat.le_trans; [apply total_strip_parts_le|].
  rewrite total_split by discriminate. exact Hs.
Qed.

Lemma count_apply_variable_le (line : str) :
  Py.count ";" (apply_variable_template_tags line) <= Py.count ";" line.
Proof.
  apply sub_count_le with (len := length line); [|apply Nat.le_refl].
  intros s r n. unfold match_variable.
  destruct s as [|c1 s]; [discriminate|].
  destruct c1 as [[] [] [] [] [] [] [] []]; try discriminate.
  destruct s as [|c2 s1]; [discriminate|].
  destruct c2 as [[] [] [] [] [] [] [] []]; try discriminate.
  pose proof (count_takewhile ";" isword (Py.dropwhile isspace s1) eq_refl) as Hw.
  destruct (Py.takewhile isword (Py.dropwhile isspace s1)) as [|w0 w]; [discriminate|].
  destruct (Py.dropwhile isspace (Py.dropwhile isword (Py.dropwhile isspace s1)))
    as [|c3 ?]; [discriminate|].
  destruct c3 as [[] [] [] [] [] [] [] []]; try discriminate.
  assert (Hr : Py.count ";" (_TEMPLATE_VARIABLE_OPENING_TAG ++ (w0 :: w)
                              ++ _TEMPLATE_VARIABLE_CLOSING_TAG) = 0)
    by (rewrite !count_app, Hw; reflexivity).
  intros [= <- _]. exact Hr.
Qed.

(** The line as [clean_lines] has it when it looks for semicolons. *)
Lemma count_cleaned_le (line : str) :
  Py.count ";" (apply_variable_template_tags (_strip_line line)) <= Py.count ";" line.
Proof.
  eapply Nat.le_trans; [apply count_apply_variable_le | apply count_strip_line_le].
Qed.

(** ** The lines of [multi_semicolon] *)

Lemma count_parts_snd (s : str) :
  forall (within_quotes : bool) (q c : nat),
    snd (count_parts within_quotes q c (Py.split DQUOTE s))
    = c + unquoted_semicolons within_quotes s.
Proof.
  induction s as [|x s IH]; intros b q c.
  - destruct b; cbn; lia.
  - rewrite split_cons. cbn [unquoted_semicolons].
    destruct (Ascii.eqb_spec x DQUOTE) as [->|Hx].
    + cbn [count_parts]. destruct b; rewrite IH; cbn [negb Py.count]; lia.
    + pose proof (split_not_nil DQUOTE s) as Hne. specialize (IH b).
      destruct (Py.split DQUOTE s) as [|p ps]; [congruence|].
      cbn [count_parts] in *. destruct b.
      * rewrite (IH 1 c). cbn [negb andb]. rewrite andb_false_r. lia.
      * cbn [negb andb]. rewrite andb_true_r.
        specialize (IH q (c + (if Ascii.eqb x ";" then 1 else 0))).
        cbn [Py.count]. rewrite !Nat.add_assoc. exact IH.
Qed.

Lemma replace_semicolon_cons (c : ascii) (p : str) :
  Py.replace [";"] [";"; LF] (c :: p)
  = if Ascii.eqb c ";" then c :: LF :: Py.replace [";"] [";"; LF] p
    else c :: Py.replace [";"] [";"; LF] p.
Proof.
  unfold Py.replace. destruct (Ascii.eqb_spec c ";") as [->|Hc].
  - now rewrite (sub_match _ None ";" p [";"; LF] 1 ltac:(discriminate) eq_refl).
  - apply sub_no_match. cbn [Py.startswith].
    destruct (Ascii.eqb_spec ";" c); [congruence | reflexivity].
Qed.

(** [multi_semicolon] joins the parts it has split; the result is the line
    with a newline behind each semicolon outside double quotes. *)
Lemma join_semicolon_parts (s : str) (within_quotes : bool) :
  Py.join [DQUOTE] (semicolon_parts within_quotes (Py.split DQUOTE s))
  = break_after_semicolons within_quotes s.
Proof.
  revert within_quotes. induction s as [|x s IH]; intros b.
  - destruct b; reflexivity.
  - rewrite split_cons. cbn [break_after_semicolons].
    pose proof (split_not_nil DQUOTE s) as Hne. specialize (IH b) as IHb.
    destruct (Ascii.eqb_spec x DQUOTE) as [->|Hx].
    + cbn [semicolon_parts]. rewrite <- (IH (negb b)).
      destruct (Py.split DQUOTE s) as [|p ps]; [congruence|].
      cbn [semicolon_parts]. rewrite join_cons2. now destruct b.
    + destruct (Py.split DQUOTE s) as [|p ps]; [congruence|].
      cbn [semicolon_parts] in *.
      assert (Hj : forall a p' rest, Py.join [DQUOTE] ((a ++ p') :: rest)
                                     = a ++ Py.join [DQUOTE] (p' :: rest)).
      { intros a p' [|r rest]; [reflexivity|].
        now rewrite !join_cons2, <- app_assoc. }
      destruct b; cbn [negb andb].
      * rewrite andb_false_r, <- IHb. apply (Hj [x]).
      * rewrite andb_true_r, replace_semicolon_cons, <- IHb.
        destruct (Ascii.eqb x ";"); [apply (Hj [x; LF]) | apply (Hj [x])].
Qed.

Lemma splitlines_newline (s : str) : Py.splitlines (LF :: s) = [] :: Py.splitlines s.
Proof. destruct s; reflexivity. Qed.

Lemma splitlines_other (c : ascii) (s : str) :
  is_linebreak c = false ->
  Py.splitlines (c :: s)
  = match Py.splitlines s with
    | p :: ps => (c :: p) :: ps
    | [] => [[c]]
    end.
Proof. intros H. cbn [Py.splitlines]. now rewrite H. Qed.

Lemma splitlines_linebreak (c : ascii) (s f : str) :
  is_linebreak c = true ->
  In f (Py.splitlines (c :: s)) -> f = [] \/ In f (Py.splitlines s).
Proof.
  intros H. cbn [Py.splitlines]. rewrite H.
  destruct s as [|d s]; [intros [<-|[]]; now left|].
  destruct (Ascii.eqb c CR && Ascii.eqb d LF) eqn:E.
  - apply andb_prop in E as [_ Ed]. apply Ascii.eqb_eq in Ed as ->.
    rewrite splitlines_newline. intros [<-|Hin]; [now left | right; now right].
  - intros [<-|Hin]; [now left | now right].
Qed.

Section Weight.
Variable w : ascii -> nat.
Hypothesis w_semicolon : w ";" = 1.

Lemma unquoted_le_weight (s : str) (within_quotes : bool) :
  unquoted_semicolons within_quotes s <= weight w s.
Proof.
  revert within_quotes. induction s as [|x s IH]; intros b; [apply Nat.le_refl|].
  cbn [unquoted_semicolons]. change (weight w (x :: s)) with (w x + weight w s).
  destruct (Ascii.eqb x DQUOTE); [specialize (IH (negb b)); lia|].
  specialize (IH b). destruct (Ascii.eqb_spec x ";") as [->|]; cbn [andb]; [|lia].
  rewrite w_semicolon. destruct (negb b); lia.
Qed.

(** A line of the broken text misses all semicolons outside quotes but,
    at most, the one at its end. *)
Lemma splitlines_break_weight (s : str) :
  forall (within_quotes : bool) (f : str),
    In f (Py.splitlines (break_after_semicolons within_quotes s)) ->
    weight w f + unquoted_semicolons within_quotes s <= weight w s + 1.
Proof.
  induction s as [|x s IH]; intros b f; [intros []|].
  cbn [break_after_semicolons unquoted_semicolons].
  change (weight w (x :: s)) with (w x + weight w s).
  assert (Hcons : forall b',
             is_linebreak x = false ->
             In f (Py.splitlines (x :: break_after_semicolons b' s)) ->
             weight w f + unquoted_semicolons b' s <= w x + weight w s + 1).
  { intros b' Hx. rewrite splitlines_other by exact Hx.
    pose proof (IH b') as IHb. pose proof (unquoted_le_weight s b').
    destruct (Py.splitlines (break_after_semicolons b' s)) as [|p ps].
    - intros [<-|[]]. change (weight w [x]) with (w x + 0). lia.
    - intros [<-|Hin].
      + change (weight w (x :: p)) with (w x + weight w p).
        specialize (IHb p (or_introl eq_refl)). lia.
      + specialize (IHb f (or_intror Hin)). lia. }
  destruct (Ascii.eqb_spec x DQUOTE) as [->|Hq]; [now apply Hcons|].
  destruct (Ascii.eqb_spec x ";") as [->|Hs]; cbn [andb].
  - destruct b; cbn [negb]; [now apply Hcons|].
    rewrite splitlines_other, splitlines_newline by reflexivity.
    rewrite w_semicolon. pose proof (unquoted_le_weight s false).
    intros [<-|Hin].
    + change (weight w [";"]) with (w ";" + 0). rewrite w_semicolon. lia.
    + specialize (IH false f Hin). lia.
  - destruct (is_linebreak x) eqn:Hx; [|now apply Hcons].
    intros Hin. apply splitlines_linebreak in Hin; [|exact Hx].
    pose proof (unquoted_le_weight s b).
    destruct Hin as [->|Hin]; [cbn; lia|].
    specialize (IH b f Hin). lia.
Qed.

End Weight.

Lemma weight_length (s : str) : weight (fun _ => 1) s = length s.
Proof.
  induction s as [|x s IH]; [reflexivity|].
  change (weight ?w (x :: s)) with (w x + weight w s). now rewrite IH.
Qed.

Lemma weight_count (s : str) :
  weight (fun c => if Ascii.eqb c ";" then 1 else 0) s = Py.count ";" s.
Proof.
  induction s as [|x s IH]; [reflexivity|].
  change (weight ?w (x :: s)) with (w x + weight w s). now rewrite IH.
Qed.

Lemma length_strip_le (s : str) : length (Py.strip s) <= length s.
Proof.
  unfold Py.strip, Py.rstrip, Py.lstrip. rewrite length_rev.
  eapply Nat.le_trans; [apply length_dropwhile|]. rewrite length_rev.
  apply length_dropwhile.
Qed.

Lemma split_piece (d : ascii) (s p : str) :
  In p (Py.split d s) -> Py.count d p = 0 /\ length p + Py.count d s <= length s.
Proof.
  revert p. induction s as [|x s IH]; intros p.
  - intros [<-|[]]. split; [reflexivity | apply Nat.le_refl].
  - rewrite split_cons. cbn [Py.count length].
    pose proof (count_le_length d s) as Hle.
    destruct (Ascii.eqb_spec x d) as [->|Hx].
    + intros [<-|Hin]; [split; [reflexivity | cbn; lia]|].
      destruct (IH p Hin). split; [assumption | lia].
    + pose proof (split_not_nil d s) as Hne.
      destruct (Py.split d s) as [|p0 ps]; [congruence|].
      intros [<-|Hin].
      * destruct (IH p0 (or_introl eq_refl)) as [H1 H2]. cbn [Py.count length].
        destruct (Ascii.eqb_spec x d); [congruence|]. split; [exact H1 | lia].
      * destruct (IH p (or_intror Hin)). split; [assumption | lia].
Qed.

(** What [_count_multi_semicolon] counts when it counts more than nothing. *)
Lemma count_multi_semicolon_spec (single_line : str) (q c : nat) :
  _count_multi_semicolon single_line = (q, c) ->
  0 < c ->
  Py.startswith ["#"] (Py.strip single_line) = false
  /\ c = unquoted_semicolons false (Py.strip single_line).
Proof.
  unfold _count_multi_semicolon.
  destruct (Py.startswith ["#"] (Py.strip single_line)).
  - intros [= <- <-]. lia.
  - intros H _. split; [reflexivity|].
    pose proof (count_parts_snd (Py.strip single_line) false 0 0) as Hs.
    rewrite H in Hs. exact Hs.
Qed.

Lemma multi_semicolon_spec (single_line : str) :
  Py.startswith ["#"] (Py.strip single_line) = false ->
  multi_semicolon single_line = break_after_semicolons false (Py.strip single_line).
Proof.
  intros H. unfold multi_semicolon. rewrite H. apply join_semicolon_parts.
Qed.

(** The lines [clean_lines] hands to itself are shorter than the line it
    has split, and hold fewer semicolons. *)
Lemma clean_line_recurse (line : str) (sub_lines : list str) :
  clean_line line = Recurse sub_lines ->
  forall f, In f sub_lines ->
    length f < length (apply_variable_template_tags (_strip_line line))
    /\ Py.count ";" f < Py.count ";" (apply_variable_template_tags (_strip_line line)).
Proof.
  unfold clean_line.
  set (line' := apply_variable_template_tags (_strip_line line)).
  destruct (Py.str_eqb line' []); [discriminate|].
  destruct (Py.startswith ["#"] line'); [discriminate|].
  destruct (_count_multi_semicolon line') as [q c] eqn:E.
  destruct ((q =? 1)%nat && (1 <? c)%nat) eqn:E1.
  - apply andb_prop in E1 as [_ Hc]. apply Nat.ltb_lt in Hc.
    destruct (count_multi_semicolon_spec _ _ _ E) as [Hcomment ->]; [lia|].
    intros [= <-] f Hin. rewrite multi_semicolon_spec in Hin by exact Hcomment.
    pose proof (splitlines_break_weight (fun _ => 1) eq_refl _ _ _ Hin) as Hlen.
    rewrite !weight_length in Hlen.
    pose proof (splitlines_break_weight
                  (fun c => if Ascii.eqb c ";" then 1 else 0) eq_refl _ _ _ Hin) as Hcnt.
    rewrite !weight_count in Hcnt.
    pose proof (length_strip_le line'). pose proof (count_strip_le ";" line').
    split; lia.
  - destruct (negb (q =? 1)%nat && (1 <? c)%nat) eqn:E2.
    2:{ destruct (Py.startswith (lit "rewrite") line'); discriminate. }
    apply andb_prop in E2 as [_ Hc]. apply Nat.ltb_lt in Hc.
    destruct (count_multi_semicolon_spec _ _ _ E) as [_ ->]; [lia|].
    pose proof (unquoted_le_weight (fun c => if Ascii.eqb c ";" then 1 else 0)
                  eq_refl (Py.strip line') false) as Hu.
    rewrite weight_count in Hu. pose proof (count_strip_le ";" line') as Hs.
    intros [= <-] f Hin. apply in_map_iff in Hin as (p & <- & Hp).
    apply filter_In in Hp as [Hp _]. apply split_piece in Hp as [H0 Hl].
    rewrite length_app, count_app, H0. cbn. split; lia.
Qed.

Lemma clean_line_recurse_count (line : str) (sub_lines : list str) :
  clean_line line = Recurse sub_lines -> 2 <= Py.count ";" line.
Proof.
  unfold clean_line. pose proof (count_cleaned_le line) as Hle.
  set (line' := apply_variable_template_tags (_strip_line line)) in *.
  destruct (Py.str_eqb line' []); [discriminate|].
  destruct (Py.startswith ["#"] line'); [discriminate|].
  destruct (_count_multi_semicolon line') as [q c] eqn:E.
  pose proof (unquoted_le_weight (fun c => if Ascii.eqb c ";" then 1 else 0)
                eq_refl (Py.strip line') false) as Hu.
  rewrite weight_count in Hu. pose proof (count_strip_le ";" line') as Hs.
  destruct ((q =? 1)%nat && (1 <? c)%nat) eqn:E1.
  - apply andb_prop in E1 as [_ Hc]. apply Nat.ltb_lt in Hc.
    destruct (count_multi_semicolon_spec _ _ _ E) as [_ ->]; lia.
  - destruct (negb (q =? 1)%nat && (1 <? c)%nat) eqn:E2.
    2:{ destruct (Py.startswith (lit "rewrite") line'); discriminate. }
    apply andb_prop in E2 as [_ Hc]. apply Nat.ltb_lt in Hc.
    destruct (count_multi_semicolon_spec _ _ _ E) as [_ ->]; lia.
Qed.

(** ** [clean_lines] returns *)

Lemma clean_lines_fuel_cons (fuel : nat) (line : str) (rest : list str) :
  clean_lines_fuel (S fuel) (line :: rest)
  = match match clean_line line with
          | Emit out => Some out
          | Recurse sub_lines => clean_lines_fuel fuel sub_lines
          end, clean_lines_fuel (S fuel) rest with
    | Some out, Some cleaned => Some (out ++ cleaned)
    | _, _ => None
    end.
Proof. reflexivity. Qed.

(** A call on lines of at most [n] semicolons needs no more than [n] calls
    below it. *)
Lemma clean_lines_fuel_total (n : nat) :
  forall orig_lines,
    (forall line, In line orig_lines -> Py.count ";" line <= n) ->
    exists cleaned, clean_lines_fuel (S n) orig_lines = Some cleaned.
Proof.
  induction n as [|n IHn]; intros orig_lines;
    (induction orig_lines as [|line rest IH]; intros Hn; [now exists []|]);
    rewrite clean_lines_fuel_cons;
    (destruct IH as (cleaned & ->); [intros l Hl; apply Hn; now right|]);
    pose proof (Hn line (or_introl eq_refl)) as Hline;
    destruct (clean_line line) as [out|sub_lines] eqn:E; try (now eexists).
  - apply clean_line_recurse_count in E. lia.
  - destruct (IHn sub_lines) as (out & ->); [|now eexists].
    intros f Hf. pose proof (clean_line_recurse _ _ E f Hf) as [_ Hc].
    pose proof (count_cleaned_le line). lia.
Qed.

Lemma clean_lines_fuel_mono (fuel : nat) :
  forall orig_lines cleaned more,
    clean_lines_fuel fuel orig_lines = Some cleaned ->
    fuel <= more ->
    clean_lines_fuel more orig_lines = Some cleaned.
Proof.
  induction fuel as [|fuel IHf]; intros orig_lines cleaned more; [discriminate|].
  intros H Hle. destruct more as [|more]; [lia|].
  revert cleaned H. induction orig_lines as [|line rest IH]; intros cleaned H; [exact H|].
  rewrite clean_lines_fuel_cons in *.
  destruct (clean_line line) as [out|sub_lines].
  - destruct (clean_lines_fuel (S fuel) rest) as [r|]; [|discriminate].
    now rewrite (IH r eq_refl).
  - destruct (clean_lines_fuel fuel sub_lines) as [out|] eqn:E; [|discriminate].
    rewrite (IHf _ _ more E) by lia.
    destruct (clean_lines_fuel (S fuel) rest) as [r|]; [|discriminate].
    now rewrite (IH r eq_refl).
Qed.

Lemma depth_bound_enough (orig_lines : list str) (line : str) :
  In line orig_lines -> S (Py.count ";" line) <= depth_bound orig_lines.
Proof.
  intros Hin. unfold depth_bound. apply le_n_S.
  pose proof (proj1 (list_max_le (map (Py.count ";") orig_lines) _) (Nat.le_refl _)) as H.
  rewrite Forall_forall in H. apply H. now apply in_map.
Qed.

Lemma clean_lines_returns (orig_lines : list str) :
  clean_lines_fuel (depth_bound orig_lines) orig_lines = Some (clean_lines orig_lines).
Proof.
  unfold clean_lines.
  destruct (clean_lines_fuel_total (list_max (map (Py.count ";") orig_lines)) orig_lines)
    as (cleaned & H).
  { intros line Hin. pose proof (depth_bound_enough _ _ Hin). unfold depth_bound in *. lia. }
  unfold depth_bound. now rewrite H.
Qed.

(** Any depth that gives a result gives the result of [clean_lines]. *)
Lemma clean_lines_fuel_eq (fuel : nat) (orig_lines cleaned : list str) :
  clean_lines_fuel fuel orig_lines = Some cleaned -> cleaned = clean_lines orig_lines.
Proof.
  intros H. pose proof (clean_lines_returns orig_lines) as H'.
  apply clean_lines_fuel_mono with (more := Nat.max fuel (depth_bound orig_lines)) in H, H';
    try lia.
  congruence.
Qed.

Lemma clean_lines_cons (line : str) (rest : list str) :
  clean_lines (line :: rest)
  = match clean_line line with
    | Emit out => out
    | Recurse sub_lines => clean_lines sub_lines
    end ++ clean_lines rest.
Proof.
  symmetry. apply clean_lines_fuel_eq
    with (fuel := S (Nat.max (depth_bound rest)
                             (match clean_line line with
                              | Emit _ => 0
                              | Recurse sub_lines => depth_bound sub_lines
                              end))).
  rewrite clean_lines_fuel_cons.
  rewrite (clean_lines_fuel_mono _ _ _ (S _) (clean_lines_returns rest)) by lia.
  destruct (clean_line line) as [out|sub_lines]; [reflexivity|].
  rewrite (clean_lines_fuel_mono _ _ _ _ (clean_lines_returns sub_lines)) by lia.
  reflexivity.
Qed.

Lemma clean_lines_app (a b : list str) :
  clean_lines (a ++ b) = clean_lines a ++ clean_lines b.
Proof.
  induction a as [|line a IH]; [reflexivity|].
  cbn [app]. now rewrite !clean_lines_cons, IH, app_assoc.
Qed.

(** C8.  [clean_lines] returns on every list of lines.  Whenever it calls
    itself, behind [multi_semicolon] or behind the split at the semicolons,
    every line of the call is strictly shorter than the line it is split
    from, the line as the cleaner has it at that point (stripped, its
    variables tagged); it also holds fewer semicolons than the line of
    [orig_lines], which bounds the depth of the calls. *)
Theorem clean_lines_terminates :
  (forall line sub_lines,
      clean_line line = Recurse sub_lines ->
      forall f, In f sub_lines ->
        length f < length (apply_variable_template_tags (_strip_line line))
        /\ Py.count ";" f < Py.count ";" line)
  /\ (forall orig_lines,
         exists cleaned,
           clean_lines_fuel (depth_bound orig_lines) orig_lines = Some cleaned).
Proof.
  split.
  - intros line sub_lines E f Hf.
    destruct (clean_line_recurse _ _ E f Hf) as [Hl Hc].
    pose proof (count_cleaned_le line). split; [exact Hl | lia].
  - intros orig_lines. eexists. apply clean_lines_returns.
Qed.

Lemma clean_lines_terminates_witness :
  length (lit "a;") < length (apply_variable_template_tags (_strip_line (lit "a;b;")))
  /\ Py.count ";" (lit "a;") < Py.count ";" (lit "a;b;").
Proof.
  apply (proj1 clean_lines_terminates (lit "a;b;") [lit "a;"; lit "b;"]).
  - reflexivity.
  - left. reflexivity.
Defined.

(** ** Lines with a double quote and several semicolons *)

Lemma count_parts_fst_set (ps : list str) :
  forall (within_quotes : bool) (c : nat), fst (count_parts within_quotes 1 c ps) = 1.
Proof.
  induction ps as [|p ps IH]; intros b c; [reflexivity|].
  cbn [count_parts]. destruct b; apply IH.
Qed.

Lemma count_parts_fst_quoted (ps : list str) (q c : nat) :
  ps <> [] -> fst (count_parts true q c ps) = 1.
Proof.
  destruct ps as [|p ps]; [congruence|]. intros _. apply count_parts_fst_set.
Qed.

Lemma count_parts_fst (s : str) :
  forall (within_quotes : bool) (q c : nat),
    0 < quoted_semicolons within_quotes s ->
    fst (count_parts within_quotes q c (Py.split DQUOTE s)) = 1.
Proof.
  induction s as [|x s IH]; intros b q c; [cbn; lia|].
  cbn [quoted_semicolons]. rewrite split_cons.
  pose proof (split_not_nil DQUOTE s) as Hne.
  destruct (Ascii.eqb_spec x DQUOTE) as [->|Hx]; intros H.
  - cbn [count_parts]. destruct b;
      [apply count_parts_fst_set | now apply count_parts_fst_quoted].
  - destruct (Py.split DQUOTE s) as [|p ps] eqn:Es; [congruence|].
    destruct b; [apply count_parts_fst_set|].
    rewrite andb_false_r in H.
    specialize (IH false q (c + (if Ascii.eqb x ";" then 1 else 0)) H).
    cbn [count_parts] in *. cbn [Py.count]. rewrite Nat.add_assoc. exact IH.
Qed.

(** A semicolon inside double quotes sets the flag [q]. *)
Lemma quoted_semicolon_sets_q (single_line : str) :
  Py.startswith ["#"] (Py.strip single_line) = false ->
  0 < quoted_semicolons false (Py.strip single_line) ->
  fst (_count_multi_semicolon single_line) = 1.
Proof.
  intros Hc Hq. unfold _count_multi_semicolon. rewrite Hc.
  now apply count_parts_fst.
Qed.

(** C5 fails on a line with a quoted semicolon and two more behind the
    quotes: the cleaner hands two lines to itself, not the three lines that
    a newline behind every semicolon gives. *)
Lemma multi_semicolon_keeps_quoted_semicolon :
  let line := lit "a " ++ [DQUOTE; ";"; DQUOTE] ++ lit " b;c;" in
  let line' := apply_variable_template_tags (_strip_line line) in
  line' = line
  /\ 0 < quoted_semicolons false line'
  /\ _count_multi_semicolon line' = (1, 2)
  /\ clean_line line
     = Recurse [lit "a " ++ [DQUOTE; ";"; DQUOTE] ++ lit " b;"; lit "c;"]
  /\ Py.splitlines (break_after_every_semicolon line')
     = [lit "a " ++ [DQUOTE; ";"]; [DQUOTE] ++ lit " b;"; lit "c;"]
  /\ clean_line line <> Recurse (Py.splitlines (break_after_every_semicolon line')).
Proof. vm_compute. repeat split; try lia. discriminate. Qed.

(** C5, amended.  For every line on which the cleaner finds a double quote
    ([q == 1]) and more than one semicolon outside double quotes ([c > 1]),
    the line is split by a newline behind every semicolon outside double
    quotes; the semicolons inside quotes are left as they are, and each
    line of the split is cleaned again. *)
Theorem multi_semicolon_breaks_outside_quotes (line : str) (rest : list str) :
  let line' := apply_variable_template_tags (_strip_line line) in
  Py.startswith ["#"] line' = false ->
  fst (_count_multi_semicolon line') = 1 ->
  1 < snd (_count_multi_semicolon line') ->
  multi_semicolon line' = break_after_semicolons false (Py.strip line')
  /\ clean_line line
     = Recurse (Py.splitlines (break_after_semicolons false (Py.strip line')))
  /\ clean_lines (line :: rest)
     = clean_lines (Py.splitlines (break_after_semicolons false (Py.strip line')))
       ++ clean_lines rest.
Proof.
  intros line' Hcomment Hq Hc.
  destruct (_count_multi_semicolon line') as [q c] eqn:E. cbn [fst snd] in *. subst q.
  destruct (count_multi_semicolon_spec _ _ _ E) as [Hstrip _]; [lia|].
  pose proof (multi_semicolon_spec _ Hstrip) as Hm.
  assert (Hline : clean_line line
                  = Recurse (Py.splitlines (break_after_semicolons false (Py.strip line')))).
  { unfold clean_line. fold line'. rewrite Hcomment, E, Hm.
    destruct line' as [|x l]; [discriminate E|]. cbn [Py.str_eqb].
    apply Nat.ltb_lt in Hc. now rewrite Hc. }
  repeat split; [exact Hm | exact Hline|].
  now rewrite clean_lines_cons, Hline.
Qed.

Lemma multi_semicolon_breaks_outside_quotes_witness :
  clean_line (lit "a " ++ [DQUOTE; ";"; DQUOTE] ++ lit " b;c;")
  = Recurse [lit "a " ++ [DQUOTE; ";"; DQUOTE] ++ lit " b;"; lit "c;"].
Proof.
  apply (multi_semicolon_breaks_outside_quotes
           (lit "a " ++ [DQUOTE; ";"; DQUOTE] ++ lit " b;c;") []).
  - reflexivity.
  - reflexivity.
  - vm_compute. lia.
Defined.

(** ** Documents on which the formatter goes wrong *)

(** C7.  Two variables side by side: [strip_variable_template_tags] takes
    the tags between them for a part of the name of one variable, so one
    pair of braces and the two tags stay in the result.  The document has
    two opening and two closing braces outside quotes, the result one of
    each. *)
Theorem format_string_adjacent_variables :
  let contents := lit "set $x ${a}${b};" in
  let result := format_string default_options contents in
  result = lit "set $x ${a" ++ _TEMPLATE_VARIABLE_CLOSING_TAG
           ++ _TEMPLATE_VARIABLE_OPENING_TAG ++ lit "b};" ++ [LF]
  /\ structural_braces "{" contents = 2 /\ structural_braces "{" result = 1
  /\ structural_braces "}" contents = 2 /\ structural_braces "}" result = 1.
Proof. vm_compute. repeat split. Qed.

(** C4.  A directive with three empty lines behind it: the result keeps
    one of the empty lines, and formatting the result takes it away. *)
Theorem format_string_twice_differs :
  let contents := lit "a;" ++ [LF; LF; LF; LF] in
  format_string default_options contents = lit "a;" ++ [LF; LF]
  /\ format_string default_options (format_string default_options contents)
     = lit "a;" ++ [LF]
  /\ format_string default_options (format_string default_options contents)
     <> format_string default_options contents.
Proof. vm_compute. repeat split. discriminate. Qed.

(** C3.  A literal in single quotes with two blanks in it: [_strip_line]
    splits the line at the double quotes only, so the blanks between the
    single quotes are replaced with one, and the literal is not in the
    result. *)
Theorem format_string_single_quoted :
  let contents := lit "return 200 'a  b';" in
  let result := format_string default_options contents in
  _strip_line contents = lit "return 200 'a b';"
  /\ result = lit "return 200 'a b';" ++ [LF]
  /\ occurs (lit "'a  b'") contents = true
  /\ occurs (lit "a  b") result = false.
Proof. vm_compute. repeat split. Qed.

(** ** Substitutions and the characters no match can hold *)

Section Barrier.
Variable try_match : str -> option (str * nat).
Variable b : ascii.

(** No match holds [b], and a match needs nothing behind it. *)
Hypothesis try_match_local : forall X Y, try_match (X ++ b :: Y) = try_match X.
Hypothesis try_match_length :
  forall X r n, try_match X = Some (r, n) -> 1 <= n <= length X.

Lemma sub_barrier_count (len : nat) :
  forall (X Y : str) (cnt : option nat),
    length X <= len ->
    exists cnt',
      Py.sub try_match cnt (X ++ b :: Y)
      = Py.sub try_match cnt X ++ b :: Py.sub try_match cnt' Y
      /\ (cnt = None -> cnt' = None).
Proof.
  induction len as [|len IH]; intros X Y cnt Hlen.
  - destruct X; [|simpl in Hlen; lia]. exists cnt. split; [|auto].
    cbn [app]. rewrite sub_no_match; [reflexivity|].
    pose proof (try_match_local [] Y) as Hloc. cbn [app] in Hloc. rewrite Hloc.
    destruct (try_match []) as [[r n]|] eqn:E; [|reflexivity].
    apply try_match_length in E. simpl in E. lia.
  - destruct X as [|x X]; [apply (IH [] Y cnt); simpl; lia|].
    cbn [length] in Hlen. cbn [app].
    destruct cnt as [[|m]|].
    + exists (Some 0). rewrite !sub_done. split; [reflexivity | discriminate].
    + pose proof (try_match_local (x :: X) Y) as Hloc. cbn [app] in Hloc.
      destruct (try_match (x :: X)) as [[r n]|] eqn:E.
      * pose proof (try_match_length _ _ _ E) as Hn. cbn [length] in Hn.
        rewrite (sub_match _ (Some (S m)) _ _ _ _ ltac:(discriminate) Hloc).
        rewrite (sub_match _ (Some (S m)) _ _ _ _ ltac:(discriminate) E).
        rewrite skipn_app.
        replace (pred n - length X) with 0 by lia. cbn [skipn].
        destruct (IH (skipn (pred n) X) Y (option_map pred (Some (S m)))) as (cnt' & -> & _).
        { rewrite length_skipn. lia. }
        exists cnt'. rewrite <- app_assoc. split; [reflexivity | discriminate].
      * rewrite (sub_no_match _ _ _ _ Hloc), (sub_no_match _ _ _ _ E).
        destruct (IH X Y (Some (S m))) as (cnt' & -> & _); [lia|].
        exists cnt'. split; [reflexivity | discriminate].
    + pose proof (try_match_local (x :: X) Y) as Hloc. cbn [app] in Hloc.
      destruct (try_match (x :: X)) as [[r n]|] eqn:E.
      * pose proof (try_match_length _ _ _ E) as Hn. cbn [length] in Hn.
        rewrite (sub_match _ None _ _ _ _ ltac:(discriminate) Hloc).
        rewrite (sub_match _ None _ _ _ _ ltac:(discriminate) E).
        rewrite skipn_app.
        replace (pred n - length X) with 0 by lia. cbn [skipn].
        cbn [option_map].
        destruct (IH (skipn (pred n) X) Y None) as (cnt' & -> & Hc).
        { rewrite length_skipn. lia. }
        exists cnt'. rewrite <- app_assoc. split; [reflexivity | exact Hc].
      * rewrite (sub_no_match _ _ _ _ Hloc), (sub_no_match _ _ _ _ E).
        destruct (IH X Y None) as (cnt' & -> & Hc); [lia|].
        exists cnt'. split; [reflexivity | exact Hc].
Qed.

(** Without a bound on the replacements the two sides of [b] are
    substituted on their own. *)
Lemma sub_barrier (X Y : str) :
  Py.sub try_match None (X ++ b :: Y)
  = Py.sub try_match None X ++ b :: Py.sub try_match None Y.
Proof.
  destruct (sub_barrier_count (length X) X Y None (Nat.le_refl _)) as (cnt' & H & Hc).
  now rewrite H, (Hc eq_refl).
Qed.

End Barrier.

(** A text on which the pattern matches nowhere stays as it is. *)
Lemma sub_no_match_anywhere (try_match : str -> option (str * nat))
  (cnt : option nat) (s : str) :
  (forall X Y, s = X ++ Y -> try_match Y = None) ->
  Py.sub try_match cnt s = s.
Proof.
  induction s as [|x s IH]; intros H; [reflexivity|].
  rewrite sub_no_match by (apply (H []); reflexivity).
  f_equal. apply IH. intros X Y ->. apply (H (x :: X)). reflexivity.
Qed.

(** ** Equal texts, and scans that stop at a character *)

Lemma str_eqb_eq (a b : str) : Py.str_eqb a b = true <-> a = b.
Proof.
  revert b. induction a as [|x a IH]; intros [|y b]; cbn [Py.str_eqb];
    try (split; [discriminate | congruence]); [now split|].
  rewrite andb_true_iff, IH, Ascii.eqb_eq. split; [intros [-> ->] | intros [= -> ->]]; auto.
Qed.

Lemma takewhile_barrier (f : ascii -> bool) (X Y : str) (b : ascii) :
  f b = false -> Py.takewhile f (X ++ b :: Y) = Py.takewhile f X.
Proof.
  intros Hb. induction X as [|x X IH]; cbn [app Py.takewhile].
  - now rewrite Hb.
  - destruct (f x); [now rewrite IH | reflexivity].
Qed.

Lemma dropwhile_barrier (f : ascii -> bool) (X Y : str) (b : ascii) :
  f b = false -> Py.dropwhile f (X ++ b :: Y) = Py.dropwhile f X ++ b :: Y.
Proof.
  intros Hb. induction X as [|x X IH]; cbn [app Py.dropwhile].
  - now rewrite Hb.
  - destruct (f x); [exact IH | reflexivity].
Qed.

Lemma length_takewhile (f : ascii -> bool) (s : str) :
  length (Py.takewhile f s) <= length s.
Proof. induction s as [|c s IH]; simpl; [|destruct (f c); simpl]; lia. Qed.

(** ** A line without newlines in the three substitutions *)

Lemma sub_newlines_barrier (X Y : str) (b : ascii) (cnt : option nat) :
  b <> LF ->
  exists cnt',
    Py.sub match_newlines cnt (X ++ b :: Y)
    = Py.sub match_newlines cnt X ++ b :: Py.sub match_newlines cnt' Y.
Proof.
  intros Hb.
  destruct (sub_barrier_count match_newlines b) with (len := length X) (X := X) (Y := Y)
                                                     (cnt := cnt)
    as (cnt' & H & _); [| |apply Nat.le_refl|now exists cnt'].
  - intros X0 Y0. unfold match_newlines. rewrite takewhile_barrier; [reflexivity|].
    destruct (Ascii.eqb_spec LF b); congruence.
  - intros X0 r n. unfold match_newlines.
    pose proof (length_takewhile (Ascii.eqb LF) X0).
    destruct (Nat.leb_spec 3 (length (Py.takewhile (Ascii.eqb LF) X0))); [|discriminate].
    intros [= <- <-]. lia.
Qed.

Lemma sub_newlines_other (M Y : str) (cnt : option nat) :
  Forall (fun c => c <> LF) M ->
  Py.sub match_newlines cnt (M ++ Y) = M ++ Py.sub match_newlines cnt Y.
Proof.
  induction 1 as [|m M Hm _ IH]; [reflexivity|].
  cbn [app]. rewrite sub_no_match by now apply match_newlines_other.
  now rewrite IH.
Qed.

Lemma sub_trailing_newline_barrier (X Y : str) (b : ascii) (cnt : option nat) :
  b <> LF ->
  Py.sub match_trailing_newline cnt (X ++ b :: Y)
  = X ++ b :: Py.sub match_trailing_newline cnt Y.
Proof.
  intros Hb.
  assert (Hnone : forall Y0, match_trailing_newline (b :: Y0) = None).
  { intros Y0. cbn [match_trailing_newline].
    destruct (Ascii.eqb_spec b LF); [congruence|]. now destruct Y0 as [|? [|? ?]]. }
  induction X as [|x X IH]; cbn [app].
  - now rewrite sub_no_match.
  - rewrite sub_no_match; [now rewrite IH|].
    destruct X as [|x' X]; cbn [app match_trailing_newline].
    + destruct Y; [|reflexivity].
      destruct (Ascii.eqb_spec b LF); [congruence | now rewrite andb_false_r].
    + destruct (X ++ b :: Y) eqn:E; [|reflexivity]. now destruct X.
Qed.

(** ** Texts in which a tag does not occur *)

Lemma startswith_app (t X Y : str) :
  Py.startswith t X = true -> Py.startswith t (X ++ Y) = true.
Proof.
  revert X. induction t as [|a t IH]; intros [|x X]; cbn [Py.startswith app];
    try easy.
  rewrite !andb_true_iff. intros [-> H]. split; [reflexivity | now apply IH].
Qed.

Lemma startswith_length (t X : str) :
  Py.startswith t X = true -> length t <= length X.
Proof.
  revert X. induction t as [|a t IH]; intros [|x X]; cbn [Py.startswith length];
    try easy; [lia|].
  rewrite andb_true_iff. intros [_ H]. apply IH in H. lia.
Qed.

Lemma startswith_barrier (t X Y : str) (b : ascii) :
  Py.count b t = 0 -> Py.startswith t (X ++ b :: Y) = Py.startswith t X.
Proof.
  revert X. induction t as [|a t IH]; intros X Hb; [now destruct X|].
  cbn [Py.count] in Hb.
  destruct (Ascii.eqb_spec a b) as [->|Hab]; [discriminate|].
  destruct X as [|x X]; cbn [Py.startswith app].
  - destruct (Ascii.eqb_spec a b); [congruence | reflexivity].
  - now rewrite IH.
Qed.

Lemma occurs_cons (t : str) (x : ascii) (s : str) :
  occurs t (x :: s) = Py.startswith t (x :: s) || occurs t s.
Proof. reflexivity. Qed.

Lemma occurs_app_r (t X Y : str) : occurs t (X ++ Y) = false -> occurs t Y = false.
Proof.
  induction X as [|x X IH]; [trivial|]. cbn [app]. rewrite occurs_cons.
  intros H. apply orb_false_elim in H as [_ H]. now apply IH.
Qed.

Lemma occurs_app_l (t X Y : str) : occurs t (X ++ Y) = false -> occurs t X = false.
Proof.
  induction X as [|x X IH]; cbn [app].
  - destruct t; [destruct Y; discriminate | reflexivity].
  - rewrite !occurs_cons. intros H. apply orb_false_elim in H as [H1 H2].
    rewrite (IH H2), orb_false_r.
    destruct (Py.startswith t (x :: X)) eqn:E; [|reflexivity].
    apply startswith_app with (Y := Y) in E. cbn [app] in E. congruence.
Qed.

Lemma occurs_startswith (t X Y : str) :
  occurs t (X ++ Y) = false -> Py.startswith t Y = false.
Proof.
  intros H. apply occurs_app_r in H. destruct Y; [destruct t; [discriminate | reflexivity]|].
  rewrite occurs_cons in H. now apply orb_false_elim in H as [H _].
Qed.

Lemma replace_barrier (t r X Y : str) (b : ascii) :
  t <> [] -> Py.count b t = 0 ->
  Py.replace t r (X ++ b :: Y) = Py.replace t r X ++ b :: Py.replace t r Y.
Proof.
  intros Ht Hb. unfold Py.replace. apply sub_barrier.
  - intros X0 Y0. now rewrite startswith_barrier.
  - intros X0 r0 n. destruct (Py.startswith t X0) eqn:E; [|discriminate].
    intros [= <- <-]. apply startswith_length in E.
    destruct t; [congruence | cbn [length] in *; lia].
Qed.

Lemma replace_absent (t r s : str) : occurs t s = false -> Py.replace t r s = s.
Proof.
  intros H. unfold Py.replace. apply sub_no_match_anywhere.
  intros X Y ->. now rewrite (occurs_startswith _ _ _ H).
Qed.

(** ** Stripped lines *)

Lemma strip_decompose (s : str) :
  exists a b, s = a ++ Py.strip s ++ b.
Proof.
  unfold Py.strip, Py.rstrip, Py.lstrip.
  exists (Py.takewhile isspace s),
         (rev (Py.takewhile isspace (rev (Py.dropwhile isspace s)))).
  rewrite <- rev_app_distr, <- takewhile_dropwhile, rev_involutive.
  apply takewhile_dropwhile.
Qed.

Lemma strip_Forall (P : ascii -> Prop) (s : str) :
  Forall P s -> Forall P (Py.strip s).
Proof.
  destruct (strip_decompose s) as (a & b & E). intros H. rewrite E in H.
  apply Forall_app in H as [_ H]. now apply Forall_app in H as [H _].
Qed.

Lemma strip_occurs (t s : str) : occurs t s = false -> occurs t (Py.strip s) = false.
Proof.
  destruct (strip_decompose s) as (a & b & E). intros H. rewrite E in H.
  apply occurs_app_r in H. now apply occurs_app_l in H.
Qed.

Lemma splitlines_no_linebreak (text : str) :
  Forall (Forall (fun c => is_linebreak c = false)) (Py.splitlines text).
Proof.
  remember (length text) as len eqn:Hlen.
  assert (Hle : length text <= len) by lia. clear Hlen.
  revert text Hle. induction len as [|len IH]; intros text Hle.
  { destruct text; [constructor | simpl in Hle; lia]. }
  destruct text as [|c text]; [constructor|]. cbn [length] in Hle.
  destruct (is_linebreak c) eqn:Ec.
  - cbn [Py.splitlines]. rewrite Ec. destruct text as [|d text].
    + now repeat constructor.
    + cbn [length] in Hle.
      destruct (Ascii.eqb c CR && Ascii.eqb d LF);
        (constructor; [constructor | apply IH; cbn [length]; lia]).
  - rewrite splitlines_other by exact Ec.
    assert (H : Forall (Forall (fun c => is_linebreak c = false)) (Py.splitlines text))
      by (apply IH; lia).
    destruct (Py.splitlines text) as [|p ps].
    + now repeat constructor.
    + inversion H; subst. constructor; [now constructor | assumption].
Qed.

Lemma line_no_newline (text l : str) :
  In l (Py.splitlines text) -> Forall (fun c => c <> LF) l.
Proof.
  intros Hin. pose proof (splitlines_no_linebreak text) as H.
  rewrite Forall_forall in H. specialize (H l Hin).
  eapply Forall_impl; [|exact H]. intros c Hc ->. discriminate.
Qed.

(** ** Comment lines *)

Lemma startswith_refl_app (c Y : str) : Py.startswith c (c ++ Y) = true.
Proof. induction c as [|x c IH]; [reflexivity|]. cbn. now rewrite Ascii.eqb_refl. Qed.

Lemma occurs_intro (pre c post : str) : occurs c (pre ++ c ++ post) = true.
Proof.
  induction pre as [|x pre IH]; cbn [app].
  - destruct c as [|y c]; [now destruct post|].
    cbn [app]. rewrite occurs_cons.
    change (y :: c ++ post) with ((y :: c) ++ post). now rewrite startswith_refl_app.
  - rewrite occurs_cons, IH. apply orb_true_r.
Qed.

Lemma match_variable_starts (s r : str) (n : nat) :
  match_variable s = Some (r, n) -> Py.startswith ["$"; "{"] s = true.
Proof.
  destruct s as [|c1 s]; [discriminate|].
  destruct c1 as [[] [] [] [] [] [] [] []]; try discriminate.
  destruct s as [|c2 s]; [discriminate|].
  destruct c2 as [[] [] [] [] [] [] [] []]; try discriminate.
  reflexivity.
Qed.

Lemma apply_variable_absent (s : str) :
  occurs ["$"; "{"] s = false -> apply_variable_template_tags s = s.
Proof.
  intros H. apply sub_no_match_anywhere. intros X Y ->.
  destruct (match_variable Y) as [[r n]|] eqn:E; [|reflexivity].
  apply match_variable_starts in E. now rewrite (occurs_startswith _ _ _ H) in E.
Qed.

Lemma strip_variable_absent (s : str) :
  occurs _TEMPLATE_VARIABLE_OPENING_TAG s = false ->
  strip_variable_template_tags s = s.
Proof.
  intros H. apply sub_no_match_anywhere. intros X Y ->.
  unfold match_variable_tag. now rewrite (occurs_startswith _ _ _ H).
Qed.

(** C6 fails on a comment with a template reference: the blanks around the
    name are gone from the result, which does not hold the trimmed line. *)
Lemma comment_reference_rewritten :
  let line := lit "# ${ a }" in
  Py.startswith ["#"] (Py.strip line) = true
  /\ format_string default_options line = lit "# ${a}" ++ [LF]
  /\ ~ exists pre post,
         format_string default_options line = pre ++ Py.strip line ++ post.
Proof.
  split; [reflexivity|]. split; [reflexivity|].
  intros (pre & post & H). apply (f_equal (occurs (Py.strip (lit "# ${ a }")))) in H.
  rewrite occurs_intro in H. vm_compute in H. discriminate.
Qed.

(** ** Texts that a substitution passes over *)

Lemma count_cons_zero (x c : ascii) (s : str) :
  Py.count x (c :: s) = 0 -> c <> x /\ Py.count x s = 0.
Proof.
  cbn [Py.count]. destruct (Ascii.eqb_spec c x); [discriminate|]. now split.
Qed.

(** * Further properties of the formatter *)

(** ** The placeholder tags *)

(** X1.  [strip_bracket_template_tags] and [strip_variable_template_tags]
    change nothing in a text in which no opening tag and no bracket closing
    tag occurs. *)
Theorem detaggers_leave_plain_text (content : str) :
  occurs _TEMPLATE_BRACKET_OPENING_TAG content = false ->
  occurs _TEMPLATE_BRACKET_CLOSING_TAG content = false ->
  occurs _TEMPLATE_VARIABLE_OPENING_TAG content = false ->
  strip_bracket_template_tags content = content
  /\ strip_variable_template_tags content = content.
Proof.
  intros Ho Hc Hv. split.
  - unfold strip_bracket_template_tags. now rewrite (replace_absent _ _ _ Ho), replace_absent.
  - now apply strip_variable_absent.
Qed.

Lemma detaggers_leave_plain_text_witness :
  strip_bracket_template_tags (lit "add_header X_TAG ___TEMPLATE {a} ${b};")
  = lit "add_header X_TAG ___TEMPLATE {a} ${b};"
  /\ strip_variable_template_tags (lit "add_header X_TAG ___TEMPLATE {a} ${b};")
     = lit "add_header X_TAG ___TEMPLATE {a} ${b};".
Proof.
  apply (detaggers_leave_plain_text (lit "add_header X_TAG ___TEMPLATE {a} ${b};"));
    reflexivity.
Defined.

(** X2.  [apply_variable_template_tags] changes nothing in a line in which
    a dollar sign is nowhere followed by an opening brace. *)
Theorem apply_variable_leaves_plain_line (line : str) :
  occurs ["$"; "{"] line = false ->
  apply_variable_template_tags line = line.
Proof. apply apply_variable_absent. Qed.

Lemma apply_variable_leaves_plain_line_witness :
  apply_variable_template_tags (lit "rewrite ^/(.*)$ /other/$1 { } break;")
  = lit "rewrite ^/(.*)$ /other/$1 { } break;".
Proof.
  apply (apply_variable_leaves_plain_line (lit "rewrite ^/(.*)$ /other/$1 { } break;")).
  reflexivity.
Defined.

Lemma tag_chars_no_quotes (line : str) (last_char : option ascii) :
  Py.count SQUOTE line = 0 -> Py.count DQUOTE line = 0 ->
  tag_chars false last_char line = line.
Proof.
  revert last_char. induction line as [|c line IH]; intros last Hs Hd; [reflexivity|].
  apply count_cons_zero in Hs as [Hcs Hs]. apply count_cons_zero in Hd as [Hcd Hd].
  cbn [tag_chars].
  destruct (Ascii.eqb_spec c SQUOTE); [congruence|].
  destruct (Ascii.eqb_spec c DQUOTE); [congruence|].
  cbn [orb andb app]. now rewrite IH.
Qed.

(** X3.  [apply_bracket_template_tags] gives one line for every line, and
    leaves as it is every line that starts with [#] and every line without
    a quote character, whatever braces those lines hold. *)
Theorem bracket_tagger_leaves_unquoted_lines (lines : list str) :
  length (apply_bracket_template_tags lines) = length lines
  /\ forall line,
       Py.startswith ["#"] line = true
       \/ (Py.count SQUOTE line = 0 /\ Py.count DQUOTE line = 0) ->
       tag_line line = line.
Proof.
  split; [apply length_map|].
  intros line [H|[Hs Hd]]; unfold tag_line.
  - now rewrite H.
  - destruct (Py.startswith ["#"] line); [reflexivity | now apply tag_chars_no_quotes].
Qed.

Lemma bracket_tagger_leaves_unquoted_lines_witness :
  tag_line (lit "location / { if ($a) { return 200; } }")
  = lit "location / { if ($a) { return 200; } }".
Proof.
  apply (proj2 (bracket_tagger_leaves_unquoted_lines [])).
  right. split; reflexivity.
Defined.

(** ** The indenter and the brace joiner *)

Lemma repeat_str_nil (n : Z) : Py.repeat_str n [] = [].
Proof.
  unfold Py.repeat_str. induction (Z.to_nat n) as [|k IH]; [reflexivity | exact IH].
Qed.

Lemma fold_indent_step_no_width (lines : list str) (st : indent_state) :
  indented_lines (fold_left (indent_step []) lines st) = indented_lines st ++ lines.
Proof.
  revert st. induction lines as [|line lines IH]; intros st; cbn [fold_left].
  - now rewrite app_nil_r.
  - rewrite IH. unfold indent_step at 1. cbn [indented_lines].
    rewrite repeat_str_nil. unfold nonempty.
    destruct line as [|c line]; cbn [Py.str_eqb negb app]; now rewrite <- app_assoc.
Qed.

(** X4.  [_perform_indentation] writes one line for every line it is
    given, and with an indentation width of zero or less it gives the lines
    back as they are. *)
Theorem perform_indentation_without_width (options : FormatterOptions) (lines : list str) :
  length (_perform_indentation options lines) = length lines
  /\ ((indentation options <= 0)%Z -> _perform_indentation options lines = lines).
Proof.
  split; [apply length_perform_indentation|].
  intros Hw. unfold _perform_indentation, indent_loop.
  replace (Py.repeat_str (indentation options) [" "]) with (@nil ascii).
  - apply fold_indent_step_no_width.
  - unfold Py.repeat_str. now replace (Z.to_nat (indentation options)) with 0%nat by lia.
Qed.

Lemma perform_indentation_without_width_witness :
  _perform_indentation {| indentation := -2 |} [lit "a {"; lit "b;"; lit "}"]
  = [lit "a {"; lit "b;"; lit "}"].
Proof.
  apply (proj2 (perform_indentation_without_width
                  {| indentation := -2 |} [lit "a {"; lit "b;"; lit "}"])).
  cbn. lia.
Defined.

Lemma join_cons_flat (sep p : str) (ps : list str) :
  Py.join sep (p :: ps) = p ++ flat_map (fun q => sep ++ q) ps.
Proof.
  revert p. induction ps as [|q ps IH]; intros p.
  - cbn. now rewrite app_nil_r.
  - rewrite join_cons2, IH. cbn [flat_map]. now rewrite <- app_assoc.
Qed.

Lemma join_snoc (sep : str) (acc : list str) (l : str) :
  acc <> [] -> Py.join sep (acc ++ [l]) = Py.join sep acc ++ sep ++ l.
Proof.
  destruct acc as [|p acc]; [congruence|]. intros _.
  cbn [app]. rewrite !join_cons_flat, flat_map_app. cbn [flat_map].
  now rewrite app_nil_r, <- app_assoc.
Qed.

Lemma append_to_last_snoc (front : list str) (last s : str) :
  append_to_last (front ++ [last]) s = front ++ [last ++ s].
Proof.
  unfold append_to_last. rewrite rev_app_distr. cbn [rev app].
  now rewrite rev_involutive.
Qed.

Lemma join_merge_at (sep a c : str) (front rest : list str) :
  Py.join sep (front ++ (a ++ sep ++ c) :: rest) = Py.join sep (front ++ a :: c :: rest).
Proof.
  destruct front as [|p front]; cbn [app]; rewrite !join_cons_flat.
  - cbn [flat_map]. now rewrite <- !app_assoc.
  - rewrite !flat_map_app. cbn [flat_map]. now rewrite <- !app_assoc.
Qed.

Lemma append_to_last_not_nil (acc : list str) (s : str) :
  acc <> [] -> append_to_last acc s <> [].
Proof.
  intros Hne. destruct (exists_last Hne) as (front & last & ->).
  rewrite append_to_last_snoc. now destruct front.
Qed.

Lemma join_loop_text (lines : list str) :
  forall (i : nat) (acc : list str),
    (i = 0 /\ acc = []) \/ (0 < i /\ acc <> []) ->
    Py.join [" "] (join_loop i acc lines) = Py.join [" "] (acc ++ lines).
Proof.
  induction lines as [|line lines IH]; intros i acc Hi; cbn [join_loop].
  - now rewrite app_nil_r.
  - destruct Hi as [[-> ->]|[Hi Hacc]].
    + cbn [Nat.ltb Nat.leb andb app]. apply (IH 1 [line]). right. split; [lia | discriminate].
    + replace (0 <? i)%nat with true by (symmetry; now apply Nat.ltb_lt). cbn [andb].
      destruct (Py.str_eqb line ["{"]) eqn:E.
      * apply str_eqb_eq in E as ->.
        rewrite IH by (right; split; [lia | now apply append_to_last_not_nil]).
        destruct (exists_last Hacc) as (front & last & ->).
        rewrite append_to_last_snoc, <- !app_assoc. cbn [app].
        apply (join_merge_at [" "] last ["{"]).
      * rewrite IH by (right; split; [lia | now destruct acc]).
        now rewrite <- app_assoc.
Qed.

Lemma join_loop_app (A R : list str) :
  forall (i : nat) (acc : list str),
    join_loop i acc (A ++ R) = join_loop (i + length A) (join_loop i acc A) R.
Proof.
  induction A as [|a A IH]; intros i acc; cbn [app join_loop length].
  - now rewrite Nat.add_0_r.
  - rewrite Nat.add_succ_r. destruct ((0 <? i)%nat && Py.str_eqb a ["{"]); apply IH.
Qed.

Lemma append_to_last_prefix (pre acc : list str) (s : str) :
  acc <> [] -> append_to_last (pre ++ acc) s = pre ++ append_to_last acc s.
Proof.
  intros Hne. destruct (exists_last Hne) as (front & last & ->).
  now rewrite app_assoc, !append_to_last_snoc, app_assoc.
Qed.

(** The lines before the last one are out of the reach of the loop. *)
Lemma join_loop_prefix (B : list str) :
  forall (i : nat) (pre acc : list str),
    acc <> [] -> join_loop i (pre ++ acc) B = pre ++ join_loop i acc B.
Proof.
  induction B as [|l B IH]; intros i pre acc Hne; cbn [join_loop]; [reflexivity|].
  destruct ((0 <? i)%nat && Py.str_eqb l ["{"]).
  - rewrite append_to_last_prefix by exact Hne.
    apply IH. now apply append_to_last_not_nil.
  - rewrite <- app_assoc. apply IH. now destruct acc.
Qed.

Lemma join_loop_index (B : list str) :
  forall (i j : nat) (acc : list str),
    0 < i -> 0 < j -> join_loop i acc B = join_loop j acc B.
Proof.
  induction B as [|l B IH]; intros i j acc Hi Hj; cbn [join_loop]; [reflexivity|].
  replace (0 <? i)%nat with true by (symmetry; now apply Nat.ltb_lt).
  replace (0 <? j)%nat with true by (symmetry; now apply Nat.ltb_lt).
  destruct (true && Py.str_eqb l ["{"]); apply IH; lia.
Qed.

(** A run of [k] lines that hold an opening brace goes behind the line
    before it. *)
Lemma join_loop_braces (k : nat) (rest : list str) :
  forall (i : nat) (acc : list str) (x : str),
    0 < i ->
    join_loop i (acc ++ [x]) (repeat ["{"] k ++ rest)
    = join_loop (i + k) (acc ++ [x ++ concat (repeat (lit " {") k)]) rest.
Proof.
  induction k as [|k IH]; intros i acc x Hi.
  - cbn [repeat concat app]. now rewrite app_nil_r, Nat.add_0_r.
  - cbn [repeat app join_loop].
    replace (0 <? i)%nat with true by (symmetry; now apply Nat.ltb_lt).
    cbn [Py.str_eqb Ascii.eqb Bool.eqb andb].
    rewrite append_to_last_snoc, IH by lia.
    cbn [concat]. now rewrite Nat.add_succ_r, <- app_assoc.
Qed.

Lemma join_opening_bracket_run (first : str) (k : nat) (rest : list str) :
  rest = [] \/ (exists l rest', rest = l :: rest' /\ l <> ["{"]) ->
  _join_opening_bracket (first :: repeat ["{"] k ++ rest)
  = (first ++ concat (repeat (lit " {") k)) :: _join_opening_bracket rest.
Proof.
  intros Hrest. unfold _join_opening_bracket. cbn [join_loop Nat.ltb Nat.leb andb].
  rewrite (join_loop_braces k rest 1 [] first) by lia. cbn [app].
  destruct Hrest as [-> | (l & rest' & -> & Hl)]; [reflexivity|].
  cbn [join_loop].
  replace (Py.str_eqb l ["{"]) with false
    by (symmetry; apply not_true_is_false; now rewrite str_eqb_eq).
  rewrite !andb_false_r. cbn [app].
  rewrite (join_loop_prefix rest' _ [first ++ concat (repeat (lit " {") k)] [l])
    by discriminate.
  cbn [app]. f_equal. apply join_loop_index; lia.
Qed.

(** X5.  [_join_opening_bracket] loses no character: read with a space
    between the lines, the joined lines are the same text as the lines it
    was given.  All it does is to put opening braces behind the line before
    them: a line, [k] lines that hold an opening brace and then lines of
    which the first is no such line give the line with [k] times a space
    and a brace behind it, and then what the other lines give. *)
Theorem join_opening_bracket_keeps_text (lines : list str) :
  Py.join [" "] (_join_opening_bracket lines) = Py.join [" "] lines
  /\ forall (first : str) (k : nat) (rest : list str),
       rest = [] \/ (exists l rest', rest = l :: rest' /\ l <> ["{"]) ->
       _join_opening_bracket (first :: repeat ["{"] k ++ rest)
       = (first ++ concat (repeat (lit " {") k)) :: _join_opening_bracket rest.
Proof.
  split.
  - unfold _join_opening_bracket. apply join_loop_text. now left.
  - intros first k rest Hrest. now apply join_opening_bracket_run.
Qed.

Lemma join_opening_bracket_keeps_text_witness :
  _join_opening_bracket
    (lit "server" :: repeat ["{"] 2 ++ [lit "listen 80;"; lit "{"; lit "}"])
  = (lit "server" ++ concat (repeat (lit " {") 2))
      :: _join_opening_bracket [lit "listen 80;"; lit "{"; lit "}"].
Proof.
  apply (proj2 (join_opening_bracket_keeps_text [])).
  right. exists (lit "listen 80;"), [lit "{"; lit "}"]. split; [reflexivity | discriminate].
Defined.

Lemma join_loop_no_lone_brace (lines : list str) :
  forall (i : nat) (acc : list str),
    (i = 0 /\ acc = []) \/ (0 < i /\ acc <> []) ->
    Forall (fun l => l <> ["{"]) (tl acc) ->
    Forall (fun l => l <> ["{"]) (tl (join_loop i acc lines))
    /\ length (join_loop i acc lines) <= length acc + length lines.
Proof.
  induction lines as [|line lines IH]; intros i acc Hi Hacc; cbn [join_loop].
  - split; [exact Hacc | lia].
  - destruct Hi as [[-> ->]|[Hi Hne]].
    + cbn [Nat.ltb Nat.leb andb app].
      destruct (IH 1 [line]) as [H1 H2]; [right; split; [lia | discriminate] | constructor|].
      split; [exact H1 | cbn [length] in *; lia].
    + replace (0 <? i)%nat with true by (symmetry; now apply Nat.ltb_lt). cbn [andb].
      destruct (exists_last Hne) as (front & last & ->).
      destruct (Py.str_eqb line ["{"]) eqn:E.
      * rewrite append_to_last_snoc.
        destruct (IH (S i) (front ++ [last ++ lit " {"])) as [H1 H2].
        { right. split; [lia | now destruct front]. }
        { destruct front as [|p front]; [constructor|]. cbn [app tl] in *.
          apply Forall_app in Hacc as [Hf _]. apply Forall_app. split; [exact Hf|].
          constructor; [|constructor]. intros H.
          apply (f_equal (@length ascii)) in H. rewrite length_app in H. cbn in H. lia. }
        split; [exact H1|]. rewrite !length_app in *. cbn [length] in *. lia.
      * destruct (IH (S i) ((front ++ [last]) ++ [line])) as [H1 H2].
        { right. split; [lia | now destruct front]. }
        { assert (Hl : line <> ["{"]).
          { intros ->. cbn in E. discriminate. }
          destruct front as [|p front]; cbn [app tl] in *.
          - constructor; [exact Hl | constructor].
          - apply Forall_app. split; [exact Hacc | constructor; [exact Hl | constructor]]. }
        split; [exact H1|]. rewrite !length_app in *. cbn [length] in *. lia.
Qed.

(** X6.  Behind [_join_opening_bracket] no line but the first is an opening
    brace on its own, and there are no more lines than before. *)
Theorem join_opening_bracket_no_lone_brace (lines : list str) :
  (forall n, nth_error (_join_opening_bracket lines) (S n) <> Some ["{"])
  /\ length (_join_opening_bracket lines) <= length lines.
Proof.
  unfold _join_opening_bracket.
  destruct (join_loop_no_lone_brace lines 0 []) as [H1 H2]; [now left | constructor|].
  split; [|exact H2].
  intros n Hn. destruct (join_loop 0 [] lines) as [|p ps]; [discriminate|].
  cbn [nth_error tl] in *. apply nth_error_In in Hn.
  rewrite Forall_forall in H1. now apply (H1 _ Hn).
Qed.

(** ** The line cleaner *)

(** X7.  [clean_lines] works line by line: the cleaned lines of two lists
    one behind the other are the cleaned lines of the first followed by the
    cleaned lines of the second. *)
Theorem clean_lines_line_by_line (a b : list str) :
  clean_lines (a ++ b) = clean_lines a ++ clean_lines b.
Proof. apply clean_lines_app. Qed.

Lemma length_split (d : ascii) (s : str) : length (Py.split d s) = S (Py.count d s).
Proof.
  induction s as [|x s IH]; [reflexivity|]. rewrite split_cons. cbn [Py.count].
  destruct (Ascii.eqb x d); cbn [length]; [now rewrite IH|].
  destruct (Py.split d s); cbn [length] in *; lia.
Qed.

Lemma count_parts_fst_length (ps : list str) (c : nat) :
  fst (count_parts false 0 c ps) = if (2 <=? length ps)%nat then 1 else 0.
Proof.
  destruct ps as [|p [|p' ps]]; [reflexivity | reflexivity|].
  cbn [count_parts negb length Nat.leb]. apply count_parts_fst_set.
Qed.

(** X8.  What [_count_multi_semicolon] returns for a line that is no
    comment: [q] is 1 exactly when the stripped line holds a double quote,
    whether or not a semicolon stands inside quotes, and [c] is the number of
    semicolons outside double quotes.  For a comment both are 0. *)
Theorem count_multi_semicolon_reads (single_line : str) :
  _count_multi_semicolon single_line
  = if Py.startswith ["#"] (Py.strip single_line) then (0, 0)
    else ((if (0 <? Py.count DQUOTE (Py.strip single_line))%nat then 1 else 0),
          unquoted_semicolons false (Py.strip single_line)).
Proof.
  unfold _count_multi_semicolon.
  destruct (Py.startswith ["#"] (Py.strip single_line)); [reflexivity|].
  set (s := Py.strip single_line).
  rewrite (surjective_pairing (count_parts false 0 0 (Py.split DQUOTE s))).
  rewrite count_parts_snd, count_parts_fst_length, length_split. reflexivity.
Qed.

Lemma length_break_after_semicolons (s : str) (within_quotes : bool) :
  length (break_after_semicolons within_quotes s)
  = length s + unquoted_semicolons within_quotes s.
Proof.
  revert within_quotes. induction s as [|x s IH]; intros b; [reflexivity|].
  cbn [break_after_semicolons unquoted_semicolons].
  destruct (Ascii.eqb x DQUOTE); cbn [length]; [now rewrite IH|].
  destruct (Ascii.eqb x ";" && negb b); cbn [length]; rewrite IH; lia.
Qed.

(** X9.  [multi_semicolon] returns the stripped line with as many
    characters more as [_count_multi_semicolon] counts semicolons: one
    newline for each semicolon outside double quotes, and nothing for a
    comment. *)
Theorem multi_semicolon_length (single_line : str) :
  length (multi_semicolon single_line)
  = length (Py.strip single_line) + snd (_count_multi_semicolon single_line).
Proof.
  unfold multi_semicolon, _count_multi_semicolon.
  destruct (Py.startswith ["#"] (Py.strip single_line)); cbn [snd]; [lia|].
  now rewrite join_semicolon_parts, length_break_after_semicolons, count_parts_snd.
Qed.

(** ** Documents of whitespace *)

Lemma splitlines_Forall (P : ascii -> Prop) (text : str) :
  Forall P text -> Forall (Forall P) (Py.splitlines text).
Proof.
  remember (length text) as len eqn:Hlen.
  assert (Hle : length text <= len) by lia. clear Hlen.
  revert text Hle. induction len as [|len IH]; intros text Hle HP.
  { destruct text; [constructor | simpl in Hle; lia]. }
  destruct text as [|c text]; [constructor|]. cbn [length] in Hle.
  inversion HP as [|? ? Hc Ht]; subst.
  destruct (is_linebreak c) eqn:Ec.
  - cbn [Py.splitlines]. rewrite Ec. destruct text as [|d text].
    + now repeat constructor.
    + cbn [length] in Hle. inversion Ht; subst.
      destruct (Ascii.eqb c CR && Ascii.eqb d LF);
        (constructor; [constructor | apply IH; [cbn [length]; lia | assumption]]).
  - rewrite splitlines_other by exact Ec.
    assert (H : Forall (Forall P) (Py.splitlines text)) by (apply IH; [lia | exact Ht]).
    destruct (Py.splitlines text) as [|p ps].
    + now repeat constructor.
    + inversion H; subst. constructor; [now constructor | assumption].
Qed.

Lemma dropwhile_all (f : ascii -> bool) (s : str) :
  Forall (fun c => f c = true) s -> Py.dropwhile f s = [].
Proof. induction 1 as [|c s Hc _ IH]; [reflexivity|]. cbn. now rewrite Hc. Qed.

Lemma strip_blank (s : str) : Forall (fun c => isspace c = true) s -> Py.strip s = [].
Proof.
  intros H. unfold Py.strip, Py.lstrip, Py.rstrip.
  rewrite (dropwhile_all _ _ H). reflexivity.
Qed.

Lemma count_blank (x : ascii) (s : str) :
  isspace x = false -> Forall (fun c => isspace c = true) s -> Py.count x s = 0.
Proof.
  intros Hx. induction 1 as [|c s Hc _ IH]; [reflexivity|].
  cbn [Py.count]. rewrite IH. destruct (Ascii.eqb_spec c x); [congruence | reflexivity].
Qed.

Lemma clean_line_blank (line : str) :
  Forall (fun c => isspace c = true) line -> clean_line (tag_line line) = Emit [[]].
Proof.
  intros H.
  assert (Ht : tag_line line = line).
  { unfold tag_line. destruct (Py.startswith ["#"] line); [reflexivity|].
    apply tag_chars_no_quotes; now apply count_blank. }
  rewrite Ht. unfold clean_line, _strip_line. now rewrite (strip_blank _ H).
Qed.

Lemma clean_lines_blank (lines : list str) :
  Forall (Forall (fun c => isspace c = true)) lines ->
  clean_lines (apply_bracket_template_tags lines) = repeat [] (length lines).
Proof.
  induction 1 as [|line lines Hl _ IH]; [reflexivity|].
  cbn [apply_bracket_template_tags map length repeat].
  rewrite clean_lines_cons, (clean_line_blank _ Hl). cbn [app]. f_equal. exact IH.
Qed.

Lemma join_loop_no_brace (lines : list str) :
  forall (i : nat) (acc : list str),
    Forall (fun l => l <> ["{"]) lines -> join_loop i acc lines = acc ++ lines.
Proof.
  induction lines as [|line lines IH]; intros i acc H; cbn [join_loop].
  - now rewrite app_nil_r.
  - inversion H as [|? ? Hl Hr]; subst.
    replace (Py.str_eqb line ["{"]) with false.
    2:{ symmetry. apply not_true_is_false. now rewrite str_eqb_eq. }
    rewrite andb_false_r, IH by exact Hr. now rewrite <- app_assoc.
Qed.

Lemma fold_indent_step_empty_lines (s : str) (n : nat) (st : indent_state) :
  indented_lines (fold_left (indent_step s) (repeat [] n) st)
  = indented_lines st ++ repeat [] n.
Proof.
  revert st. induction n as [|n IH]; intros st; cbn [repeat fold_left].
  - now rewrite app_nil_r.
  - rewrite IH. cbn. now rewrite <- app_assoc.
Qed.

Lemma join_empty_lines (n : nat) : Py.join [LF] (repeat [] (S n)) = repeat LF n.
Proof.
  cbn [repeat]. rewrite join_cons_flat. cbn [app].
  induction n as [|n IH]; [reflexivity|]. cbn [repeat flat_map app]. now rewrite IH.
Qed.

Lemma replace_other_head (t0 : ascii) (t r : str) (c : ascii) (R : str) :
  c <> t0 -> Py.replace (t0 :: t) r (c :: R) = c :: Py.replace (t0 :: t) r R.
Proof.
  intros Hc. unfold Py.replace. apply sub_no_match. cbn [Py.startswith].
  destruct (Ascii.eqb_spec t0 c); [congruence | reflexivity].
Qed.

Lemma replace_newlines (t0 : ascii) (t r : str) (n : nat) :
  t0 <> LF -> Py.replace (t0 :: t) r (repeat LF n) = repeat LF n.
Proof.
  intros Ht. induction n as [|n IH]; [reflexivity|].
  cbn [repeat]. rewrite replace_other_head by congruence. now rewrite IH.
Qed.

Lemma leading_newlines_repeat (n : nat) : Py.takewhile (Ascii.eqb LF) (repeat LF n) = repeat LF n.
Proof. induction n as [|n IH]; [reflexivity|]. cbn. now rewrite IH. Qed.

Lemma squash_newlines (n : nat) : squash (repeat LF n) = [].
Proof.
  destruct n as [|[|[|n]]]; try reflexivity.
  unfold squash.
  assert (H : Py.sub match_newlines (Some re_MULTILINE) (repeat LF (S (S (S n))))
              = [LF; LF; LF]).
  { cbn [repeat].
    rewrite (sub_match _ (Some re_MULTILINE) LF (repeat LF (S (S n))) [LF; LF; LF]
               (S (S (S n)))).
    - cbn [pred]. change (LF :: LF :: repeat LF n) with (repeat LF (S (S n))).
      rewrite skipn_all2 by (rewrite repeat_length; lia). reflexivity.
    - discriminate.
    - unfold match_newlines. change (LF :: repeat LF (S (S n))) with (repeat LF (S (S (S n)))).
      rewrite leading_newlines_repeat, repeat_length. reflexivity. }
  rewrite H. reflexivity.
Qed.

(** X10.  A document that holds nothing but whitespace, whatever its line
    ends and however many its lines, is formatted to a single newline. *)
Theorem format_string_blank_document (options : FormatterOptions) (contents : str) :
  Forall (fun c => isspace c = true) contents ->
  format_string options contents = [LF].
Proof.
  intros H. apply splitlines_Forall in H.
  unfold format_string, indented_text.
  rewrite (clean_lines_blank _ H).
  set (n := length (Py.splitlines contents)).
  unfold _join_opening_bracket. rewrite join_loop_no_brace.
  2:{ apply Forall_forall. intros l Hl. apply repeat_spec in Hl. subst l. discriminate. }
  cbn [app]. unfold _perform_indentation, indent_loop.
  rewrite fold_indent_step_empty_lines. cbn [indented_lines app].
  destruct n as [|n]; [reflexivity|].
  rewrite join_empty_lines. unfold strip_bracket_template_tags.
  change _TEMPLATE_BRACKET_OPENING_TAG with ("_" :: lit "__TEMPLATE_BRACKET_OPENING_TAG___").
  change _TEMPLATE_BRACKET_CLOSING_TAG with ("_" :: lit "__TEMPLATE_BRACKET_CLOSING_TAG___").
  rewrite !replace_newlines by discriminate.
  now rewrite squash_newlines.
Qed.

Lemma format_string_blank_document_witness :
  format_string default_options
    ([" "; " "; LF; "009"; CR; LF; LF; " "; "012"; " "; LF; LF; LF; LF; LF]) = [LF].
Proof.
  apply (format_string_blank_document default_options).
  repeat constructor.
Defined.

(** ** A template variable, tagged and restored *)

Lemma word_not_space (c : ascii) : isword c = true -> isspace c = false.
Proof. destruct c as [[] [] [] [] [] [] [] []]; vm_compute; congruence. Qed.

Lemma takewhile_app_stop (f : ascii -> bool) (a b : str) :
  Forall (fun c => f c = true) a ->
  match b with [] => True | c :: _ => f c = false end ->
  Py.takewhile f (a ++ b) = a /\ Py.dropwhile f (a ++ b) = b.
Proof.
  intros Ha Hb. induction Ha as [|x a Hx _ IH]; cbn [app].
  - destruct b as [|c b]; [now split|]. cbn. now rewrite Hb.
  - cbn [Py.takewhile Py.dropwhile]. rewrite Hx. destruct IH as [-> ->]. now split.
Qed.

Lemma sub_whole (try_match : str -> option (str * nat)) (c : ascii) (s r : str) :
  try_match (c :: s) = Some (r, length (c :: s)) ->
  Py.sub try_match None (c :: s) = r.
Proof.
  intros H. rewrite (sub_match _ None _ _ _ _ ltac:(discriminate) H).
  cbn [length pred]. rewrite skipn_all. cbn. apply app_nil_r.
Qed.

Lemma backtrack_word_finds_tag (w : str) (j : nat) :
  w <> [] -> j <= 35 ->
  backtrack_word (length w + j) (w ++ _TEMPLATE_VARIABLE_CLOSING_TAG)
  = Some (length w, 0).
Proof.
  intros Hw. induction j as [|j IH]; intros Hj.
  - rewrite Nat.add_0_r. destruct w as [|c w]; [congruence|].
    cbn [length backtrack_word].
    change (S (length w)) with (length (c :: w)).
    rewrite skipn_app, skipn_all, Nat.sub_diag. reflexivity.
  - rewrite Nat.add_succ_r. cbn [backtrack_word].
    rewrite skipn_app, skipn_all2 by lia. cbn [app].
    replace (S (length w + j) - length w) with (S j) by lia.
    destruct (Py.startswith _TEMPLATE_VARIABLE_CLOSING_TAG
                (Py.dropwhile isspace (skipn (S j) _TEMPLATE_VARIABLE_CLOSING_TAG))) eqn:E.
    + apply startswith_length in E.
      pose proof (length_dropwhile isspace (skipn (S j) _TEMPLATE_VARIABLE_CLOSING_TAG)) as Hd.
      rewrite length_skipn in Hd.
      change (length _TEMPLATE_VARIABLE_CLOSING_TAG) with 35 in *. lia.
    + apply IH. lia.
Qed.

(** X11.  A template variable on its own: [apply_variable_template_tags]
    puts the name between the two variable tags and drops the whitespace
    around it, and [strip_variable_template_tags] gives the variable back
    without that whitespace. *)
Theorem variable_reference_normalised (ws1 w ws2 : str) :
  Forall (fun c => isspace c = true) ws1 ->
  Forall (fun c => isspace c = true) ws2 ->
  Forall (fun c => isword c = true) w ->
  w <> [] ->
  apply_variable_template_tags (["$"; "{"] ++ ws1 ++ w ++ ws2 ++ ["}"])
  = _TEMPLATE_VARIABLE_OPENING_TAG ++ w ++ _TEMPLATE_VARIABLE_CLOSING_TAG
  /\ strip_variable_template_tags
       (_TEMPLATE_VARIABLE_OPENING_TAG ++ w ++ _TEMPLATE_VARIABLE_CLOSING_TAG)
     = ["$"; "{"] ++ w ++ ["}"].
Proof.
  intros H1 H2 Hw Hne. destruct w as [|w0 w]; [congruence|].
  assert (Hw0 : isword w0 = true) by now inversion Hw.
  split.
  - unfold apply_variable_template_tags.
    change (["$"; "{"] ++ ws1 ++ (w0 :: w) ++ ws2 ++ ["}"])
      with ("$" :: "{" :: ws1 ++ (w0 :: w) ++ ws2 ++ ["}"]).
    apply sub_whole. cbn [match_variable].
    destruct (takewhile_app_stop isspace ws1 ((w0 :: w) ++ ws2 ++ ["}"]) H1) as [E1 E2];
      [now apply word_not_space|].
    rewrite E1, E2.
    destruct (takewhile_app_stop isword (w0 :: w) (ws2 ++ ["}"]) Hw) as [E3 E4].
    { destruct ws2 as [|x ws2]; [reflexivity|]. inversion H2; subst. cbn [app].
      destruct (isword x) eqn:E; [|reflexivity].
      apply word_not_space in E. congruence. }
    rewrite E3, E4.
    destruct (takewhile_app_stop isspace ws2 ["}"] H2) as [E5 E6]; [reflexivity|].
    rewrite E5, E6.
    do 2 f_equal. cbn [length]. rewrite !length_app. cbn [length]. lia.
  - unfold strip_variable_template_tags.
    change (_TEMPLATE_VARIABLE_OPENING_TAG ++ (w0 :: w) ++ _TEMPLATE_VARIABLE_CLOSING_TAG)
      with ("_" :: lit "__TEMPLATE_VARIABLE_OPENING_TAG___"
                ++ (w0 :: w) ++ _TEMPLATE_VARIABLE_CLOSING_TAG).
    apply sub_whole.
    change ("_" :: lit "__TEMPLATE_VARIABLE_OPENING_TAG___"
                ++ (w0 :: w) ++ _TEMPLATE_VARIABLE_CLOSING_TAG)
      with (_TEMPLATE_VARIABLE_OPENING_TAG ++ (w0 :: w) ++ _TEMPLATE_VARIABLE_CLOSING_TAG).
    unfold match_variable_tag. rewrite startswith_refl_app.
    rewrite skipn_app, skipn_all, Nat.sub_diag. cbn [skipn app].
    assert (Hs : Py.dropwhile isspace (w0 :: w ++ _TEMPLATE_VARIABLE_CLOSING_TAG)
                 = w0 :: w ++ _TEMPLATE_VARIABLE_CLOSING_TAG).
    { cbn [Py.dropwhile]. now rewrite (word_not_space _ Hw0). }
    assert (Ht : Py.takewhile isspace (w0 :: w ++ _TEMPLATE_VARIABLE_CLOSING_TAG) = []).
    { cbn [Py.takewhile]. now rewrite (word_not_space _ Hw0). }
    rewrite Hs, Ht.
    assert (Hall : Py.takewhile isword (w0 :: w ++ _TEMPLATE_VARIABLE_CLOSING_TAG)
                   = (w0 :: w) ++ _TEMPLATE_VARIABLE_CLOSING_TAG).
    { destruct (takewhile_app_stop isword ((w0 :: w) ++ _TEMPLATE_VARIABLE_CLOSING_TAG) [])
        as [E _]; [|exact I|now rewrite app_nil_r in E].
      apply Forall_app. split; [exact Hw|]. repeat constructor. }
    rewrite Hall, length_app.
    change (length _TEMPLATE_VARIABLE_CLOSING_TAG) with 35.
    change (w0 :: w ++ _TEMPLATE_VARIABLE_CLOSING_TAG)
      with ((w0 :: w) ++ _TEMPLATE_VARIABLE_CLOSING_TAG).
    rewrite backtrack_word_finds_tag by (try discriminate; lia).
    rewrite firstn_app, firstn_all, Nat.sub_diag. cbn [firstn].
    rewrite app_nil_r. f_equal. f_equal.
    rewrite !length_app. cbn [length].
    change (length _TEMPLATE_VARIABLE_OPENING_TAG) with 35.
    change (length _TEMPLATE_VARIABLE_CLOSING_TAG) with 35. lia.
Qed.

Lemma variable_reference_normalised_witness :
  apply_variable_template_tags (["$"; "{"] ++ lit "  " ++ lit "server_name" ++ [" "] ++ ["}"])
  = _TEMPLATE_VARIABLE_OPENING_TAG ++ lit "server_name" ++ _TEMPLATE_VARIABLE_CLOSING_TAG
  /\ strip_variable_template_tags
       (_TEMPLATE_VARIABLE_OPENING_TAG ++ lit "server_name" ++ _TEMPLATE_VARIABLE_CLOSING_TAG)
     = ["$"; "{"] ++ lit "server_name" ++ ["}"].
Proof.
  apply (variable_reference_normalised (lit "  ") (lit "server_name") [" "]).
  - repeat constructor.
  - repeat constructor.
  - repeat constructor.
  - discriminate.
Defined.

(** ** Braces in quotes, tagged and restored *)

Lemma tag_chars_with (line : str) :
  forall in_quotes last_char,
    tag_chars in_quotes last_char line
    = tag_with _TEMPLATE_BRACKET_OPENING_TAG _TEMPLATE_BRACKET_CLOSING_TAG
               in_quotes last_char line.
Proof.
  induction line as [|c line IH]; intros b l; [reflexivity|].
  cbn [tag_chars tag_with]. now rewrite IH.
Qed.

(** What [tag_with] puts for one character. *)
Lemma tag_with_cons (o c : str) (b : bool) (l : option ascii) (x : ascii) (s : str) :
  exists b' l',
    tag_with o c b l (x :: s) = o ++ tag_with o c b' l' s /\ x = "{"
    \/ tag_with o c b l (x :: s) = c ++ tag_with o c b' l' s /\ x = "}"
    \/ tag_with o c b l (x :: s) = x :: tag_with o c b' l' s.
Proof.
  cbn [tag_with].
  destruct (if _ && _ then _ else _).
  - exists true, (Some x).
    destruct (Ascii.eqb_spec x "{"); [left; split; [reflexivity | assumption]|].
    destruct (Ascii.eqb_spec x "}"); [right; left; split; [reflexivity | assumption]|].
    right. right. reflexivity.
  - exists false, (Some x). right. right. reflexivity.
Qed.

Lemma tagged_letters_underscore (P0 : str) (z : ascii) (Z s : str) :
  Py.count "_" P0 = 0 ->
  z <> "_" ->
  Py.count "_" s = 0 ->
  forall b l,
    Py.startswith (P0 ++ "_" :: z :: Z)
      (tag_with _TEMPLATE_BRACKET_OPENING_TAG _TEMPLATE_BRACKET_CLOSING_TAG b l s) = false.
Proof.
  revert s. induction P0 as [|x P0 IH]; intros s Hu Hz Hs b l.
  - destruct s as [|c s]; [reflexivity|].
    apply count_cons_zero in Hs as [Hcu Hs].
    destruct (tag_with_cons _TEMPLATE_BRACKET_OPENING_TAG _TEMPLATE_BRACKET_CLOSING_TAG
                b l c s) as (b' & l' & [[-> _]|[[-> _]| ->]]).
    + cbn. destruct (Ascii.eqb_spec z "_"); [congruence | reflexivity].
    + cbn. destruct (Ascii.eqb_spec z "_"); [congruence | reflexivity].
    + cbn [app Py.startswith]. destruct (Ascii.eqb_spec "_" c); [congruence | reflexivity].
  - destruct s as [|c s]; [reflexivity|].
    apply count_cons_zero in Hs as [Hcu Hs].
    apply count_cons_zero in Hu as [Hxu Hu].
    destruct (tag_with_cons _TEMPLATE_BRACKET_OPENING_TAG _TEMPLATE_BRACKET_CLOSING_TAG
                b l c s) as (b' & l' & [[-> _]|[[-> _]| ->]]).
    + cbn. destruct (Ascii.eqb_spec x "_"); [congruence | reflexivity].
    + cbn. destruct (Ascii.eqb_spec x "_"); [congruence | reflexivity].
    + cbn [app Py.startswith]. rewrite (IH s) by assumption. apply andb_false_r.
Qed.

Lemma tagged_two_underscores (z : ascii) (Z s : str) :
  z <> "_" -> Py.count "_" s = 0 ->
  forall b l,
    Py.startswith ("_" :: "_" :: z :: Z)
      (tag_with _TEMPLATE_BRACKET_OPENING_TAG _TEMPLATE_BRACKET_CLOSING_TAG b l s) = false.
Proof.
  intros Hz Hs b l. destruct s as [|c s]; [reflexivity|].
  apply count_cons_zero in Hs as [Hcu Hs].
  destruct (tag_with_cons _TEMPLATE_BRACKET_OPENING_TAG _TEMPLATE_BRACKET_CLOSING_TAG
              b l c s) as (b' & l' & [[-> _]|[[-> _]| ->]]).
  - cbn. destruct (Ascii.eqb_spec z "_"); [congruence | reflexivity].
  - cbn. destruct (Ascii.eqb_spec z "_"); [congruence | reflexivity].
  - cbn [app Py.startswith]. destruct (Ascii.eqb_spec "_" c); [congruence | reflexivity].
Qed.

(** A pattern against a text that starts with known characters: the known
    characters decide first, the rest of the text then. *)
Lemma startswith_known (P X R : str) :
  length X <= length P ->
  Py.startswith P (X ++ R)
  = Py.startswith (firstn (length X) P) X && Py.startswith (skipn (length X) P) R.
Proof.
  revert P. induction X as [|x X IH]; intros P Hl; [reflexivity|].
  destruct P as [|a P]; [cbn in Hl; lia|]. cbn [length] in Hl.
  cbn [app length firstn skipn Py.startswith]. rewrite IH by lia. apply andb_assoc.
Qed.

Ltac known_part :=
  match goal with
  | |- ?a && ?b = false => let v := eval vm_compute in a in change a with v
  end.

Ltac tag_positions H1 H2 H3 k :=
  do 31 (destruct k as [|k]; [known_part; reflexivity|]);
  destruct k as [|k]; [known_part; exact H1|];
  destruct k as [|k]; [known_part; exact H2|];
  destruct k as [|k]; [known_part; exact H3|];
  lia.

(** No opening tag starts inside a closing tag when the text behind the
    closing tag does not complete one. *)
Lemma no_opening_tag_in_closing_tag (R : str) :
  Py.startswith (lit "TEMPLATE_BRACKET_OPENING_TAG___") R = false ->
  Py.startswith (lit "_TEMPLATE_BRACKET_OPENING_TAG___") R = false ->
  Py.startswith (lit "__TEMPLATE_BRACKET_OPENING_TAG___") R = false ->
  forall k, k < 34 ->
    Py.startswith _TEMPLATE_BRACKET_OPENING_TAG
      (skipn k _TEMPLATE_BRACKET_CLOSING_TAG ++ R) = false.
Proof.
  intros H1 H2 H3 k Hk.
  rewrite startswith_known
    by (rewrite length_skipn;
        change (length _TEMPLATE_BRACKET_CLOSING_TAG) with 34;
        change (length _TEMPLATE_BRACKET_OPENING_TAG) with 34; lia).
  tag_positions H1 H2 H3 k.
Qed.

Lemma replace_at_tag (t r R : str) :
  t <> [] -> Py.replace t r (t ++ R) = r ++ Py.replace t r R.
Proof.
  intros Ht. destruct t as [|t0 t]; [congruence|]. unfold Py.replace. cbn [app].
  rewrite (sub_match _ None t0 (t ++ R) r (length (t0 :: t)) ltac:(discriminate)).
  - cbn [length pred option_map]. rewrite skipn_app, skipn_all, Nat.sub_diag. reflexivity.
  - change (t0 :: t ++ R) with ((t0 :: t) ++ R). now rewrite startswith_refl_app.
Qed.

Lemma replace_no_head (t0 : ascii) (t r s : str) :
  Py.count t0 s = 0 -> Py.replace (t0 :: t) r s = s.
Proof.
  induction s as [|c s IH]; intros Hs; [reflexivity|].
  apply count_cons_zero in Hs as [Hc Hs]. rewrite replace_other_head by exact Hc.
  now rewrite IH.
Qed.

(** The first replacement of [strip_bracket_template_tags] on a tagged
    line: the opening tags go back to opening braces, and the closing tags
    stay. *)
Lemma replace_opening_tags (s : str) :
  Py.count "_" s = 0 ->
  forall b l,
    Py.replace _TEMPLATE_BRACKET_OPENING_TAG ["{"]
      (tag_with _TEMPLATE_BRACKET_OPENING_TAG _TEMPLATE_BRACKET_CLOSING_TAG b l s)
    = tag_with ["{"] _TEMPLATE_BRACKET_CLOSING_TAG b l s.
Proof.
  induction s as [|c s IH]; intros Hs b l; [reflexivity|].
  apply count_cons_zero in Hs as [Hc Hs]. cbn [tag_with].
  set (q := if _ && _ then _ else _).
  assert (Hplain : Py.replace _TEMPLATE_BRACKET_OPENING_TAG ["{"]
                     ([c] ++ tag_with _TEMPLATE_BRACKET_OPENING_TAG
                                      _TEMPLATE_BRACKET_CLOSING_TAG q (Some c) s)
                   = [c] ++ tag_with ["{"] _TEMPLATE_BRACKET_CLOSING_TAG q (Some c) s).
  { cbn [app].
    change _TEMPLATE_BRACKET_OPENING_TAG with ("_" :: lit "__TEMPLATE_BRACKET_OPENING_TAG___")
      at 1.
    rewrite replace_other_head by exact Hc.
    change ("_" :: lit "__TEMPLATE_BRACKET_OPENING_TAG___") with _TEMPLATE_BRACKET_OPENING_TAG.
    now rewrite IH. }
  destruct q; [|exact Hplain].
  destruct (Ascii.eqb c "{"); [|destruct (Ascii.eqb c "}"); [|exact Hplain]].
  - rewrite replace_at_tag by discriminate. now rewrite IH.
  - unfold Py.replace. rewrite sub_over_prefix.
    + fold (Py.replace _TEMPLATE_BRACKET_OPENING_TAG ["{"]
              (tag_with _TEMPLATE_BRACKET_OPENING_TAG _TEMPLATE_BRACKET_CLOSING_TAG
                        true (Some c) s)).
      now rewrite IH.
    + intros k Hk. change (length _TEMPLATE_BRACKET_CLOSING_TAG) with 34 in Hk.
      rewrite no_opening_tag_in_closing_tag; [reflexivity | | | | exact Hk].
      * exact (tagged_letters_underscore (lit "TEMPLATE") "B" (lit "RACKET_OPENING_TAG___")
                 s eq_refl ltac:(discriminate) Hs true (Some c)).
      * exact (tagged_letters_underscore [] "T" (lit "EMPLATE_BRACKET_OPENING_TAG___")
                 s eq_refl ltac:(discriminate) Hs true (Some c)).
      * exact (tagged_two_underscores "T" (lit "EMPLATE_BRACKET_OPENING_TAG___")
                 s ltac:(discriminate) Hs true (Some c)).
Qed.

Lemma replace_closing_tags (s : str) :
  Py.count "_" s = 0 ->
  forall b l,
    Py.replace _TEMPLATE_BRACKET_CLOSING_TAG ["}"]
      (tag_with ["{"] _TEMPLATE_BRACKET_CLOSING_TAG b l s)
    = tag_with ["{"] ["}"] b l s.
Proof.
  induction s as [|c s IH]; intros Hs b l; [reflexivity|].
  apply count_cons_zero in Hs as [Hc Hs]. cbn [tag_with].
  set (q := if _ && _ then _ else _).
  assert (Hplain : forall x, x <> "_" ->
             Py.replace _TEMPLATE_BRACKET_CLOSING_TAG ["}"]
               ([x] ++ tag_with ["{"] _TEMPLATE_BRACKET_CLOSING_TAG q (Some c) s)
             = [x] ++ tag_with ["{"] ["}"] q (Some c) s).
  { intros x Hx. cbn [app].
    change _TEMPLATE_BRACKET_CLOSING_TAG with ("_" :: lit "__TEMPLATE_BRACKET_CLOSING_TAG___")
      at 1.
    rewrite replace_other_head by exact Hx.
    change ("_" :: lit "__TEMPLATE_BRACKET_CLOSING_TAG___") with _TEMPLATE_BRACKET_CLOSING_TAG.
    now rewrite IH. }
  destruct q; [|now apply Hplain].
  destruct (Ascii.eqb c "{"); [apply Hplain; discriminate|].
  destruct (Ascii.eqb c "}"); [|now apply Hplain].
  rewrite replace_at_tag by discriminate. now rewrite IH.
Qed.

Lemma tag_with_braces (s : str) : forall b l, tag_with ["{"] ["}"] b l s = s.
Proof.
  induction s as [|c s IH]; intros b l; [reflexivity|].
  cbn [tag_with]. rewrite IH.
  destruct (if _ && _ then _ else _); [|reflexivity].
  destruct (Ascii.eqb_spec c "{") as [->|]; [reflexivity|].
  destruct (Ascii.eqb_spec c "}") as [->|]; reflexivity.
Qed.

(** X12.  The bracket tags go back to the braces they stand for: a line
    without an underscore, tagged by [apply_bracket_template_tags], is given
    back unchanged by [strip_bracket_template_tags], whatever quotes,
    backslashes and braces it holds. *)
Theorem bracket_tags_round_trip (lines : list str) :
  Forall (fun line => Py.count "_" line = 0) lines ->
  map strip_bracket_template_tags (apply_bracket_template_tags lines) = lines.
Proof.
  unfold apply_bracket_template_tags. rewrite map_map.
  induction 1 as [|line lines Hl _ IH]; [reflexivity|].
  cbn [map]. rewrite IH. f_equal.
  unfold strip_bracket_template_tags, tag_line.
  destruct (Py.startswith ["#"] line).
  - change _TEMPLATE_BRACKET_OPENING_TAG with ("_" :: lit "__TEMPLATE_BRACKET_OPENING_TAG___").
    change _TEMPLATE_BRACKET_CLOSING_TAG with ("_" :: lit "__TEMPLATE_BRACKET_CLOSING_TAG___").
    rewrite (replace_no_head "_" _ ["{"] line Hl).
    apply (replace_no_head "_" _ ["}"] line Hl).
  - rewrite tag_chars_with, replace_opening_tags, replace_closing_tags by exact Hl.
    apply tag_with_braces.
Qed.

Lemma bracket_tags_round_trip_witness :
  map strip_bracket_template_tags
    (apply_bracket_template_tags
       [lit "add-header X '{a}' " ++ [DQUOTE] ++ lit "}{ \' {" ++ [DQUOTE] ++ lit " {";
        lit "# it's {x}"])
  = [lit "add-header X '{a}' " ++ [DQUOTE] ++ lit "}{ \' {" ++ [DQUOTE] ++ lit " {";
     lit "# it's {x}"].
Proof.
  apply (bracket_tags_round_trip
           [lit "add-header X '{a}' " ++ [DQUOTE] ++ lit "}{ \' {" ++ [DQUOTE] ++ lit " {";
            lit "# it's {x}"]).
  repeat constructor.
Defined.

(** ** Double quotes in [_strip_line] *)

Lemma split_app_sep (d : ascii) (X Y : str) :
  Py.split d (X ++ d :: Y) = Py.split d X ++ Py.split d Y.
Proof.
  induction X as [|c X IH]; cbn [app].
  - rewrite split_cons, Ascii.eqb_refl. reflexivity.
  - rewrite !split_cons, IH. destruct (Ascii.eqb c d); [reflexivity|].
    pose proof (split_not_nil d X). destruct (Py.split d X); [congruence|]. reflexivity.
Qed.

Lemma split_none (d : ascii) (s : str) : Py.count d s = 0 -> Py.split d s = [s].
Proof.
  induction s as [|c s IH]; intros H; [reflexivity|].
  apply count_cons_zero in H as [Hc Hs]. rewrite split_cons, (IH Hs).
  destruct (Ascii.eqb_spec c d); [congruence | reflexivity].
Qed.

Lemma strip_parts_app (P Q : list str) :
  forall w,
    strip_parts w (P ++ Q)
    = strip_parts w P ++ strip_parts (if Nat.even (length P) then w else negb w) Q.
Proof.
  induction P as [|p P IH]; intros w; [reflexivity|].
  cbn [app strip_parts length]. rewrite IH. do 2 f_equal.
  rewrite Nat.even_succ, <- Nat.negb_even.
  destruct (Nat.even (length P)), w; reflexivity.
Qed.

Lemma length_strip_parts (ps : list str) :
  forall w, length (strip_parts w ps) = length ps.
Proof.
  induction ps as [|p ps IH]; intros w; [reflexivity|].
  cbn [strip_parts length]. now rewrite IH.
Qed.

Lemma join_app (sep : str) (P Q : list str) :
  P <> [] -> Q <> [] -> Py.join sep (P ++ Q) = Py.join sep P ++ sep ++ Py.join sep Q.
Proof.
  intros HP HQ. induction P as [|p P IH]; [congruence|].
  destruct P as [|p' P].
  - cbn [app]. destruct Q as [|q Q]; [congruence|]. apply join_cons2.
  - cbn [app] in *. rewrite !join_cons2, IH by discriminate. now rewrite <- !app_assoc.
Qed.

Lemma count_dropwhile_other (c : ascii) (f : ascii -> bool) (s : str) :
  f c = false -> Py.count c (Py.dropwhile f s) = Py.count c s.
Proof.
  intros Hc. induction s as [|x s IH]; [reflexivity|].
  cbn [Py.dropwhile]. destruct (f x) eqn:E; [|reflexivity].
  rewrite IH. cbn [Py.count].
  destruct (Ascii.eqb_spec x c); [congruence | reflexivity].
Qed.

Lemma strip_around_quotes (a m b : str) :
  Py.strip (a ++ DQUOTE :: m ++ DQUOTE :: b)
  = Py.lstrip a ++ DQUOTE :: m ++ DQUOTE :: Py.rstrip b.
Proof.
  unfold Py.strip, Py.lstrip, Py.rstrip. rewrite dropwhile_barrier by reflexivity.
  replace (Py.dropwhile isspace a ++ DQUOTE :: m ++ DQUOTE :: b)
    with ((Py.dropwhile isspace a ++ DQUOTE :: m) ++ DQUOTE :: b)
    by (rewrite <- app_assoc; reflexivity).
  rewrite rev_app_distr. cbn [rev]. rewrite <- app_assoc. cbn [app].
  rewrite dropwhile_barrier by reflexivity.
  rewrite rev_app_distr. cbn [rev]. rewrite rev_involutive, <- !app_assoc. reflexivity.
Qed.

Lemma split_parts_clean (d : ascii) (s : str) :
  Forall (fun p => Py.count d p = 0) (Py.split d s).
Proof.
  induction s as [|c s IH]; [repeat constructor|].
  rewrite split_cons. destruct (Ascii.eqb_spec c d) as [->|Hc].
  - constructor; [reflexivity | exact IH].
  - pose proof (split_not_nil d s). destruct (Py.split d s) as [|p ps]; [congruence|].
    inversion IH as [|? ? Hp Hps]; subst. constructor; [|exact Hps].
    cbn [Py.count]. rewrite Hp. destruct (Ascii.eqb_spec c d); [congruence | reflexivity].
Qed.

Lemma count_collapse_spaces_other (c : ascii) (part : str) :
  c <> " " -> Py.count c part = 0 -> Py.count c (collapse_spaces part) = 0.
Proof.
  intros Hc H.
  enough (Py.count c (collapse_spaces part) <= Py.count c part) by lia.
  apply sub_count_le with (len := length part); [|apply Nat.le_refl].
  intros s r n. unfold match_spaces.
  destruct (Py.takewhile isspace s); [discriminate|].
  intros [= <- _]. cbn [Py.count].
  destruct (Ascii.eqb_spec " " c); [congruence | reflexivity].
Qed.

Lemma strip_parts_clean (c : ascii) (ps : list str) :
  c <> " " ->
  Forall (fun p => Py.count c p = 0) ps ->
  forall w, Forall (fun p => Py.count c p = 0) (strip_parts w ps).
Proof.
  intros Hc H. induction H as [|p ps Hp _ IH]; intros w; [constructor|].
  cbn [strip_parts]. constructor; [|apply IH].
  destruct w; [exact Hp | now apply count_collapse_spaces_other].
Qed.

Lemma count_join_sep (d : ascii) (ps : list str) :
  Forall (fun p => Py.count d p = 0) ps ->
  Py.count d (Py.join [d] ps) = pred (length ps).
Proof.
  induction 1 as [|p ps Hp Hps IH]; [reflexivity|].
  destruct ps as [|q ps]; [exact Hp|].
  rewrite join_cons2, !count_app, IH, Hp. cbn [Py.count length pred].
  now rewrite Ascii.eqb_refl.
Qed.

(** X13.  What stands between double quotes is kept: a part of the line
    that is opened by a double quote at an even position among the double
    quotes, and closed by the next one, stands in the result of
    [_strip_line] as it is, whitespace included, and behind as many double
    quotes as before. *)
Theorem strip_line_keeps_double_quoted (a m b : str) :
  Nat.even (Py.count DQUOTE a) = true ->
  Py.count DQUOTE m = 0 ->
  exists a' b',
    _strip_line (a ++ [DQUOTE] ++ m ++ [DQUOTE] ++ b)
    = a' ++ [DQUOTE] ++ m ++ [DQUOTE] ++ b'
    /\ Py.count DQUOTE a' = Py.count DQUOTE a.
Proof.
  intros Ha Hm. unfold _strip_line. cbn [app]. rewrite strip_around_quotes.
  assert (Hl : Py.count DQUOTE (Py.lstrip a) = Py.count DQUOTE a)
    by now apply count_dropwhile_other.
  destruct (Py.startswith ["#"] _).
  - now exists (Py.lstrip a), (Py.rstrip b).
  - rewrite split_app_sep, split_app_sep, (split_none _ m Hm).
    rewrite strip_parts_app, length_split, Hl, Nat.even_succ, <- Nat.negb_even, Ha.
    cbn [negb app strip_parts].
    pose proof (split_not_nil DQUOTE (Py.lstrip a)) as Hna.
    pose proof (split_not_nil DQUOTE (Py.rstrip b)) as Hnb.
    rewrite join_app.
    + destruct (strip_parts false (Py.split DQUOTE (Py.rstrip b))) as [|q qs] eqn:E.
      { apply (f_equal (@length str)) in E. rewrite length_strip_parts in E.
        destruct (Py.split DQUOTE (Py.rstrip b)); [congruence | discriminate]. }
      rewrite join_cons2.
      exists (Py.join [DQUOTE] (strip_parts false (Py.split DQUOTE (Py.lstrip a)))),
             (Py.join [DQUOTE] (q :: qs)).
      split; [reflexivity|].
      rewrite count_join_sep, length_strip_parts, length_split, Hl; [reflexivity|].
      apply strip_parts_clean; [discriminate | apply split_parts_clean].
    + intros E. apply (f_equal (@length str)) in E. rewrite length_strip_parts in E.
      destruct (Py.split DQUOTE (Py.lstrip a)); [congruence | discriminate].
    + discriminate.
Qed.

Lemma strip_line_keeps_double_quoted_witness :
  exists a' b',
    _strip_line (lit "  set   $x  " ++ [DQUOTE] ++ lit " a   b {;}  " ++ [DQUOTE] ++ lit "  ; ")
    = a' ++ [DQUOTE] ++ lit " a   b {;}  " ++ [DQUOTE] ++ b'
    /\ Py.count DQUOTE a' = Py.count DQUOTE (lit "  set   $x  ").
Proof.
  apply (strip_line_keeps_double_quoted (lit "  set   $x  ") (lit " a   b {;}  ") (lit "  ; "));
    reflexivity.
Defined.

(** ** A stripped line, stripped again *)

Lemma collapse_spaces_cons (c : ascii) (s : str) :
  collapse_spaces (c :: s)
  = if isspace c then " " :: collapse_spaces (Py.dropwhile isspace s)
    else c :: collapse_spaces s.
Proof.
  unfold collapse_spaces. destruct (isspace c) eqn:E.
  - rewrite (sub_match _ None c s [" "] (S (length (Py.takewhile isspace s)))
               ltac:(discriminate)).
    + cbn [pred option_map app]. now rewrite skipn_takewhile.
    + unfold match_spaces. cbn [Py.takewhile]. now rewrite E.
  - apply sub_no_match. unfold match_spaces. cbn [Py.takewhile]. now rewrite E.
Qed.

Lemma dropwhile_fixed (f : ascii -> bool) (s : str) :
  match s with [] => True | c :: _ => f c = false end -> Py.dropwhile f s = s.
Proof. destruct s as [|c s]; [reflexivity|]. cbn. now intros ->. Qed.

Lemma fixed_dropwhile (f : ascii -> bool) (s : str) :
  Py.dropwhile f s = s -> match s with [] => True | c :: _ => f c = false end.
Proof. intros H. rewrite <- H. apply dropwhile_head. Qed.

Lemma collapse_spaces_head (s : str) :
  match s with [] => True | c :: _ => isspace c = false end ->
  match collapse_spaces s with [] => True | c :: _ => isspace c = false end.
Proof.
  destruct s as [|c s]; [exact (fun H => H)|].
  intros H. now rewrite collapse_spaces_cons, H.
Qed.

Lemma collapse_spaces_twice (len : nat) :
  forall s, length s <= len -> collapse_spaces (collapse_spaces s) = collapse_spaces s.
Proof.
  induction len as [|len IH]; intros [|c s] Hl; try reflexivity; [cbn in Hl; lia|].
  cbn [length] in Hl. rewrite collapse_spaces_cons. destruct (isspace c) eqn:E.
  - rewrite collapse_spaces_cons. change (isspace " ") with true. cbv iota.
    rewrite (dropwhile_fixed isspace (collapse_spaces _))
      by apply collapse_spaces_head, dropwhile_head.
    rewrite IH; [reflexivity|]. pose proof (length_dropwhile isspace s). lia.
  - rewrite collapse_spaces_cons, E, IH; [reflexivity | lia].
Qed.

Lemma strip_parts_twice (ps : list str) :
  forall w, strip_parts w (strip_parts w ps) = strip_parts w ps.
Proof.
  induction ps as [|p ps IH]; intros w; [reflexivity|].
  cbn [strip_parts]. rewrite IH. f_equal.
  destruct w; [reflexivity|]. now apply (collapse_spaces_twice (length p)).
Qed.

Lemma split_join (d : ascii) (ps : list str) :
  Forall (fun p => Py.count d p = 0) ps -> ps <> [] ->
  Py.split d (Py.join [d] ps) = ps.
Proof.
  induction 1 as [|p ps Hp Hps IH]; intros Hne; [congruence|].
  destruct ps as [|q ps]; [now apply split_none|].
  rewrite join_cons2. cbn [app]. rewrite split_app_sep, IH by discriminate.
  now rewrite (split_none _ _ Hp).
Qed.

Lemma join_split (d : ascii) (s : str) : Py.join [d] (Py.split d s) = s.
Proof.
  induction s as [|c s IH]; [reflexivity|].
  rewrite split_cons. pose proof (split_not_nil d s) as Hne.
  destruct (Py.split d s) as [|p ps] eqn:E; [congruence|].
  destruct (Ascii.eqb_spec c d) as [->|Hc].
  - rewrite join_cons2, IH. reflexivity.
  - rewrite join_cons_flat in *. rewrite <- IH. reflexivity.
Qed.

Lemma collapse_spaces_snoc (q : str) (c : ascii) :
  isspace c = false -> collapse_spaces (q ++ [c]) = collapse_spaces q ++ [c].
Proof.
  intros Hc. unfold collapse_spaces. rewrite (sub_barrier match_spaces c); [reflexivity | |].
  - intros X Y. unfold match_spaces. now rewrite takewhile_barrier.
  - intros X r n. unfold match_spaces.
    pose proof (length_takewhile isspace X) as Hl.
    destruct (Py.takewhile isspace X) as [|x run]; [discriminate|].
    intros [= _ <-]. cbn [length] in *. lia.
Qed.

(** The first character of the line stays the first character. *)
Lemma strip_parts_first (z : str) :
  Py.dropwhile isspace z = z ->
  (z = [] /\ Py.join [DQUOTE] (strip_parts false (Py.split DQUOTE z)) = [])
  \/ exists c z' y',
       z = c :: z'
       /\ Py.join [DQUOTE] (strip_parts false (Py.split DQUOTE z)) = c :: y'
       /\ isspace c = false.
Proof.
  intros Hz. apply fixed_dropwhile in Hz.
  destruct z as [|c z]; [left; now split|]. right. exists c, z.
  rewrite split_cons. pose proof (split_not_nil DQUOTE z) as Hne.
  destruct (Py.split DQUOTE z) as [|p ps]; [congruence|].
  destruct (Ascii.eqb_spec c DQUOTE) as [->|Hc].
  - cbn [strip_parts negb]. rewrite join_cons_flat.
    change (collapse_spaces []) with (@nil ascii). cbn [app flat_map].
    eexists. split; [reflexivity|]. split; [reflexivity | exact Hz].
  - cbn [strip_parts]. rewrite join_cons_flat, collapse_spaces_cons, Hz. cbn [app].
    eexists. split; [reflexivity|]. split; reflexivity.
Qed.

Lemma last_or_nil (s : str) : s = [] \/ exists q c, s = q ++ [c].
Proof.
  destruct s as [|x s]; [now left|]. right.
  destruct (@exists_last _ (x :: s)) as [q [c E]]; [discriminate|]. now exists q, c.
Qed.

(** The last character of the line stays the last character. *)
Lemma strip_parts_last (z : str) :
  Py.dropwhile isspace (rev z) = rev z ->
  Py.dropwhile isspace (rev (Py.join [DQUOTE] (strip_parts false (Py.split DQUOTE z))))
  = rev (Py.join [DQUOTE] (strip_parts false (Py.split DQUOTE z))).
Proof.
  intros Hz. apply fixed_dropwhile in Hz. apply dropwhile_fixed.
  rewrite <- (join_split DQUOTE z) in Hz.
  pose proof (split_not_nil DQUOTE z) as Hne.
  destruct (exists_last Hne) as [front [pl E]]. rewrite E in *. clear E Hne.
  rewrite strip_parts_app. cbn [strip_parts].
  set (w := if Nat.even (length front) then false else negb false).
  assert (Hpl : match rev (if w then pl else collapse_spaces pl) with
                | [] => pl = []
                | c :: _ => isspace c = false
                end).
  { destruct (last_or_nil pl) as [-> | [q [c ->]]].
    - destruct w; reflexivity.
    - assert (Hc : isspace c = false).
      { destruct front as [|f front].
        - cbn [app Py.join] in Hz. now rewrite rev_app_distr in Hz.
        - rewrite join_snoc in Hz by discriminate.
          now rewrite !app_assoc, rev_app_distr in Hz. }
      destruct w; [|rewrite collapse_spaces_snoc by exact Hc];
        now rewrite rev_app_distr. }
  destruct front as [|f front].
  - cbn [app strip_parts Py.join].
    match goal with
    | |- match ?t with _ => _ end =>
        change (match t with [] => pl = [] | c :: _ => isspace c = false end) in Hpl;
        destruct t
    end; [exact I | exact Hpl].
  - rewrite join_snoc.
    2:{ intros E. apply (f_equal (@length str)) in E.
        rewrite length_strip_parts in E. discriminate. }
    rewrite !rev_app_distr, <- ?app_assoc.
    match goal with
    | |- match ?t ++ _ with _ => _ end =>
        change (match t with [] => pl = [] | c :: _ => isspace c = false end) in Hpl;
        destruct t
    end; [reflexivity | exact Hpl].
Qed.

Lemma strip_fixed (s : str) :
  Py.dropwhile isspace s = s -> Py.dropwhile isspace (rev s) = rev s -> Py.strip s = s.
Proof.
  intros H1 H2. unfold Py.strip, Py.lstrip, Py.rstrip.
  now rewrite H1, H2, rev_involutive.
Qed.

Lemma dropwhile_twice (f : ascii -> bool) (s : str) :
  Py.dropwhile f (Py.dropwhile f s) = Py.dropwhile f s.
Proof. apply dropwhile_fixed, dropwhile_head. Qed.

Lemma strip_ends (s : str) :
  Py.dropwhile isspace (Py.strip s) = Py.strip s
  /\ Py.dropwhile isspace (rev (Py.strip s)) = rev (Py.strip s).
Proof.
  unfold Py.strip, Py.lstrip, Py.rstrip. split.
  - pose proof (dropwhile_head isspace s) as Hh.
    destruct (Py.dropwhile isspace s) as [|c u]; [reflexivity|].
    cbn [rev]. rewrite dropwhile_barrier by exact Hh.
    rewrite rev_app_distr. cbn [rev app]. cbn [Py.dropwhile]. now rewrite Hh.
  - rewrite rev_involutive. apply dropwhile_twice.
Qed.

(** X14.  [_strip_line] is idempotent: a line it has returned is returned
    as it is. *)
Theorem strip_line_idempotent (single_line : str) :
  _strip_line (_strip_line single_line) = _strip_line single_line.
Proof.
  destruct (strip_ends single_line) as [H1 H2].
  unfold _strip_line at 2 3.
  destruct (Py.startswith ["#"] (Py.strip single_line)) eqn:Ec.
  - unfold _strip_line. now rewrite (strip_fixed _ H1 H2), Ec.
  - set (z := Py.strip single_line) in *.
    pose proof (strip_parts_last z H2) as Hlast.
    assert (Hclean : Forall (fun p => Py.count DQUOTE p = 0)
                       (strip_parts false (Py.split DQUOTE z)))
      by (apply strip_parts_clean; [discriminate | apply split_parts_clean]).
    assert (Hne : strip_parts false (Py.split DQUOTE z) <> []).
    { intros E. apply (f_equal (@length str)) in E.
      rewrite length_strip_parts, length_split in E. discriminate. }
    unfold _strip_line.
    destruct (strip_parts_first z H1) as [[Ez Ey] | [c [z' [y' [Ez [Ey Hc]]]]]].
    + rewrite Ey. reflexivity.
    + rewrite strip_fixed; [|rewrite Ey; cbn; now rewrite Hc | exact Hlast].
      replace (Py.startswith ["#"] _) with false
        by (rewrite Ey; rewrite Ez in Ec; exact (eq_sym Ec)).
      now rewrite (split_join _ _ Hclean Hne), strip_parts_twice.
Qed.

(** ** What the three substitutions touch *)

Lemma sub_filter (f : ascii -> bool) (try_match : str -> option (str * nat)) :
  (forall s r n, try_match s = Some (r, n) ->
                 1 <= n /\ filter f r = filter f (firstn n s)) ->
  forall (len : nat) (s : str) (cnt : option nat),
    length s <= len -> filter f (Py.sub try_match cnt s) = filter f s.
Proof.
  intros H. induction len as [|len IH]; intros [|c s] cnt Hl; try reflexivity;
    [cbn in Hl; lia|].
  cbn [length] in Hl.
  assert (Hgo : cnt <> Some 0 ->
                filter f (Py.sub try_match cnt (c :: s)) = filter f (c :: s)).
  { intros Hcnt. destruct (try_match (c :: s)) as [[r n]|] eqn:E.
    - rewrite (sub_match _ cnt c s r n Hcnt E).
      destruct (H _ _ _ E) as [Hn Hf].
      rewrite filter_app, IH, Hf by (rewrite length_skipn; lia).
      destruct n as [|n]; [lia|]. cbn [pred].
      rewrite <- filter_app. change (firstn (S n) (c :: s)) with (c :: firstn n s).
      cbn [app]. now rewrite firstn_skipn.
    - rewrite sub_no_match by exact E. cbn [filter]. now rewrite IH by lia. }
  destruct cnt as [[|m]|]; [now rewrite sub_done | apply Hgo | apply Hgo]; discriminate.
Qed.

Lemma firstn_takewhile (f : ascii -> bool) (s : str) :
  firstn (length (Py.takewhile f s)) s = Py.takewhile f s.
Proof.
  induction s as [|c s IH]; [reflexivity|].
  cbn [Py.takewhile]. destruct (f c); [|reflexivity]. cbn [length firstn]. now rewrite IH.
Qed.

Lemma filter_newline_run (s : str) :
  filter (fun c => negb (Ascii.eqb c LF)) (Py.takewhile (Ascii.eqb LF) s) = [].
Proof.
  induction s as [|c s IH]; [reflexivity|].
  cbn [Py.takewhile]. destruct (Ascii.eqb_spec LF c) as [<-|]; [|reflexivity].
  cbn [filter]. now rewrite Ascii.eqb_refl.
Qed.

Lemma squash_filter (text : str) :
  filter (fun c => negb (Ascii.eqb c LF)) (squash text)
  = filter (fun c => negb (Ascii.eqb c LF)) text.
Proof.
  unfold squash.
  rewrite (sub_filter _ match_trailing_newline) with (len := length (sub_leading_newline
             (Some re_MULTILINE) (Py.sub match_newlines (Some re_MULTILINE) text)));
    [|clear text | apply Nat.le_refl].
  - transitivity (filter (fun c => negb (Ascii.eqb c LF))
                         (Py.sub match_newlines (Some re_MULTILINE) text)).
    + unfold sub_leading_newline, re_MULTILINE.
      destruct (Py.sub match_newlines (Some 8) text) as [|c rest]; [reflexivity|].
      destruct (Ascii.eqb c LF) eqn:E; [|reflexivity]. cbn [filter]. now rewrite E.
    + apply (sub_filter _ match_newlines) with (len := length text); [|apply Nat.le_refl].
      clear text. intros s r n. unfold match_newlines.
      destruct (3 <=? length (Py.takewhile (Ascii.eqb LF) s))%nat eqn:E; [|discriminate].
      intros [= <- <-]. apply Nat.leb_le in E. split; [lia|].
      now rewrite firstn_takewhile, filter_newline_run.
  - intros s r n. unfold match_trailing_newline.
    destruct s as [|c [|d [|e s]]]; try discriminate.
    + destruct (Ascii.eqb c LF) eqn:E; [|discriminate].
      intros [= <- <-]. split; [lia|]. cbn [firstn filter]. now rewrite E.
    + destruct (Ascii.eqb c LF) eqn:E; [|discriminate].
      destruct (Ascii.eqb d LF); [|discriminate].
      intros [= <- <-]. split; [lia|]. cbn [firstn filter]. now rewrite E.
Qed.

(** X15.  The three substitutions at the end of [format_string], and the
    newline it appends, touch newline characters only: the other characters
    of the result are those of the text joined from the indented lines, in
    the same order. *)
Theorem format_string_end_touches_newlines_only (options : FormatterOptions) (contents : str) :
  filter (fun c => negb (Ascii.eqb c LF)) (format_string options contents)
  = filter (fun c => negb (Ascii.eqb c LF))
      (strip_bracket_template_tags
         (Py.join [LF]
            (_perform_indentation options
               (_join_opening_bracket
                  (clean_lines (apply_bracket_template_tags (Py.splitlines contents))))))).
Proof.
  unfold format_string. rewrite filter_app, squash_filter.
  cbn [filter]. change (Ascii.eqb LF LF) with true. cbn [negb]. now rewrite app_nil_r.
Qed.

(** ** Lines that begin with [rewrite] *)

Lemma startswith_split (t s : str) : Py.startswith t s = true -> exists R, s = t ++ R.
Proof.
  revert s. induction t as [|x t IH]; intros s H; [now exists s|].
  destruct s as [|y s]; [discriminate|]. cbn [Py.startswith] in H.
  apply andb_prop in H as [Hx Hs]. apply Ascii.eqb_eq in Hx. subst y.
  destruct (IH _ Hs) as [R ->]. now exists R.
Qed.

Lemma split_over_prefix (d : ascii) (T R : str) :
  Forall (fun c => c <> d) T ->
  exists p ps, Py.split d R = p :: ps /\ Py.split d (T ++ R) = (T ++ p) :: ps.
Proof.
  intros H. induction H as [|c T Hc _ IH].
  - pose proof (split_not_nil d R). destruct (Py.split d R) as [|p ps] eqn:E; [congruence|].
    exists p, ps. split; [reflexivity | exact E].
  - destruct IH as (p & ps & E1 & E2). exists p, ps. split; [exact E1|].
    cbn [app]. rewrite split_cons, E2.
    destruct (Ascii.eqb_spec c d); [congruence | reflexivity].
Qed.

Lemma collapse_spaces_over_prefix (T R : str) :
  Forall (fun c => isspace c = false) T ->
  collapse_spaces (T ++ R) = T ++ collapse_spaces R.
Proof.
  induction 1 as [|c T Hc _ IH]; [reflexivity|].
  cbn [app]. now rewrite collapse_spaces_cons, Hc, IH.
Qed.

(** A prefix without whitespace and without a double quote stays a prefix
    of the line in [_strip_line]. *)
Lemma strip_line_prefix (T line : str) :
  Forall (fun c => isspace c = false) T ->
  Forall (fun c => c <> DQUOTE) T ->
  Py.startswith T (Py.strip line) = true ->
  Py.startswith T (_strip_line line) = true.
Proof.
  intros Hs Hq H. unfold _strip_line.
  destruct (Py.startswith ["#"] (Py.strip line)); [exact H|].
  destruct (startswith_split _ _ H) as [R ->].
  destruct (split_over_prefix DQUOTE T R Hq) as (p & ps & _ & ->).
  cbn [strip_parts]. rewrite join_cons_flat, collapse_spaces_over_prefix by exact Hs.
  rewrite <- app_assoc. apply startswith_refl_app.
Qed.

Lemma apply_variable_prefix (T s : str) :
  Forall (fun c => c <> "$") T ->
  Py.startswith T s = true ->
  Py.startswith T (apply_variable_template_tags s) = true.
Proof.
  intros HT H. destruct (startswith_split _ _ H) as [R ->]. clear H.
  unfold apply_variable_template_tags.
  induction HT as [|c T Hc _ IH]; [reflexivity|].
  cbn [app]. rewrite sub_no_match.
  - cbn [Py.startswith]. now rewrite Ascii.eqb_refl, IH.
  - destruct (match_variable (c :: T ++ R)) as [[r n]|] eqn:E; [|reflexivity].
    apply match_variable_starts in E. cbn [Py.startswith] in E.
    apply andb_prop in E as [E _]. apply Ascii.eqb_eq in E. congruence.
Qed.

Lemma unquoted_semicolons_le (s : str) :
  forall w, unquoted_semicolons w s <= Py.count ";" s.
Proof.
  induction s as [|x s IH]; intros w; [reflexivity|].
  cbn [unquoted_semicolons Py.count].
  destruct (Ascii.eqb x DQUOTE); [specialize (IH (negb w)); lia|].
  specialize (IH w). destruct (Ascii.eqb x ";" && negb w) eqn:E.
  - apply andb_prop in E as [-> _]. lia.
  - destruct (Ascii.eqb x ";"); lia.
Qed.

(** X16.  A line that begins with [rewrite] and holds at most one semicolon
    is never split: [clean_lines] returns it as one line, stripped and with
    its variables normalised, whatever braces it holds. *)
Theorem rewrite_line_not_split (line : str) :
  Py.startswith (lit "rewrite") (Py.strip line) = true ->
  Py.count ";" line <= 1 ->
  clean_lines [line]
  = [strip_variable_template_tags (apply_variable_template_tags (_strip_line line))].
Proof.
  intros Hr Hc.
  assert (Hstart : Py.startswith (lit "rewrite")
                     (apply_variable_template_tags (_strip_line line)) = true).
  { apply apply_variable_prefix; [repeat constructor; discriminate|].
    apply strip_line_prefix; [repeat constructor | repeat constructor; discriminate | exact Hr]. }
  pose proof (count_cleaned_le line) as Hle.
  rewrite clean_lines_cons. unfold clean_line.
  set (L := apply_variable_template_tags (_strip_line line)) in *.
  destruct (startswith_split _ _ Hstart) as [R HL].
  assert (Hcount : snd (_count_multi_semicolon L) <= 1).
  { unfold _count_multi_semicolon.
    destruct (Py.startswith ["#"] (Py.strip L)); [cbn; lia|].
    rewrite count_parts_snd. pose proof (unquoted_semicolons_le (Py.strip L) false).
    pose proof (count_strip_le ";" L). cbn [Nat.add]. lia. }
  destruct (_count_multi_semicolon L) as [q c]. cbn [snd] in Hcount.
  replace (1 <? c)%nat with false by (symmetry; apply Nat.ltb_ge; lia).
  rewrite !andb_false_r, Hstart. rewrite HL. reflexivity.
Qed.

Lemma rewrite_line_not_split_witness :
  clean_lines [lit "  rewrite   ^/(\d{4})/(.*)$   /y/${ year }/$2   last;  "]
  = [lit "rewrite ^/(\d{4})/(.*)$ /y/${year}/$2 last;"].
Proof.
  rewrite (rewrite_line_not_split
             (lit "  rewrite   ^/(\d{4})/(.*)$   /y/${ year }/$2   last;  "));
    [reflexivity | reflexivity | vm_compute; lia].
Defined.

(** ** Tags that are left in the text *)

Lemma sub_startswith_back (try_match : str -> option (str * nat)) (r0 : ascii) :
  (forall s r n, try_match s = Some (r, n) -> r = [r0]) ->
  forall (s u : str),
    Py.count r0 u = 0 ->
    Py.startswith u (Py.sub try_match None s) = true -> Py.startswith u s = true.
Proof.
  intros Hm. induction s as [|c s IH]; intros u Hu H; [exact H|].
  destruct u as [|x u]; [reflexivity|]. apply count_cons_zero in Hu as [Hx Hu].
  destruct (try_match (c :: s)) as [[r n]|] eqn:E.
  - rewrite (sub_match _ None c s r n ltac:(discriminate) E) in H.
    rewrite (Hm _ _ _ E) in H. cbn [app Py.startswith] in H.
    apply andb_prop in H as [H _]. apply Ascii.eqb_eq in H. congruence.
  - rewrite sub_no_match in H by exact E. cbn [Py.startswith] in *.
    apply andb_prop in H as [H1 H2]. rewrite H1. cbn [andb]. now apply IH.
Qed.

(** A substitution that writes the one character [r0] makes no new
    occurrence of a text [u] without that character, and leaves none where
    [u] can only start at a match. *)
Lemma sub_leaves_none (try_match : str -> option (str * nat)) (r0 : ascii) (u : str) :
  u <> [] -> Py.count r0 u = 0 ->
  (forall s r n, try_match s = Some (r, n) -> r = [r0]) ->
  forall (len : nat) (s : str),
    length s <= len ->
    (forall X Y, s = X ++ Y -> try_match Y = None -> Py.startswith u Y = false) ->
    occurs u (Py.sub try_match None s) = false.
Proof.
  intros Hne Hu Hm.
  assert (Hnil : occurs u [] = false) by (destruct u; [congruence | reflexivity]).
  induction len as [|len IH]; intros [|c s] Hl Hs; try exact Hnil; [cbn in Hl; lia|].
  cbn [length] in Hl. destruct (try_match (c :: s)) as [[r n]|] eqn:E.
  - rewrite (sub_match _ None c s r n ltac:(discriminate) E), (Hm _ _ _ E).
    cbn [app option_map]. rewrite occurs_cons. apply orb_false_intro.
    + destruct u as [|x u]; [congruence|]. apply count_cons_zero in Hu as [Hx _].
      cbn [Py.startswith]. destruct (Ascii.eqb_spec x r0); [congruence | reflexivity].
    + apply IH; [rewrite length_skipn; lia|].
      intros X Y EY. apply (Hs (c :: firstn (pred n) s ++ X) Y).
      cbn [app]. now rewrite <- app_assoc, <- EY, firstn_skipn.
  - rewrite sub_no_match by exact E. rewrite occurs_cons. apply orb_false_intro.
    + destruct (Py.startswith u (c :: Py.sub try_match None s)) eqn:F; [|reflexivity].
      rewrite <- (sub_no_match _ None c s E) in F.
      apply (sub_startswith_back _ r0 Hm) in F; [|exact Hu].
      now rewrite (Hs [] (c :: s) eq_refl E) in F.
    + apply IH; [lia|]. intros X Y EY. apply (Hs (c :: X) Y). now rewrite EY.
Qed.

(** X17.  [strip_bracket_template_tags] leaves no bracket tag behind: in
    its result, whatever the text was, neither the opening nor the closing
    tag occurs. *)
Theorem strip_bracket_leaves_no_tag (content : str) :
  occurs _TEMPLATE_BRACKET_OPENING_TAG (strip_bracket_template_tags content) = false
  /\ occurs _TEMPLATE_BRACKET_CLOSING_TAG (strip_bracket_template_tags content) = false.
Proof.
  unfold strip_bracket_template_tags.
  assert (Hm : forall (t : str) (r0 : ascii) (s r : str) (n : nat),
             (if Py.startswith t s then Some ([r0], length t) else None) = Some (r, n) ->
             r = [r0]).
  { intros t r0 s r n. destruct (Py.startswith t s); [|discriminate]. now intros [= <- _]. }
  assert (H1 : occurs _TEMPLATE_BRACKET_OPENING_TAG
                 (Py.replace _TEMPLATE_BRACKET_OPENING_TAG ["{"] content) = false).
  { unfold Py.replace.
    apply (sub_leaves_none _ "{") with (len := length content);
      [discriminate | reflexivity | apply Hm | apply Nat.le_refl|].
    intros X Y _. now destruct (Py.startswith _TEMPLATE_BRACKET_OPENING_TAG Y). }
  set (s1 := Py.replace _TEMPLATE_BRACKET_OPENING_TAG ["{"] content) in *.
  unfold Py.replace. split.
  - apply (sub_leaves_none _ "}") with (len := length s1);
      [discriminate | reflexivity | apply Hm | apply Nat.le_refl|].
    intros X Y E _. rewrite E in H1. now apply occurs_startswith in H1.
  - apply (sub_leaves_none _ "}") with (len := length s1);
      [discriminate | reflexivity | apply Hm | apply Nat.le_refl|].
    intros X Y _. now destruct (Py.startswith _TEMPLATE_BRACKET_CLOSING_TAG Y).
Qed.

(** ** Comment lines among the indented lines *)

Lemma fold_indent_step_from (s : str) (lines : list str) :
  forall st st',
    current_indent st = current_indent st' ->
    exists outs,
      indented_lines (fold_left (indent_step s) lines st) = indented_lines st ++ outs
      /\ indented_lines (fold_left (indent_step s) lines st') = indented_lines st' ++ outs.
Proof.
  induction lines as [|line lines IH]; intros st st' E.
  - exists []. now rewrite !app_nil_r.
  - cbn [fold_left].
    destruct (IH (indent_step s st line) (indent_step s st' line)) as (outs & H1 & H2).
    { unfold indent_step. cbn [current_indent]. now rewrite E. }
    rewrite H1, H2. unfold indent_step. cbn [indented_lines]. rewrite E.
    exists ((if nonempty line
             then [Py.repeat_str (dedent (current_indent st') line) s ++ line]
             else [[]]) ++ outs).
    destruct (nonempty line); now rewrite <- !app_assoc.
Qed.

(** X18.  A comment line does not change the indentation of the lines
    around it, whatever braces it ends with: without the comment line the
    other lines are indented in the same way. *)
Theorem comment_line_keeps_indentation
  (options : FormatterOptions) (before after : list str) (comment : str) :
  Py.startswith ["#"] comment = true ->
  exists X x Y,
    _perform_indentation options (before ++ comment :: after) = X ++ x :: Y
    /\ _perform_indentation options (before ++ after) = X ++ Y
    /\ length X = length before.
Proof.
  intros Hc. unfold _perform_indentation, indent_loop. rewrite !fold_left_app.
  cbn [fold_left].
  set (s := Py.repeat_str (indentation options) [" "]).
  set (stb := fold_left (indent_step s) before {| indented_lines := []; current_indent := 0 |}).
  destruct (fold_indent_step_from s after (indent_step s stb comment) stb) as (Y & H1 & H2).
  { unfold indent_step, indent, dedent, is_comment. cbn [current_indent]. now rewrite Hc. }
  rewrite H1, H2.
  assert (Hx : exists x, indented_lines (indent_step s stb comment)
                         = indented_lines stb ++ [x]).
  { unfold indent_step. cbn [indented_lines]. destruct (nonempty comment); eexists; reflexivity. }
  destruct Hx as [x ->]. exists (indented_lines stb), x, Y.
  rewrite <- app_assoc. repeat split.
  apply (length_perform_indentation options before).
Qed.

Lemma comment_line_keeps_indentation_witness :
  exists X x Y,
    _perform_indentation default_options
      ([lit "http {"; lit "server {"] ++ lit "# } } {" :: [lit "listen 80;"; lit "}"; lit "}"])
    = X ++ x :: Y
    /\ _perform_indentation default_options
         ([lit "http {"; lit "server {"] ++ [lit "listen 80;"; lit "}"; lit "}"])
       = X ++ Y
    /\ length X = length [lit "http {"; lit "server {"].
Proof.
  apply (comment_line_keeps_indentation default_options
           [lit "http {"; lit "server {"] [lit "listen 80;"; lit "}"; lit "}"] (lit "# } } {")).
  reflexivity.
Defined.

(** ** The whitespace of a stripped line *)

Lemma visible_app (a b : str) : visible (a ++ b) = visible a ++ visible b.
Proof. apply filter_app. Qed.

Lemma visible_dropwhile (s : str) : visible (Py.dropwhile isspace s) = visible s.
Proof.
  induction s as [|c s IH]; [reflexivity|].
  cbn [Py.dropwhile]. destruct (isspace c) eqn:E; [|reflexivity].
  unfold visible in *. cbn [filter]. now rewrite E.
Qed.

Lemma visible_takewhile (s : str) : visible (Py.takewhile isspace s) = [].
Proof.
  induction s as [|c s IH]; [reflexivity|].
  cbn [Py.takewhile]. destruct (isspace c) eqn:E; [|reflexivity].
  unfold visible in *. cbn [filter]. now rewrite E.
Qed.

Lemma visible_strip (s : str) : visible (Py.strip s) = visible s.
Proof.
  unfold Py.strip, Py.rstrip, Py.lstrip.
  rewrite <- (visible_dropwhile s).
  generalize (Py.dropwhile isspace s). intros u.
  unfold visible at 1. rewrite filter_rev. fold (visible (Py.dropwhile isspace (rev u))).
  rewrite visible_dropwhile. unfold visible. now rewrite filter_rev, rev_involutive.
Qed.

Lemma visible_collapse_spaces (part : str) : visible (collapse_spaces part) = visible part.
Proof.
  apply sub_filter with (len := length part); [|apply Nat.le_refl].
  intros s r n. unfold match_spaces.
  pose proof (firstn_takewhile isspace s) as Hf. pose proof (visible_takewhile s) as Hv.
  destruct (Py.takewhile isspace s) as [|x run]; [discriminate|].
  intros [= <- <-]. split; [cbn; lia|].
  transitivity (visible (x :: run)); [symmetry; exact Hv|].
  unfold visible. f_equal. symmetry. exact Hf.
Qed.

Lemma visible_strip_parts (ps : list str) :
  forall w,
    visible (flat_map (fun q => [DQUOTE] ++ q) (strip_parts w ps))
    = visible (flat_map (fun q => [DQUOTE] ++ q) ps).
Proof.
  induction ps as [|p ps IH]; intros w; [reflexivity|].
  cbn [strip_parts flat_map]. rewrite !visible_app, IH. do 2 f_equal.
  destruct w; [reflexivity | apply visible_collapse_spaces].
Qed.

Lemma visible_join_strip_parts (z : str) :
  visible (Py.join [DQUOTE] (strip_parts false (Py.split DQUOTE z))) = visible z.
Proof.
  rewrite <- (join_split DQUOTE z) at 2.
  pose proof (split_not_nil DQUOTE z) as Hne.
  destruct (Py.split DQUOTE z) as [|p ps]; [congruence|].
  cbn [strip_parts negb]. rewrite !join_cons_flat, !visible_app, visible_strip_parts.
  now rewrite visible_collapse_spaces.
Qed.

Lemma visible_strip_line (single_line : str) :
  visible (_strip_line single_line) = visible single_line.
Proof.
  unfold _strip_line.
  destruct (Py.startswith ["#"] (Py.strip single_line)).
  - apply visible_strip.
  - rewrite visible_join_strip_parts. apply visible_strip.
Qed.

Lemma count_visible (c : ascii) (s : str) :
  isspace c = false -> Py.count c (visible s) = Py.count c s.
Proof.
  intros Hc. induction s as [|x s IH]; [reflexivity|].
  unfold visible in *. cbn [filter Py.count].
  destruct (isspace x) eqn:E; cbn [negb Py.count]; rewrite IH; [|reflexivity].
  destruct (Ascii.eqb_spec x c); [congruence | reflexivity].
Qed.

Lemma count_strip_line (c : ascii) (line : str) :
  isspace c = false -> Py.count c (_strip_line line) = Py.count c line.
Proof.
  intros Hc. rewrite <- (count_visible c (_strip_line line)), <- (count_visible c line)
    by exact Hc.
  now rewrite visible_strip_line.
Qed.

(** X19.  [_strip_line] loses and adds no character but whitespace: the
    other characters of its result are those of the line, in the same
    order, for every line; so it holds each of them as many times as the
    line does. *)
Theorem strip_line_keeps_characters (single_line : str) :
  visible (_strip_line single_line) = visible single_line
  /\ forall c, isspace c = false ->
               Py.count c (_strip_line single_line) = Py.count c single_line.
Proof.
  split; [apply visible_strip_line|].
  intros c Hc. now apply count_strip_line.
Qed.

Lemma collapse_single_spaced (len : nat) :
  forall s, length s <= len -> single_spaced (collapse_spaces s) = true.
Proof.
  induction len as [|len IH]; intros [|c s] Hl; try reflexivity; [cbn in Hl; lia|].
  cbn [length] in Hl. rewrite collapse_spaces_cons. destruct (isspace c) eqn:E.
  - cbn [single_spaced]. change (isspace " ") with true. cbv iota.
    rewrite IH by (pose proof (length_dropwhile isspace s); lia).
    pose proof (collapse_spaces_head _ (dropwhile_head isspace s)) as Hh.
    destruct (collapse_spaces (Py.dropwhile isspace s)); [reflexivity|].
    now rewrite Hh.
  - cbn [single_spaced]. rewrite E. cbn [andb]. apply IH. lia.
Qed.

Lemma strip_line_stripped (single_line : str) :
  Py.strip (_strip_line single_line) = _strip_line single_line.
Proof.
  destruct (strip_ends single_line) as [H1 H2]. unfold _strip_line.
  destruct (Py.startswith ["#"] (Py.strip single_line)); [now apply strip_fixed|].
  apply strip_fixed; [|now apply strip_parts_last].
  destruct (strip_parts_first _ H1) as [[_ ->] | (c & z' & y' & _ & -> & Hc)];
    [reflexivity|].
  cbn [Py.dropwhile]. now rewrite Hc.
Qed.

(** X20.  A line without a double quote that is no comment comes out of
    [_strip_line] with single spaces for its whitespace: each run of
    whitespace is one space, and none is left at the ends. *)
Theorem strip_line_single_spaced (single_line : str) :
  Py.count DQUOTE single_line = 0 ->
  Py.startswith ["#"] (Py.strip single_line) = false ->
  single_spaced (_strip_line single_line) = true
  /\ Py.strip (_strip_line single_line) = _strip_line single_line.
Proof.
  intros Hq Hc. split; [|apply strip_line_stripped].
  unfold _strip_line. rewrite Hc, split_none.
  - cbn [strip_parts Py.join]. now apply (collapse_single_spaced (length (Py.strip single_line))).
  - pose proof (count_strip_le DQUOTE single_line). lia.
Qed.

Lemma strip_line_single_spaced_witness :
  single_spaced (_strip_line ("009" :: lit " proxy_pass   http://up ;" ++ [CR; " "])) = true
  /\ Py.strip (_strip_line ("009" :: lit " proxy_pass   http://up ;" ++ [CR; " "]))
     = _strip_line ("009" :: lit " proxy_pass   http://up ;" ++ [CR; " "]).
Proof.
  apply (strip_line_single_spaced ("009" :: lit " proxy_pass   http://up ;" ++ [CR; " "]));
    reflexivity.
Defined.

(** ** Lines that are split at their braces *)

Lemma occurs_absent_head (t0 : ascii) (t s : str) :
  Py.count t0 s = 0 -> occurs (t0 :: t) s = false.
Proof.
  induction s as [|c s IH]; intros H; [reflexivity|].
  apply count_cons_zero in H as [Hc Hs]. rewrite occurs_cons, (IH Hs).
  cbn [Py.startswith]. destruct (Ascii.eqb_spec t0 c); [congruence | reflexivity].
Qed.

(** A prefix without whitespace and without a double quote of the result
    of [_strip_line] is a prefix of the stripped line. *)
Lemma collapse_prefix_back (p F F' : str) :
  (F = [] /\ F' = [] \/ exists G G', F = DQUOTE :: G /\ F' = DQUOTE :: G') ->
  forall T,
    Py.count " " T = 0 -> Py.count DQUOTE T = 0 ->
    Py.startswith T (collapse_spaces p ++ F') = true ->
    Py.startswith T (p ++ F) = true.
Proof.
  intros HF. induction p as [|c p IH]; intros [|x T] Hs Hq H; try reflexivity.
  - apply count_cons_zero in Hq as [Hx _].
    destruct HF as [[-> ->] | (G & G' & -> & ->)]; [discriminate H|].
    cbn in H. apply andb_prop in H as [H _]. apply Ascii.eqb_eq in H. congruence.
  - apply count_cons_zero in Hs as [Hx Hs]. apply count_cons_zero in Hq as [_ Hq].
    rewrite collapse_spaces_cons in H. destruct (isspace c).
    + cbn [app Py.startswith] in H. apply andb_prop in H as [H _].
      apply Ascii.eqb_eq in H. congruence.
    + cbn [app Py.startswith] in *. apply andb_prop in H as [H1 H2].
      rewrite H1. cbn [andb]. now apply IH.
Qed.

Lemma strip_line_prefix_back (T line : str) :
  Py.count " " T = 0 -> Py.count DQUOTE T = 0 ->
  Py.startswith T (_strip_line line) = true ->
  Py.startswith T (Py.strip line) = true.
Proof.
  intros Hs Hq. unfold _strip_line.
  destruct (Py.startswith ["#"] (Py.strip line)); [exact (fun H => H)|].
  rewrite <- (join_split DQUOTE (Py.strip line)) at 2.
  pose proof (split_not_nil DQUOTE (Py.strip line)) as Hne.
  destruct (Py.split DQUOTE (Py.strip line)) as [|p ps]; [congruence|].
  cbn [strip_parts negb]. rewrite !join_cons_flat.
  apply collapse_prefix_back; [|exact Hs | exact Hq].
  destruct ps as [|q ps]; [now left|]. right. cbn [strip_parts flat_map app].
  eexists _, _. split; reflexivity.
Qed.

Lemma re_split_braces_pieces (c : ascii) (s : str) :
  Py.count c s = 0 ->
  exists p ps,
    Py.re_split_braces s = p :: ps
    /\ Py.count "{" p = 0 /\ Py.count "}" p = 0 /\ Py.count c p = 0
    /\ Forall (fun q => (q = ["{"] \/ q = ["}"]
                         \/ Py.count "{" q = 0 /\ Py.count "}" q = 0)
                        /\ Py.count c q = 0) ps
    /\ p ++ concat ps = s.
Proof.
  induction s as [|x s IH]; intros Hc.
  - exists [], []. repeat split. constructor.
  - apply count_cons_zero in Hc as [Hx Hc].
    destruct (IH Hc) as (p & ps & E & Ho & Hcl & Hp & HF & HC).
    assert (Hxc : Ascii.eqb x c = false) by now apply Ascii.eqb_neq.
    cbn [Py.re_split_braces]. rewrite E.
    destruct (Ascii.eqb x "{" || Ascii.eqb x "}") eqn:Eb.
    + exists [], ([x] :: p :: ps). repeat split; [|cbn [concat app]; now rewrite HC].
      constructor; [|constructor; [|exact HF]].
      * split; [|cbn [Py.count]; now rewrite Hxc].
        apply orb_prop in Eb as [Eb|Eb]; apply Ascii.eqb_eq in Eb; subst x; auto.
      * split; [|exact Hp]. right. right. now split.
    + apply orb_false_elim in Eb as [E1 E2].
      exists (x :: p), ps. cbn [Py.count]. rewrite E1, E2, Ho, Hcl, Hxc, Hp.
      repeat split; [exact HF | cbn [app]; now rewrite HC].
Qed.

Lemma cleaned_pieces (ps : list str) :
  Forall (fun q => (q = ["{"] \/ q = ["}"]
                    \/ Py.count "{" q = 0 /\ Py.count "}" q = 0)
                   /\ Py.count "_" q = 0) ps ->
  visible (concat (map (fun ln => Py.strip (strip_variable_template_tags ln))
                       (filter nonempty ps)))
  = visible (concat ps)
  /\ Forall (fun l => l = ["{"] \/ l = ["}"]
                      \/ Py.count "{" l = 0 /\ Py.count "}" l = 0)
            (map (fun ln => Py.strip (strip_variable_template_tags ln))
                 (filter nonempty ps)).
Proof.
  induction 1 as [|q ps [Hq Hu] _ [IH1 IH2]]; [split; [reflexivity | constructor]|].
  cbn [filter].
  assert (Hsv : strip_variable_template_tags q = q).
  { apply strip_variable_absent.
    change _TEMPLATE_VARIABLE_OPENING_TAG
      with ("_" :: lit "__TEMPLATE_VARIABLE_OPENING_TAG___").
    now apply occurs_absent_head. }
  destruct (nonempty q) eqn:E.
  - cbn [map concat]. rewrite Hsv, !visible_app, visible_strip, IH1.
    split; [reflexivity|]. constructor; [|exact IH2].
    destruct Hq as [-> | [-> | [H1 H2]]]; [left; reflexivity | right; left; reflexivity|].
    right. right.
    pose proof (count_strip_le "{" q). pose proof (count_strip_le "}" q). split; lia.
  - unfold nonempty in E. apply negb_false_iff in E. apply str_eqb_eq in E. subst q.
    cbn [concat app]. now split.
Qed.

(** X21.  A line that is no comment and no [rewrite], with at most one
    semicolon and without [$] and [_], is split at its braces and at nothing
    else: each line that [clean_lines] returns for it is one brace or holds
    no brace, and together the lines hold the characters of the line, its
    whitespace apart, in the same order. *)
Theorem plain_line_split_at_braces (line : str) :
  Py.startswith ["#"] (Py.strip line) = false ->
  Py.startswith (lit "rewrite") (Py.strip line) = false ->
  Py.count ";" line <= 1 ->
  Py.count "$" line = 0 ->
  Py.count "_" line = 0 ->
  visible (concat (clean_lines [line])) = visible line
  /\ Forall (fun l => l = ["{"] \/ l = ["}"]
                      \/ Py.count "{" l = 0 /\ Py.count "}" l = 0)
            (clean_lines [line]).
Proof.
  intros Hc Hr Hs Hd Hu.
  pose proof (count_strip_line "$" line eq_refl) as Hd'. rewrite Hd in Hd'.
  pose proof (count_strip_line "_" line eq_refl) as Hu'. rewrite Hu in Hu'.
  pose proof (count_strip_line ";" line eq_refl) as Hs'.
  pose proof (visible_strip_line line) as Hv.
  assert (HL : apply_variable_template_tags (_strip_line line) = _strip_line line)
    by (apply apply_variable_absent; now apply occurs_absent_head).
  rewrite clean_lines_cons. change (clean_lines []) with (@nil str). rewrite app_nil_r.
  unfold clean_line. rewrite HL.
  destruct (Py.str_eqb (_strip_line line) []) eqn:Ee.
  - apply str_eqb_eq in Ee. cbn [concat app]. rewrite <- Hv, Ee.
    split; [reflexivity|]. constructor; [right; right; now split | constructor].
  - replace (Py.startswith ["#"] (_strip_line line)) with false.
    2:{ symmetry. destruct (Py.startswith ["#"] (_strip_line line)) eqn:F; [|reflexivity].
        apply strip_line_prefix_back in F; [congruence | reflexivity | reflexivity]. }
    replace (Py.startswith (lit "rewrite") (_strip_line line)) with false.
    2:{ symmetry.
        destruct (Py.startswith (lit "rewrite") (_strip_line line)) eqn:F; [|reflexivity].
        apply strip_line_prefix_back in F; [congruence | reflexivity | reflexivity]. }
    assert (Hcount : snd (_count_multi_semicolon (_strip_line line)) <= 1).
    { unfold _count_multi_semicolon.
      destruct (Py.startswith ["#"] (Py.strip (_strip_line line))); [cbn; lia|].
      rewrite count_parts_snd.
      pose proof (unquoted_semicolons_le (Py.strip (_strip_line line)) false).
      pose proof (count_strip_le ";" (_strip_line line)). cbn [Nat.add]. lia. }
    destruct (_count_multi_semicolon (_strip_line line)) as [q c]. cbn [snd] in Hcount.
    replace (1 <? c)%nat with false by (symmetry; apply Nat.ltb_ge; lia).
    rewrite !andb_false_r.
    destruct (re_split_braces_pieces "_" (_strip_line line) Hu')
      as (p & ps & E & Ho & Hcl & Hp & HF & HC).
    assert (HF' : Forall (fun q => (q = ["{"] \/ q = ["}"]
                                    \/ Py.count "{" q = 0 /\ Py.count "}" q = 0)
                                   /\ Py.count "_" q = 0)
                         (Py.re_split_braces (_strip_line line))).
    { rewrite E. constructor; [split; [right; right; now split | exact Hp] | exact HF]. }
    destruct (cleaned_pieces _ HF') as [H1 H2]. split; [|exact H2].
    rewrite H1, E. cbn [concat]. rewrite HC. exact Hv.
Qed.

Lemma plain_line_split_at_braces_witness :
  visible (concat (clean_lines [lit "  location   /api   {  return 200;  }  "]))
  = visible (lit "  location   /api   {  return 200;  }  ")
  /\ Forall (fun l => l = ["{"] \/ l = ["}"]
                      \/ Py.count "{" l = 0 /\ Py.count "}" l = 0)
            (clean_lines [lit "  location   /api   {  return 200;  }  "]).
Proof.
  apply (plain_line_split_at_braces (lit "  location   /api   {  return 200;  }  "));
    reflexivity.
Defined.

(** ** Documents of plain directives *)

Lemma re_split_braces_none (s : str) :
  Py.count "{" s = 0 -> Py.count "}" s = 0 -> Py.re_split_braces s = [s].
Proof.
  induction s as [|c s IH]; intros Ho Hc; [reflexivity|].
  apply count_cons_zero in Ho as [Hco Ho]. apply count_cons_zero in Hc as [Hcc Hc].
  cbn [Py.re_split_braces]. rewrite (IH Ho Hc).
  destruct (Ascii.eqb_spec c "{"); [congruence|].
  destruct (Ascii.eqb_spec c "}"); [congruence | reflexivity].
Qed.

Lemma single_spaced_count (c : ascii) (s : str) :
  isspace c = true -> c <> " " -> single_spaced s = true -> Py.count c s = 0.
Proof.
  intros Hs Hc. induction s as [|x s IH]; intros H; [reflexivity|].
  cbn [single_spaced] in H. apply andb_prop in H as [Hx H].
  cbn [Py.count]. rewrite (IH H). destruct (Ascii.eqb_spec x c) as [->|]; [|reflexivity].
  rewrite Hs in Hx. apply andb_prop in Hx as [Hx _]. apply Ascii.eqb_eq in Hx. congruence.
Qed.

Lemma strip_line_collapse (line : str) :
  Py.count DQUOTE line = 0 ->
  Py.startswith ["#"] (Py.strip line) = false ->
  _strip_line line = collapse_spaces (Py.strip line).
Proof.
  intros Hq Hc. unfold _strip_line. rewrite Hc, split_none; [reflexivity|].
  pose proof (count_strip_le DQUOTE line). lia.
Qed.

(** What [_strip_line] makes of a plain directive. *)
Lemma strip_line_plain (line : str) :
  plain_directive line ->
  _strip_line line <> []
  /\ Py.count LF (_strip_line line) = 0
  /\ Py.count "{" (_strip_line line) = 0
  /\ Py.count "}" (_strip_line line) = 0
  /\ Py.count "_" (_strip_line line) = 0.
Proof.
  intros (Hv & Hc & _ & Ho & Hcl & _ & Hq & _ & Hu).
  rewrite (count_strip_line "{"), (count_strip_line "}"), (count_strip_line "_")
    by reflexivity.
  repeat split; try assumption.
  - intros E. apply Hv. now rewrite <- visible_strip_line, E.
  - apply single_spaced_count; [reflexivity | discriminate|].
    rewrite strip_line_collapse by assumption.
    now apply (collapse_single_spaced (length (Py.strip line))).
Qed.

Lemma clean_line_plain (line : str) :
  plain_directive line -> clean_line line = Emit [_strip_line line].
Proof.
  intros H. destruct (strip_line_plain _ H) as (Hne & _ & Ho & Hcl & Hu).
  destruct H as (_ & Hc & Hs & _ & _ & _ & _ & Hd & _).
  pose proof (count_strip_line "$" line eq_refl) as Hd'. rewrite Hd in Hd'.
  pose proof (count_strip_line ";" line eq_refl) as Hs'.
  assert (HL : apply_variable_template_tags (_strip_line line) = _strip_line line)
    by (apply apply_variable_absent; now apply occurs_absent_head).
  assert (Hsv : strip_variable_template_tags (_strip_line line) = _strip_line line).
  { apply strip_variable_absent.
    change _TEMPLATE_VARIABLE_OPENING_TAG
      with ("_" :: lit "__TEMPLATE_VARIABLE_OPENING_TAG___").
    now apply occurs_absent_head. }
  unfold clean_line. rewrite HL.
  replace (Py.str_eqb (_strip_line line) []) with false
    by (symmetry; apply not_true_is_false; now rewrite str_eqb_eq).
  replace (Py.startswith ["#"] (_strip_line line)) with false.
  2:{ symmetry. destruct (Py.startswith ["#"] (_strip_line line)) eqn:F; [|reflexivity].
      apply strip_line_prefix_back in F; [congruence | reflexivity | reflexivity]. }
  assert (Hcount : snd (_count_multi_semicolon (_strip_line line)) <= 1).
  { unfold _count_multi_semicolon.
    destruct (Py.startswith ["#"] (Py.strip (_strip_line line))); [cbn; lia|].
    rewrite count_parts_snd.
    pose proof (unquoted_semicolons_le (Py.strip (_strip_line line)) false).
    pose proof (count_strip_le ";" (_strip_line line)). cbn [Nat.add]. lia. }
  destruct (_count_multi_semicolon (_strip_line line)) as [q c]. cbn [snd] in Hcount.
  replace (1 <? c)%nat with false by (symmetry; apply Nat.ltb_ge; lia).
  rewrite !andb_false_r, Hsv.
  destruct (Py.startswith (lit "rewrite") (_strip_line line)); [reflexivity|].
  rewrite (re_split_braces_none _ Ho Hcl). cbn [filter]. unfold nonempty.
  replace (Py.str_eqb (_strip_line line) []) with false
    by (symmetry; apply not_true_is_false; now rewrite str_eqb_eq).
  cbn [negb map]. now rewrite Hsv, strip_line_stripped.
Qed.

Lemma clean_lines_plain (lines : list str) :
  Forall plain_directive lines ->
  clean_lines (apply_bracket_template_tags lines) = map _strip_line lines.
Proof.
  induction 1 as [|line lines Hl _ IH]; [reflexivity|].
  cbn [apply_bracket_template_tags map].
  assert (Ht : tag_line line = line).
  { destruct Hl as (_ & _ & _ & _ & _ & Hs & Hq & _).
    unfold tag_line. destruct (Py.startswith ["#"] line); [reflexivity|].
    now apply tag_chars_no_quotes. }
  rewrite clean_lines_cons, Ht, (clean_line_plain _ Hl). cbn [app]. f_equal. exact IH.
Qed.

Lemma endswith_absent (c : ascii) (l : str) : Py.count c l = 0 -> Py.endswith [c] l = false.
Proof.
  intros H. unfold Py.endswith. cbn [rev app]. rewrite <- count_rev in H.
  destruct (rev l) as [|x r]; [reflexivity|]. apply count_cons_zero in H as [Hx _].
  cbn [Py.startswith]. destruct (Ascii.eqb_spec c x); [congruence | reflexivity].
Qed.

Lemma fold_indent_step_no_braces (s : str) (lines : list str) :
  Forall (fun l => Py.count "{" l = 0 /\ Py.count "}" l = 0) lines ->
  forall st,
    current_indent st = 0%Z ->
    indented_lines (fold_left (indent_step s) lines st) = indented_lines st ++ lines.
Proof.
  induction 1 as [|l lines [Ho Hc] _ IH]; intros st Hst; [now rewrite app_nil_r|].
  assert (Hd : dedent (current_indent st) l = 0%Z).
  { unfold dedent. now rewrite Hst, (endswith_absent "}" l Hc), andb_false_r. }
  cbn [fold_left]. rewrite IH.
  - unfold indent_step. cbn [indented_lines]. rewrite Hd.
    unfold nonempty. destruct (Py.str_eqb l []) eqn:E; cbn [negb];
      rewrite <- app_assoc; [|reflexivity].
    apply str_eqb_eq in E. now subst l.
  - unfold indent_step. cbn [current_indent]. rewrite Hd. unfold indent.
    now rewrite (endswith_absent "{" l Ho), andb_false_r.
Qed.

Lemma count_zero_Forall (c : ascii) (s : str) :
  Py.count c s = 0 -> Forall (fun x => x <> c) s.
Proof.
  induction s as [|x s IH]; intros H; [constructor|].
  apply count_cons_zero in H as [Hx H]. constructor; [exact Hx | now apply IH].
Qed.

(** The text joined from lines that are not empty and hold no newline
    begins with a character of a line, and ends with one. *)
Lemma join_lines_head (Ss : list str) :
  Forall (fun S : str => S <> [] /\ Py.count LF S = 0) Ss ->
  Py.join [LF] Ss = [] \/ exists c R, Py.join [LF] Ss = c :: R /\ c <> LF.
Proof.
  intros [|S rest [Hne Hc] _]; [now left|]. right.
  destruct S as [|c S]; [congruence|]. apply count_cons_zero in Hc as [Hc _].
  rewrite join_cons_flat. cbn [app]. now eexists _, _.
Qed.

Lemma join_lines_last (Ss : list str) :
  Forall (fun S : str => S <> [] /\ Py.count LF S = 0) Ss ->
  Py.join [LF] Ss = [] \/ exists X b, Py.join [LF] Ss = X ++ [b] /\ b <> LF.
Proof.
  induction 1 as [|S rest [Hne Hc] Hrest IH]; [now left|]. right.
  destruct rest as [|S2 rest].
  - destruct (last_or_nil S) as [-> | (q & b & ->)]; [congruence|].
    exists q, b. split; [reflexivity|].
    rewrite count_app in Hc. assert (Hb : Py.count LF [b] = 0) by lia.
    now apply count_cons_zero in Hb as [Hb _].
  - rewrite join_cons2. destruct IH as [E | (X & b & -> & Hb)].
    + inversion Hrest as [|? ? [Hne2 _] _]; subst.
      rewrite join_cons_flat in E. now destruct S2.
    + exists (S ++ [LF] ++ X), b. split; [now rewrite <- !app_assoc | exact Hb].
Qed.

Lemma sub_newlines_lines (Ss : list str) (cnt : option nat) :
  Forall (fun S : str => S <> [] /\ Py.count LF S = 0) Ss ->
  Py.sub match_newlines cnt (Py.join [LF] Ss) = Py.join [LF] Ss.
Proof.
  induction 1 as [|S rest [Hne Hc] Hrest IH]; [reflexivity|].
  apply count_zero_Forall in Hc.
  destruct rest as [|S2 rest].
  - cbn [Py.join]. rewrite <- (app_nil_r S) at 1.
    rewrite sub_newlines_other by exact Hc. apply app_nil_r.
  - rewrite join_cons2, sub_newlines_other by exact Hc. cbn [app].
    destruct (join_lines_head _ Hrest) as [E | (c & R & E & Hcn)].
    + inversion Hrest as [|? ? [Hne2 _] _]; subst.
      rewrite join_cons_flat in E. now destruct S2.
    + rewrite sub_no_match; [now rewrite IH|].
      rewrite E. unfold match_newlines. cbn [Py.takewhile].
      rewrite Ascii.eqb_refl. destruct (Ascii.eqb_spec LF c); [congruence | reflexivity].
Qed.

Lemma squash_lines (Ss : list str) :
  Forall (fun S : str => S <> [] /\ Py.count LF S = 0) Ss ->
  squash (Py.join [LF] Ss) = Py.join [LF] Ss.
Proof.
  intros H. unfold squash. rewrite (sub_newlines_lines _ _ H).
  replace (sub_leading_newline (Some re_MULTILINE) (Py.join [LF] Ss))
    with (Py.join [LF] Ss).
  2:{ destruct (join_lines_head _ H) as [-> | (c & R & -> & Hc)]; [reflexivity|].
      unfold sub_leading_newline, re_MULTILINE.
      destruct (Ascii.eqb_spec c LF); [congruence | reflexivity]. }
  destruct (join_lines_last _ H) as [-> | (X & b & -> & Hb)]; [reflexivity|].
  now rewrite sub_trailing_newline_barrier.
Qed.

Lemma total_zero (c : ascii) (parts : list str) :
  Forall (fun p => Py.count c p = 0) parts -> total c parts = 0.
Proof.
  unfold total. induction 1 as [|p ps Hp _ IH]; [reflexivity|].
  change (list_sum (map (Py.count c) (p :: ps)))
    with (Py.count c p + list_sum (map (Py.count c) ps)).
  now rewrite Hp, IH.
Qed.

(** X22.  A document in which every line holds one plain directive (no
    blank line, no comment, no brace, no quote, no [$] or [_], one
    semicolon at most) is formatted line by line: each line as
    [_strip_line] returns it, a newline between two lines and one at the
    end, whatever the indentation option. *)
Theorem format_string_plain_directives (options : FormatterOptions) (contents : str) :
  Forall plain_directive (Py.splitlines contents) ->
  format_string options contents
  = Py.join [LF] (map _strip_line (Py.splitlines contents)) ++ [LF].
Proof.
  intros H. unfold format_string, indented_text. f_equal.
  rewrite (clean_lines_plain _ H).
  set (Ss := map _strip_line (Py.splitlines contents)).
  assert (HS : Forall (fun S : str => (S <> [] /\ Py.count LF S = 0)
                                /\ (Py.count "{" S = 0 /\ Py.count "}" S = 0)
                                /\ Py.count "_" S = 0) Ss).
  { unfold Ss. induction H as [|l ls Hl _ IH]; [constructor|].
    cbn [map]. constructor; [|exact IH].
    destruct (strip_line_plain _ Hl) as (H1 & H2 & H3 & H4 & H5). now repeat split. }
  clearbody Ss. clear H.
  unfold _join_opening_bracket. rewrite join_loop_no_brace.
  2:{ eapply Forall_impl; [|exact HS]. intros S (_ & (Ho & _) & _) E. now subst S. }
  cbn [app]. unfold _perform_indentation, indent_loop.
  rewrite fold_indent_step_no_braces;
    [|eapply Forall_impl; [|exact HS]; cbv beta; intros; tauto | reflexivity].
  cbn [indented_lines app]. unfold strip_bracket_template_tags.
  assert (Hu : Py.count "_" (Py.join [LF] Ss) = 0).
  { rewrite count_join by discriminate. apply total_zero.
    eapply Forall_impl; [|exact HS]. cbv beta. intros. tauto. }
  change _TEMPLATE_BRACKET_OPENING_TAG with ("_" :: lit "__TEMPLATE_BRACKET_OPENING_TAG___").
  change _TEMPLATE_BRACKET_CLOSING_TAG with ("_" :: lit "__TEMPLATE_BRACKET_CLOSING_TAG___").
  rewrite (replace_no_head "_" _ ["{"] _ Hu), (replace_no_head "_" _ ["}"] _ Hu).
  apply squash_lines. eapply Forall_impl; [|exact HS]. cbv beta. intros. tauto.
Qed.

Lemma format_string_plain_directives_witness :
  format_string default_options
    (lit "  user   www  www ;" ++ [CR; LF] ++ lit "worker-processes" ++ ["009"] ++ lit "4;"
     ++ [LF] ++ lit "rewrite  ^/a   /b   last;  ")
  = lit "user www www ;" ++ [LF] ++ lit "worker-processes 4;" ++ [LF]
    ++ lit "rewrite ^/a /b last;" ++ [LF].
Proof.
  rewrite (format_string_plain_directives default_options); [reflexivity|].
  repeat constructor; discriminate.
Defined.

(** ** A line of its own in the text *)

Lemma line_start_skipn (k : nat) (X : str) : line_start X -> line_start (skipn k X).
Proof.
  intros [-> | (X0 & ->)]; [left; now destruct k|].
  rewrite skipn_app. destruct (Nat.le_gt_cases k (length X0)) as [H|H].
  - replace (k - length X0) with 0 by lia. right. now exists (skipn k X0).
  - left. rewrite skipn_all2 by lia. destruct (k - length X0) eqn:E; [lia|].
    cbn [app skipn]. now destruct n.
Qed.

Lemma line_start_cons (c : ascii) (X : str) :
  X <> [] -> line_start X -> line_start (c :: X).
Proof.
  intros Hne [-> | (X0 & ->)]; [congruence|]. right. now exists (c :: X0).
Qed.

Lemma sub_newlines_not_nil (cnt : option nat) (d : ascii) (X : str) :
  Py.sub match_newlines cnt (d :: X) <> [].
Proof.
  assert (Hgo : cnt <> Some 0 -> Py.sub match_newlines cnt (d :: X) <> []).
  { intros Hcnt. destruct (match_newlines (d :: X)) as [[r n]|] eqn:E.
    - rewrite (sub_match _ cnt d X r n Hcnt E). unfold match_newlines in E.
      destruct (3 <=? length (Py.takewhile (Ascii.eqb LF) (d :: X)))%nat; [|discriminate].
      injection E as <- _. discriminate.
    - rewrite sub_no_match by exact E. discriminate. }
  destruct cnt as [[|m]|]; [rewrite sub_done | apply Hgo | apply Hgo]; discriminate.
Qed.

(** [\n{3,}] leaves a newline at the end of a text that ends with one. *)
Lemma sub_newlines_line_start (len : nat) :
  forall (X : str) (cnt : option nat),
    length X <= len -> line_start X -> line_start (Py.sub match_newlines cnt X).
Proof.
  induction len as [|len IH]; intros [|c X] cnt Hl HX; try (now left);
    try (cbn in Hl; lia).
  cbn [length] in Hl.
  assert (Hgo : cnt <> Some 0 -> line_start (Py.sub match_newlines cnt (c :: X))).
  { intros Hcnt. destruct (match_newlines (c :: X)) as [[r n]|] eqn:E.
    - rewrite (sub_match _ cnt c X r n Hcnt E).
      assert (Hr : r = [LF; LF; LF]).
      { unfold match_newlines in E.
        destruct (3 <=? length (Py.takewhile (Ascii.eqb LF) (c :: X)))%nat; [|discriminate].
        now injection E as <- _. }
      subst r.
      assert (HS : line_start (Py.sub match_newlines (option_map pred cnt)
                                      (skipn (pred n) X))).
      { apply IH; [rewrite length_skipn; lia|].
        apply (line_start_skipn (S (pred n)) (c :: X) HX). }
      destruct HS as [-> | (Q & ->)].
      + right. now exists [LF; LF].
      + right. exists ([LF; LF; LF] ++ Q). now rewrite <- app_assoc.
    - rewrite sub_no_match by exact E.
      destruct X as [|d X].
      + destruct HX as [HX | (X0 & HX)]; [discriminate|].
        destruct X0 as [|x [|y X0]]; try discriminate. injection HX as ->.
        right. now exists [].
      + apply line_start_cons.
        * apply sub_newlines_not_nil.
        * apply IH; [cbn [length] in *; lia|].
          apply (line_start_skipn 1 (c :: d :: X) HX). }
  destruct cnt as [[|m]|]; [now rewrite sub_done | apply Hgo | apply Hgo]; discriminate.
Qed.

Lemma sub_newlines_line_stop (Y : str) (cnt : option nat) :
  line_stop Y -> line_stop (Py.sub match_newlines cnt Y).
Proof.
  intros [-> | (Y0 & ->)]; [now left|]. right.
  assert (Hgo : cnt <> Some 0 ->
                exists Y1, Py.sub match_newlines cnt (LF :: Y0) = LF :: Y1).
  { intros Hcnt. destruct (match_newlines (LF :: Y0)) as [[r n]|] eqn:E.
    - rewrite (sub_match _ cnt LF Y0 r n Hcnt E). unfold match_newlines in E.
      destruct (3 <=? length (Py.takewhile (Ascii.eqb LF) (LF :: Y0)))%nat; [|discriminate].
      injection E as <- _. now eexists.
    - rewrite sub_no_match by exact E. now eexists. }
  destruct cnt as [[|m]|]; [rewrite sub_done; now exists Y0 | apply Hgo | apply Hgo];
    discriminate.
Qed.

Lemma sub_trailing_newline_line_stop (Y : str) (cnt : option nat) :
  line_stop Y -> line_stop (Py.sub match_trailing_newline cnt Y).
Proof.
  intros [-> | (Y0 & ->)]; [now left|].
  destruct Y0 as [|d [|e Y0]].
  - destruct cnt as [[|m]|]; cbn; first [now left | right; now eexists].
  - destruct (Ascii.eqb_spec d LF) as [->|Hd].
    + destruct cnt as [[|[|m]]|]; cbn; first [now left | right; now eexists].
    + rewrite sub_no_match
        by (cbn; destruct (Ascii.eqb_spec d LF); [congruence | reflexivity]).
      right. now eexists.
  - rewrite sub_no_match by reflexivity. right. now eexists.
Qed.

(** A line without newlines is still a line of its own behind the three
    substitutions. *)
Lemma squash_own_line (X M Y : str) :
  M <> [] -> Forall (fun c => c <> LF) M ->
  line_start X -> line_stop Y ->
  exists X' Y', squash (X ++ M ++ Y) = X' ++ M ++ Y' /\ line_start X' /\ line_stop Y'.
Proof.
  intros Hne HM HX HY. unfold squash.
  destruct M as [|m M']; [congruence|]. inversion HM as [|? ? Hm HM']; subst.
  cbn [app].
  destruct (sub_newlines_barrier X (M' ++ Y) m (Some re_MULTILINE) Hm) as (cnt' & ->).
  rewrite (sub_newlines_other _ _ _ HM').
  pose proof (sub_newlines_line_start (length X) X (Some re_MULTILINE) (Nat.le_refl _) HX)
    as HX1.
  pose proof (sub_newlines_line_stop Y cnt' HY) as HY1.
  set (X1 := Py.sub match_newlines (Some re_MULTILINE) X) in *.
  set (Y1 := Py.sub match_newlines cnt' Y) in *. clearbody X1 Y1.
  assert (H2 : exists X2, sub_leading_newline (Some re_MULTILINE) (X1 ++ m :: M' ++ Y1)
                          = X2 ++ m :: M' ++ Y1 /\ line_start X2).
  { unfold sub_leading_newline, re_MULTILINE. destruct X1 as [|x X1]; cbn [app].
    - destruct (Ascii.eqb_spec m LF); [congruence|]. exists []. split; [reflexivity | now left].
    - destruct (Ascii.eqb x LF) eqn:Ex.
      + exists X1. split; [reflexivity|]. apply (line_start_skipn 1 (x :: X1) HX1).
      + exists (x :: X1). now split. }
  destruct H2 as (X2 & -> & HX2).
  destruct (exists_last (l := m :: M') ltac:(discriminate)) as (M0 & b & E).
  assert (Hb : b <> LF).
  { rewrite E in HM. apply Forall_app in HM as [_ Hl]. now inversion Hl. }
  change (m :: M' ++ Y1) with ((m :: M') ++ Y1). rewrite E.
  replace (X2 ++ (M0 ++ [b]) ++ Y1) with ((X2 ++ M0) ++ b :: Y1)
    by now rewrite <- !app_assoc.
  rewrite (sub_trailing_newline_barrier _ _ _ _ Hb).
  exists X2, (Py.sub match_trailing_newline (Some re_MULTILINE) Y1). split; [|split].
  - rewrite <- app_assoc. f_equal.
    change (m :: M' ++ ?Z) with ((m :: M') ++ Z). rewrite E.
    now rewrite <- app_assoc.
  - exact HX2.
  - now apply sub_trailing_newline_line_stop.
Qed.

(** A replacement of a text without newlines works line by line. *)
Lemma replace_own_line (t r X M Y : str) :
  t <> [] -> Py.count LF t = 0 ->
  line_start X -> line_stop Y ->
  exists X' Y',
    Py.replace t r (X ++ M ++ Y) = X' ++ Py.replace t r M ++ Y'
    /\ line_start X' /\ line_stop Y'.
Proof.
  intros Ht Hl HX HY.
  assert (HMY : exists Y', Py.replace t r (M ++ Y) = Py.replace t r M ++ Y' /\ line_stop Y').
  { destruct HY as [-> | (Y0 & ->)].
    - exists []. rewrite !app_nil_r. split; [reflexivity | now left].
    - exists (LF :: Py.replace t r Y0). rewrite replace_barrier by assumption.
      split; [reflexivity | right; now eexists]. }
  destruct HMY as (Y' & E & HY').
  destruct HX as [-> | (X0 & ->)].
  - exists [], Y'. cbn [app]. split; [exact E | split; [now left | exact HY']].
  - exists (Py.replace t r X0 ++ [LF]), Y'.
    rewrite <- !app_assoc. cbn [app]. rewrite replace_barrier, E by assumption.
    split; [reflexivity | split; [right; now eexists | exact HY']].
Qed.

Lemma count_joined_braces (c : ascii) (k : nat) :
  c <> " " -> c <> "{" -> Py.count c (joined_braces k) = 0.
Proof.
  intros H1 H2. unfold joined_braces. induction k as [|k IH]; [reflexivity|].
  cbn [repeat concat]. rewrite count_app, IH. cbn [lit list_ascii_of_string Py.count].
  destruct (Ascii.eqb_spec " " c); [congruence|].
  destruct (Ascii.eqb_spec "{" c); [congruence | reflexivity].
Qed.

(** The replacement of a tag in an indented line with joined braces
    behind it. *)
Lemma replace_in_line (t r : str) (n : nat) (c : str) (k : nat) :
  Py.count " " ("_" :: t) = 0 ->
  Py.replace ("_" :: t) r (repeat " " n ++ c ++ joined_braces k)
  = repeat " " n ++ Py.replace ("_" :: t) r c ++ joined_braces k.
Proof.
  intros Hs. induction n as [|n IH].
  - cbn [repeat app].
    destruct k as [|k]; [unfold joined_braces; cbn [repeat concat]; now rewrite !app_nil_r|].
    change (joined_braces (S k)) with (" " :: "{" :: joined_braces k).
    rewrite replace_barrier by (discriminate || exact Hs).
    f_equal. f_equal. apply replace_no_head.
    change ("{" :: joined_braces k) with (["{"] ++ joined_braces k).
    rewrite count_app, count_joined_braces by discriminate. reflexivity.
  - cbn [repeat app]. rewrite replace_other_head by discriminate. now rewrite IH.
Qed.

(** The text joined from the lines, around one of them. *)
Lemma join_lines_at (IA IB : list str) (m : str) :
  exists (pre post : str),
    Py.join [LF] (IA ++ m :: IB) = pre ++ m ++ post /\ line_start pre /\ line_stop post.
Proof.
  assert (H : exists post, Py.join [LF] (m :: IB) = m ++ post /\ line_stop post).
  { rewrite join_cons_flat. eexists. split; [reflexivity|].
    destruct IB as [|q IB]; [now left | right; now eexists]. }
  destruct H as (post & E & Hpost).
  destruct IA as [|a IA].
  - exists [], post. cbn [app]. split; [exact E | split; [now left | exact Hpost]].
  - exists (Py.join [LF] (a :: IA) ++ [LF]), post.
    rewrite join_app, E by discriminate. rewrite <- !app_assoc.
    split; [reflexivity | split; [right; now eexists | exact Hpost]].
Qed.

(** A line that is no opening brace, in the joined lines: the braces of
    the lines behind it are joined to it. *)
Lemma join_loop_at (B : list str) :
  forall (i : nat) (acc : list str) (x : str),
    0 < i ->
    exists (B' : list str),
      join_loop i (acc ++ [x]) B = acc ++ (x ++ joined_braces (leading_braces B)) :: B'.
Proof.
  induction B as [|l B IH]; intros i acc x Hi.
  - exists []. cbn [join_loop leading_braces]. change (joined_braces 0) with (@nil ascii).
    now rewrite app_nil_r.
  - cbn [join_loop leading_braces].
    replace (0 <? i)%nat with true by (symmetry; now apply Nat.ltb_lt).
    cbn [andb]. destruct (Py.str_eqb l ["{"]).
    + rewrite append_to_last_snoc.
      destruct (IH (S i) acc (x ++ lit " {") ltac:(lia)) as (B' & E).
      exists B'. etransitivity; [exact E|].
      change (joined_braces (S (leading_braces B)))
        with (lit " {" ++ joined_braces (leading_braces B)).
      now rewrite <- app_assoc.
    + exists (join_loop (S i) [l] B). change (joined_braces 0) with (@nil ascii).
      rewrite app_nil_r.
      rewrite (join_loop_prefix B (S i) (acc ++ [x]) [l]) by discriminate.
      now rewrite <- app_assoc.
Qed.

Lemma join_opening_bracket_at (A B : list str) (c : str) :
  c <> ["{"] ->
  exists (B' : list str),
    _join_opening_bracket (A ++ c :: B)
    = _join_opening_bracket A ++ (c ++ joined_braces (leading_braces B)) :: B'.
Proof.
  intros Hc. unfold _join_opening_bracket. rewrite join_loop_app. cbn [join_loop].
  replace (Py.str_eqb c ["{"]) with false
    by (symmetry; apply not_true_is_false; now rewrite str_eqb_eq).
  rewrite andb_false_r.
  destruct (join_loop_at B (S (0 + length A)) (join_loop 0 [] A) c ltac:(lia))
    as (B' & ->).
  now exists B'.
Qed.

Lemma perform_indentation_at (options : FormatterOptions) (A B : list str) (c : str) :
  Py.startswith ["#"] c = true ->
  exists (IA IB : list str),
    _perform_indentation options (A ++ c :: B)
    = IA ++ (repeat " " (indentation_behind options A) ++ c) :: IB.
Proof.
  intros Hc. pose proof (perform_indentation_nth options A B c) as H.
  replace (nonempty c) with true in H by (now destruct c).
  replace (dedent (current_indent (indent_loop options A)) c)
    with (current_indent (indent_loop options A)) in H
    by (unfold dedent, is_comment; now rewrite Hc).
  rewrite repeat_str_spaces in H by apply current_indent_nonneg.
  apply nth_error_split in H as (IA & IB & E & _). unfold indentation_behind. eauto.
Qed.

(** ** Comment lines in the result *)

Lemma rstrip_head (c : ascii) (u : str) :
  isspace c = false -> exists u', Py.rstrip (c :: u) = c :: u'.
Proof.
  intros Hc. unfold Py.rstrip. cbn [rev]. rewrite dropwhile_barrier by exact Hc.
  rewrite rev_app_distr. cbn [rev app]. now eexists.
Qed.

Lemma takewhile_Forall (f : ascii -> bool) (s : str) :
  Forall (fun c => f c = true) (Py.takewhile f s).
Proof.
  induction s as [|c s IH]; [constructor|].
  cbn [Py.takewhile]. destruct (f c) eqn:E; [now constructor | constructor].
Qed.

(** A comment line: whitespace, then [#]. *)
Lemma strip_comment_line (line : str) :
  Py.startswith ["#"] (Py.strip line) = true ->
  exists ws u, line = ws ++ "#" :: u /\ Forall (fun c => isspace c = true) ws.
Proof.
  intros H. exists (Py.takewhile isspace line).
  pose proof (takewhile_dropwhile isspace line) as E.
  pose proof (dropwhile_head isspace line) as Hh.
  unfold Py.strip, Py.lstrip in H.
  destruct (Py.dropwhile isspace line) as [|c u]; [discriminate H|].
  destruct (rstrip_head c u Hh) as (u' & Eu). rewrite Eu in H.
  cbn [Py.startswith] in H. apply andb_prop in H as [H _]. apply Ascii.eqb_eq in H. subst c.
  exists u. split; [exact E | apply takewhile_Forall].
Qed.

Lemma strip_starts_comment (ws T : str) :
  Forall (fun c => isspace c = true) ws ->
  Py.startswith ["#"] (Py.strip (ws ++ "#" :: T)) = true.
Proof.
  intros Hws. unfold Py.strip, Py.lstrip.
  rewrite dropwhile_barrier, (dropwhile_all _ _ Hws) by reflexivity. cbn [app].
  destruct (rstrip_head "#" T eq_refl) as (u' & ->). reflexivity.
Qed.

Lemma space_no_quote (c : ascii) :
  isspace c = true -> Ascii.eqb c SQUOTE = false /\ Ascii.eqb c DQUOTE = false.
Proof.
  intros H. split.
  - destruct (Ascii.eqb_spec c SQUOTE) as [->|]; [discriminate H | reflexivity].
  - destruct (Ascii.eqb_spec c DQUOTE) as [->|]; [discriminate H | reflexivity].
Qed.

(** The bracket tagger passes over the whitespace before the line. *)
Lemma tag_chars_spaces (ws R : str) :
  Forall (fun c => isspace c = true) ws ->
  forall l, exists l', tag_chars false l (ws ++ R) = ws ++ tag_chars false l' R.
Proof.
  induction 1 as [|c ws Hc _ IH]; intros l; [now exists l|].
  cbn [app tag_chars]. destruct (space_no_quote c Hc) as [-> ->]. cbn [orb andb].
  destruct (IH (Some c)) as (l' & ->). now exists l'.
Qed.

(** The tagged comment line is a comment line. *)
Lemma strip_tag_line_comment (line : str) :
  Py.startswith ["#"] (Py.strip line) = true ->
  Py.startswith ["#"] (Py.strip (tag_line line)) = true.
Proof.
  intros H. unfold tag_line. destruct (Py.startswith ["#"] line); [exact H|].
  destruct (strip_comment_line line H) as (ws & u & -> & Hws).
  destruct (tag_chars_spaces ws ("#" :: u) Hws None) as (l' & ->).
  cbn [tag_chars]. change (Ascii.eqb "#" SQUOTE) with false.
  change (Ascii.eqb "#" DQUOTE) with false. cbn [orb andb app].
  now apply strip_starts_comment.
Qed.

(** What the cleaner makes of a comment line. *)
Lemma clean_line_comment_line (x : str) :
  Py.startswith ["#"] (Py.strip x) = true ->
  clean_line x
  = Emit [strip_variable_template_tags (apply_variable_template_tags (Py.strip x))].
Proof.
  intros H. unfold clean_line, _strip_line. rewrite H.
  destruct (Py.strip x) as [|h t0]; [discriminate H|].
  cbn [Py.startswith] in H. apply andb_prop in H as [H _]. apply Ascii.eqb_eq in H. subst h.
  assert (E : apply_variable_template_tags ("#" :: t0)
              = "#" :: apply_variable_template_tags t0)
    by (unfold apply_variable_template_tags; now rewrite sub_no_match).
  rewrite E. reflexivity.
Qed.

Lemma Forall_joined_braces (k : nat) :
  Forall (fun c => c <> LF) (joined_braces k).
Proof. apply count_zero_Forall, count_joined_braces; discriminate. Qed.

Lemma Forall_spaces (n : nat) : Forall (fun c => c <> LF) (repeat " " n).
Proof. apply Forall_forall. intros x Hx. apply repeat_spec in Hx. now subst x. Qed.

(** The comment that the cleaner returns, on its way into the result. *)
Lemma cleaned_comment_in_result
  (options : FormatterOptions) (A B : list str) (c z : str) :
  Py.startswith ["#"] c = true ->
  strip_bracket_template_tags c = z ->
  Py.startswith ["#"] z = true ->
  Forall (fun x => x <> LF) z ->
  exists pre rest,
    squash (strip_bracket_template_tags
              (Py.join [LF]
                 (_perform_indentation options (_join_opening_bracket (A ++ c :: B)))))
    ++ [LF]
    = pre ++ repeat " " (indentation_behind options (_join_opening_bracket A))
      ++ z ++ joined_braces (leading_braces B) ++ LF :: rest
    /\ line_start pre.
Proof.
  intros Hc Hrt Hz HLF.
  assert (Hc2 : c <> ["{"]) by (intros ->; discriminate Hc).
  match goal with
  | |- exists pre rest, ?L = _ /\ _ => remember L as T eqn:ET
  end.
  destruct (join_opening_bracket_at A B c Hc2) as (B' & E1).
  unfold str in *. rewrite E1 in ET.
  set (k := leading_braces B) in *.
  set (n := indentation_behind options (_join_opening_bracket A)) in *.
  destruct (perform_indentation_at options (_join_opening_bracket A) B'
              (c ++ joined_braces k))
    as (IA & IB & E2); [destruct c; [discriminate Hc | exact Hc]|].
  fold n in E2. unfold str in *. rewrite E2 in ET.
  destruct (join_lines_at IA IB (repeat " " n ++ c ++ joined_braces k))
    as (X & Y & E3 & HX & HY).
  unfold str in *. rewrite E3 in ET.
  unfold strip_bracket_template_tags in *.
  destruct (replace_own_line _TEMPLATE_BRACKET_OPENING_TAG ["{"] X
              (repeat " " n ++ c ++ joined_braces k) Y)
    as (X1 & Y1 & E4 & HX1 & HY1); [discriminate | reflexivity | assumption | assumption|].
  rewrite E4 in ET.
  change _TEMPLATE_BRACKET_OPENING_TAG with ("_" :: lit "__TEMPLATE_BRACKET_OPENING_TAG___")
    in *.
  rewrite replace_in_line in ET by reflexivity.
  change ("_" :: lit "__TEMPLATE_BRACKET_OPENING_TAG___") with _TEMPLATE_BRACKET_OPENING_TAG
    in *.
  set (c1 := Py.replace _TEMPLATE_BRACKET_OPENING_TAG ["{"] c) in *.
  destruct (replace_own_line _TEMPLATE_BRACKET_CLOSING_TAG ["}"] X1
              (repeat " " n ++ c1 ++ joined_braces k) Y1)
    as (X2 & Y2 & E5 & HX2 & HY2); [discriminate | reflexivity | assumption | assumption|].
  rewrite E5 in ET.
  change _TEMPLATE_BRACKET_CLOSING_TAG with ("_" :: lit "__TEMPLATE_BRACKET_CLOSING_TAG___")
    in *.
  rewrite replace_in_line in ET by reflexivity.
  change ("_" :: lit "__TEMPLATE_BRACKET_CLOSING_TAG___") with _TEMPLATE_BRACKET_CLOSING_TAG
    in *.
  rewrite Hrt in ET.
  destruct (squash_own_line X2 (repeat " " n ++ z ++ joined_braces k) Y2)
    as (X3 & Y3 & E6 & HX3 & HY3); try assumption.
  { destruct z; [discriminate Hz|]. now destruct (repeat " " n). }
  { apply Forall_app. split; [apply Forall_spaces|].
    apply Forall_app. split; [exact HLF | apply Forall_joined_braces]. }
  rewrite E6 in ET. subst T.
  exists X3. destruct HY3 as [-> | (Y0 & ->)].
  - exists []. rewrite <- !app_assoc. split; [reflexivity | exact HX3].
  - exists (Y0 ++ [LF]). rewrite <- !app_assoc. split; [reflexivity | exact HX3].
Qed.

(** ** Comment lines whose text the tags give back *)

Lemma strip_decompose_spaces (s : str) :
  exists a b,
    s = a ++ Py.strip s ++ b
    /\ Forall (fun c => isspace c = true) a /\ Forall (fun c => isspace c = true) b.
Proof.
  unfold Py.strip, Py.rstrip, Py.lstrip.
  exists (Py.takewhile isspace s),
         (rev (Py.takewhile isspace (rev (Py.dropwhile isspace s)))).
  split; [|split].
  - rewrite <- rev_app_distr, <- takewhile_dropwhile, rev_involutive.
    apply takewhile_dropwhile.
  - apply takewhile_Forall.
  - apply Forall_rev, takewhile_Forall.
Qed.

Lemma dropwhile_spaces (ws X : str) :
  Forall (fun c => isspace c = true) ws ->
  Py.dropwhile isspace (ws ++ X) = Py.dropwhile isspace X.
Proof.
  induction 1 as [|c ws Hc _ IH]; [reflexivity|]. cbn [app Py.dropwhile]. now rewrite Hc.
Qed.

Lemma strip_padded (ws1 T ws2 : str) :
  Forall (fun c => isspace c = true) ws1 ->
  Forall (fun c => isspace c = true) ws2 ->
  T <> [] ->
  Py.dropwhile isspace T = T -> Py.dropwhile isspace (rev T) = rev T ->
  Py.strip (ws1 ++ T ++ ws2) = T.
Proof.
  intros H1 H2 Hne Hh Hl. unfold Py.strip, Py.lstrip, Py.rstrip.
  rewrite dropwhile_spaces by exact H1.
  assert (E : Py.dropwhile isspace (T ++ ws2) = T ++ ws2).
  { apply fixed_dropwhile in Hh. destruct T as [|h T']; [congruence|].
    cbn [app Py.dropwhile]. now rewrite Hh. }
  rewrite E, rev_app_distr, dropwhile_spaces by now apply Forall_rev.
  now rewrite Hl, rev_involutive.
Qed.

Lemma tag_with_app (o c s r : str) :
  forall b l,
    exists b' l', tag_with o c b l (s ++ r) = tag_with o c b l s ++ tag_with o c b' l' r.
Proof.
  induction s as [|x s IH]; intros b l; [now exists b, l|].
  cbn [app tag_with]. set (q := if _ && _ then _ else _).
  destruct (IH q (Some x)) as (b' & l' & ->). exists b', l'. now rewrite app_assoc.
Qed.

Lemma tag_with_spaces (o c ws : str) :
  Forall (fun x => isspace x = true) ws -> forall b l, tag_with o c b l ws = ws.
Proof.
  induction 1 as [|x ws Hx _ IH]; intros b l; [reflexivity|].
  cbn [tag_with]. destruct (space_no_quote x Hx) as [-> ->]. cbn [orb andb]. rewrite IH.
  destruct b; [|reflexivity].
  destruct (Ascii.eqb_spec x "{") as [->|]; [discriminate Hx|].
  destruct (Ascii.eqb_spec x "}") as [->|]; [discriminate Hx | reflexivity].
Qed.

Lemma rev_tags_head :
  (exists q, rev _TEMPLATE_BRACKET_OPENING_TAG = "_" :: q)
  /\ (exists q, rev _TEMPLATE_BRACKET_CLOSING_TAG = "_" :: q).
Proof. split; eexists; vm_compute; reflexivity. Qed.

(** A tagged text ends with a character that is no whitespace when the
    text does. *)
Lemma tag_with_last (s : str) :
  Py.dropwhile isspace (rev s) = rev s ->
  forall b l,
    Py.dropwhile isspace
      (rev (tag_with _TEMPLATE_BRACKET_OPENING_TAG _TEMPLATE_BRACKET_CLOSING_TAG b l s))
    = rev (tag_with _TEMPLATE_BRACKET_OPENING_TAG _TEMPLATE_BRACKET_CLOSING_TAG b l s).
Proof.
  intros H b l. destruct (last_or_nil s) as [-> | (s0 & c & ->)]; [reflexivity|].
  rewrite rev_app_distr in H. cbn [rev app] in H. apply fixed_dropwhile in H.
  destruct (tag_with_app _TEMPLATE_BRACKET_OPENING_TAG _TEMPLATE_BRACKET_CLOSING_TAG
              s0 [c] b l) as (b' & l' & ->).
  rewrite rev_app_distr. apply dropwhile_fixed.
  destruct rev_tags_head as [(qo & Eo) (qc & Ec)].
  destruct (tag_with_cons _TEMPLATE_BRACKET_OPENING_TAG _TEMPLATE_BRACKET_CLOSING_TAG
              b' l' c []) as (b'' & l'' & [[-> _]|[[-> _]| ->]]);
    cbn [tag_with]; rewrite ?app_nil_r.
  - now rewrite Eo.
  - now rewrite Ec.
  - exact H.
Qed.

(** The stripped tagged comment line is the tagged stripped line. *)
Lemma strip_tagged_comment (line : str) :
  Py.startswith ["#"] (Py.strip line) = true ->
  Py.strip (tag_chars false None line)
  = tag_with _TEMPLATE_BRACKET_OPENING_TAG _TEMPLATE_BRACKET_CLOSING_TAG
             false None (Py.strip line).
Proof.
  intros H. destruct (strip_decompose_spaces line) as (ws1 & ws2 & E & H1 & H2).
  destruct (strip_ends line) as [_ Hl].
  destruct (Py.strip line) as [|h z'] eqn:Ez; [discriminate H|].
  cbn [Py.startswith] in H. apply andb_prop in H as [H _]. apply Ascii.eqb_eq in H. subst h.
  rewrite E.
  destruct (tag_chars_spaces ws1 (("#" :: z') ++ ws2) H1 None) as (l' & ->).
  pose proof (tag_with_last ("#" :: z') Hl false None) as Hlast.
  assert (Ehead : forall l0 R,
             tag_chars false l0 ("#" :: R)
             = "#" :: tag_with _TEMPLATE_BRACKET_OPENING_TAG _TEMPLATE_BRACKET_CLOSING_TAG
                               false (Some "#") R).
  { intros l0 R. cbn [tag_chars]. change (Ascii.eqb "#" SQUOTE) with false.
    change (Ascii.eqb "#" DQUOTE) with false. cbn [orb andb app].
    now rewrite tag_chars_with. }
  assert (Ehead' : forall R,
             tag_with _TEMPLATE_BRACKET_OPENING_TAG _TEMPLATE_BRACKET_CLOSING_TAG
                      false None ("#" :: R)
             = "#" :: tag_with _TEMPLATE_BRACKET_OPENING_TAG _TEMPLATE_BRACKET_CLOSING_TAG
                               false (Some "#") R).
  { intros R. rewrite <- tag_chars_with. apply Ehead. }
  cbn [app]. rewrite Ehead. rewrite Ehead' in *.
  destruct (tag_with_app _TEMPLATE_BRACKET_OPENING_TAG _TEMPLATE_BRACKET_CLOSING_TAG
              z' ws2 false (Some "#")) as (b' & l'' & ->).
  rewrite (tag_with_spaces _ _ ws2 H2).
  set (T' := tag_with _TEMPLATE_BRACKET_OPENING_TAG _TEMPLATE_BRACKET_CLOSING_TAG
                      false (Some "#") z') in *.
  change (ws1 ++ "#" :: T' ++ ws2) with (ws1 ++ ("#" :: T') ++ ws2).
  apply strip_padded; [exact H1 | exact H2 | discriminate | reflexivity | exact Hlast].
Qed.

Lemma startswith_other_head (x c : ascii) (u R : str) :
  x <> c -> Py.startswith (x :: u) (c :: R) = false.
Proof.
  intros H. cbn [Py.startswith]. destruct (Ascii.eqb_spec x c); [congruence | reflexivity].
Qed.

(** A text without underscores that the tagged text begins with is at the
    head of the text itself. *)
Lemma tagged_startswith_back (u : str) :
  Py.count "_" u = 0 ->
  forall s b l,
    Py.startswith u
      (tag_with _TEMPLATE_BRACKET_OPENING_TAG _TEMPLATE_BRACKET_CLOSING_TAG b l s) = true ->
    Py.startswith u s = true.
Proof.
  induction u as [|x u IH]; intros Hu s b l H; [reflexivity|].
  apply count_cons_zero in Hu as [Hx Hu].
  destruct s as [|c s]; [exact H|].
  destruct (tag_with_cons _TEMPLATE_BRACKET_OPENING_TAG _TEMPLATE_BRACKET_CLOSING_TAG
              b l c s) as (b' & l' & [[E _]|[[E _]|E]]); rewrite E in H.
  - change _TEMPLATE_BRACKET_OPENING_TAG
      with ("_" :: lit "__TEMPLATE_BRACKET_OPENING_TAG___") in H at 1.
    cbn [app] in H. rewrite startswith_other_head in H by exact Hx. discriminate H.
  - change _TEMPLATE_BRACKET_CLOSING_TAG
      with ("_" :: lit "__TEMPLATE_BRACKET_CLOSING_TAG___") in H at 1.
    cbn [app] in H. rewrite startswith_other_head in H by exact Hx. discriminate H.
  - cbn [Py.startswith] in *. apply andb_prop in H as [H1 H2]. rewrite H1. cbn [andb].
    now apply (IH Hu s b' l').
Qed.

Lemma occurs_skip_chars (u0 : ascii) (u T R : str) :
  Py.count u0 T = 0 -> occurs (u0 :: u) (T ++ R) = occurs (u0 :: u) R.
Proof.
  induction T as [|a T IH]; intros H; [reflexivity|].
  apply count_cons_zero in H as [Ha H]. cbn [app].
  rewrite occurs_cons, (IH H), startswith_other_head by congruence. reflexivity.
Qed.

(** The tagger makes no variable reference. *)
Lemma tagged_no_reference (s : str) :
  occurs ["$"; "{"] s = false ->
  forall b l,
    occurs ["$"; "{"]
      (tag_with _TEMPLATE_BRACKET_OPENING_TAG _TEMPLATE_BRACKET_CLOSING_TAG b l s) = false.
Proof.
  induction s as [|c s IH]; intros H b l; [reflexivity|].
  rewrite occurs_cons in H. apply orb_false_elim in H as [Hst Hs].
  destruct (tag_with_cons _TEMPLATE_BRACKET_OPENING_TAG _TEMPLATE_BRACKET_CLOSING_TAG
              b l c s) as (b' & l' & [[E _]|[[E _]|E]]).
  - rewrite E, occurs_skip_chars by reflexivity. now apply IH.
  - rewrite E, occurs_skip_chars by reflexivity. now apply IH.
  - destruct (Py.startswith ["$"; "{"]
                (tag_with _TEMPLATE_BRACKET_OPENING_TAG _TEMPLATE_BRACKET_CLOSING_TAG
                          b l (c :: s))) eqn:F.
    + apply tagged_startswith_back in F; [congruence | reflexivity].
    + rewrite E in *. rewrite occurs_cons, F. now apply IH.
Qed.

Lemma occurs_over_prefix (u T R : str) :
  (forall k, k < length T -> Py.startswith u (skipn k T ++ R) = false) ->
  occurs u (T ++ R) = occurs u R.
Proof.
  induction T as [|t0 T IH]; intros H; [reflexivity|].
  cbn [app]. rewrite occurs_cons.
  rewrite (H 0 ltac:(cbn; lia) : Py.startswith u (t0 :: T ++ R) = false). cbn [orb].
  apply IH. intros k Hk. apply (H (S k)). cbn [length]. lia.
Qed.

(** No variable tag starts inside a bracket tag when the text behind the
    bracket tag does not complete one. *)
Lemma no_variable_tag_in_bracket_tag (B R : str) :
  B = _TEMPLATE_BRACKET_OPENING_TAG \/ B = _TEMPLATE_BRACKET_CLOSING_TAG ->
  Py.startswith (lit "TEMPLATE_VARIABLE_OPENING_TAG___") R = false ->
  Py.startswith (lit "_TEMPLATE_VARIABLE_OPENING_TAG___") R = false ->
  Py.startswith (lit "__TEMPLATE_VARIABLE_OPENING_TAG___") R = false ->
  forall k, k < 34 ->
    Py.startswith _TEMPLATE_VARIABLE_OPENING_TAG (skipn k B ++ R) = false.
Proof.
  intros [-> | ->] H1 H2 H3 k Hk.
  - rewrite startswith_known
      by (rewrite length_skipn;
          change (length _TEMPLATE_BRACKET_OPENING_TAG) with 34;
          change (length _TEMPLATE_VARIABLE_OPENING_TAG) with 35; lia).
    tag_positions H1 H2 H3 k.
  - rewrite startswith_known
      by (rewrite length_skipn;
          change (length _TEMPLATE_BRACKET_CLOSING_TAG) with 34;
          change (length _TEMPLATE_VARIABLE_OPENING_TAG) with 35; lia).
    tag_positions H1 H2 H3 k.
Qed.

(** The tagger makes no variable tag. *)
Lemma tagged_no_variable_tag (s : str) :
  Py.count "_" s = 0 ->
  forall b l,
    occurs _TEMPLATE_VARIABLE_OPENING_TAG
      (tag_with _TEMPLATE_BRACKET_OPENING_TAG _TEMPLATE_BRACKET_CLOSING_TAG b l s) = false.
Proof.
  induction s as [|c s IH]; intros Hs b l; [reflexivity|].
  apply count_cons_zero in Hs as [Hc Hs].
  assert (Hin : forall B b' l',
             B = _TEMPLATE_BRACKET_OPENING_TAG \/ B = _TEMPLATE_BRACKET_CLOSING_TAG ->
             occurs _TEMPLATE_VARIABLE_OPENING_TAG
               (B ++ tag_with _TEMPLATE_BRACKET_OPENING_TAG _TEMPLATE_BRACKET_CLOSING_TAG
                              b' l' s) = false).
  { intros B b' l' HB. rewrite occurs_over_prefix; [now apply IH|].
    intros k Hk.
    assert (Hk' : k < 34) by (destruct HB as [-> | ->]; exact Hk).
    apply (no_variable_tag_in_bracket_tag B _ HB); [| | |exact Hk'].
    - exact (tagged_letters_underscore (lit "TEMPLATE") "V" (lit "ARIABLE_OPENING_TAG___")
               s eq_refl ltac:(discriminate) Hs b' l').
    - exact (tagged_letters_underscore [] "T" (lit "EMPLATE_VARIABLE_OPENING_TAG___")
               s eq_refl ltac:(discriminate) Hs b' l').
    - exact (tagged_two_underscores "T" (lit "EMPLATE_VARIABLE_OPENING_TAG___")
               s ltac:(discriminate) Hs b' l'). }
  destruct (tag_with_cons _TEMPLATE_BRACKET_OPENING_TAG _TEMPLATE_BRACKET_CLOSING_TAG
              b l c s) as (b' & l' & [[E _]|[[E _]|E]]); rewrite E.
  - apply Hin. now left.
  - apply Hin. now right.
  - rewrite occurs_cons, (IH Hs), orb_false_r.
    change _TEMPLATE_VARIABLE_OPENING_TAG
      with ("_" :: lit "__TEMPLATE_VARIABLE_OPENING_TAG___").
    apply startswith_other_head. congruence.
Qed.

(** The tags give back the text of a comment line that holds no variable
    reference and no underscore. *)
Lemma plain_comment_round_trip (line : str) :
  Py.startswith ["#"] (Py.strip line) = true ->
  occurs ["$"; "{"] line = false ->
  Py.count "_" line = 0 ->
  placeholders_round_trip line.
Proof.
  intros Hc Hv Hu. unfold placeholders_round_trip.
  assert (Hzu : Py.count "_" (Py.strip line) = 0)
    by (pose proof (count_strip_le "_" line); lia).
  pose proof (strip_occurs _ _ Hv) as Hzv.
  unfold tag_line. destruct (Py.startswith ["#"] line).
  - rewrite apply_variable_absent by exact Hzv.
    rewrite strip_variable_absent
      by (change _TEMPLATE_VARIABLE_OPENING_TAG
            with ("_" :: lit "__TEMPLATE_VARIABLE_OPENING_TAG___");
          now apply occurs_absent_head).
    unfold strip_bracket_template_tags.
    change _TEMPLATE_BRACKET_OPENING_TAG with ("_" :: lit "__TEMPLATE_BRACKET_OPENING_TAG___").
    change _TEMPLATE_BRACKET_CLOSING_TAG with ("_" :: lit "__TEMPLATE_BRACKET_CLOSING_TAG___").
    rewrite (replace_no_head "_" _ ["{"] _ Hzu). apply (replace_no_head "_" _ ["}"] _ Hzu).
  - rewrite strip_tagged_comment by exact Hc.
    rewrite apply_variable_absent by now apply tagged_no_reference.
    rewrite strip_variable_absent by now apply tagged_no_variable_tag.
    unfold strip_bracket_template_tags.
    rewrite replace_opening_tags, replace_closing_tags by exact Hzu.
    apply tag_with_braces.
Qed.

(** The cleaner leaves the [#] at the head of a comment line. *)
Lemma cleaned_comment_head (x : str) :
  Py.startswith ["#"] (Py.strip x) = true ->
  Py.startswith ["#"]
    (strip_variable_template_tags (apply_variable_template_tags (Py.strip x))) = true.
Proof.
  intros H. destruct (Py.strip x) as [|h t0]; [discriminate H|].
  cbn [Py.startswith] in H. apply andb_prop in H as [H _]. apply Ascii.eqb_eq in H. subst h.
  assert (E : apply_variable_template_tags ("#" :: t0)
              = "#" :: apply_variable_template_tags t0)
    by (unfold apply_variable_template_tags; now rewrite sub_no_match).
  rewrite E. unfold strip_variable_template_tags.
  now rewrite sub_no_match.
Qed.

(** C6, amended.  A comment line of the document, a line whose first
    character behind leading whitespace is [#], stands in the result as a
    line of its own, trimmed and otherwise unchanged, whenever the
    placeholder tags give its text back: behind the start of the result or
    a newline come the spaces of the indentation (the counter behind the
    cleaned and joined lines before it, times the width), then the stripped
    line, then a space and a brace for each of the cleaned lines right
    behind it that is an opening brace and no more, then a newline.  The
    tags give the text back for every comment line without a variable
    reference and without an underscore, whatever quotes, braces,
    semicolons and whitespace it holds. *)
Theorem comment_line_reproduced
  (options : FormatterOptions) (contents : str)
  (before : list str) (line : str) (after : list str) :
  Py.splitlines contents = before ++ line :: after ->
  Py.startswith ["#"] (Py.strip line) = true ->
  (occurs ["$"; "{"] line = false -> Py.count "_" line = 0 ->
   placeholders_round_trip line)
  /\ (placeholders_round_trip line ->
      exists pre rest,
        format_string options contents
        = pre
          ++ repeat " " (indentation_behind options
                           (_join_opening_bracket
                              (clean_lines (apply_bracket_template_tags before))))
          ++ Py.strip line
          ++ joined_braces (leading_braces
                              (clean_lines (apply_bracket_template_tags after)))
          ++ LF :: rest
        /\ line_start pre).
Proof.
  intros Hs Hc. split; [now apply plain_comment_round_trip|].
  intros Hrt.
  assert (HLF : Forall (fun x => x <> LF) (Py.strip line)).
  { apply strip_Forall, line_no_newline with (text := contents).
    rewrite Hs. apply in_or_app. right. now left. }
  assert (E : clean_lines (apply_bracket_template_tags (Py.splitlines contents))
              = clean_lines (apply_bracket_template_tags before)
                ++ strip_variable_template_tags
                     (apply_variable_template_tags (Py.strip (tag_line line)))
                   :: clean_lines (apply_bracket_template_tags after)).
  { rewrite Hs. unfold apply_bracket_template_tags. rewrite map_app. cbn [map].
    rewrite clean_lines_app, clean_lines_cons.
    rewrite clean_line_comment_line by now apply strip_tag_line_comment.
    reflexivity. }
  destruct (cleaned_comment_in_result options
              (clean_lines (apply_bracket_template_tags before))
              (clean_lines (apply_bracket_template_tags after))
              _ (Py.strip line)
              (cleaned_comment_head _ (strip_tag_line_comment line Hc)) Hrt Hc HLF)
    as (pre & rest & Heq & Hpre).
  exists pre, rest. split; [|exact Hpre].
  rewrite <- Heq. unfold format_string, indented_text. now rewrite E.
Qed.

Lemma comment_line_reproduced_witness :
  (exists pre rest,
     format_string default_options
       (lit "http {" ++ [LF] ++ lit "  # it's {x} here  " ++ [LF] ++ lit "{" ++ [LF] ++ lit "}")
     = pre ++ lit "    # it's {x} here {" ++ LF :: rest
     /\ line_start pre)
  /\ (exists pre rest,
        format_string default_options
          (lit "# ${a} b;  c_d" ++ [LF] ++ lit "  # don't use ${ a }")
        = pre ++ lit "# don't use ${ a }" ++ LF :: rest
        /\ line_start pre)
  /\ (exists pre rest,
        format_string default_options
          (lit "# ${a} b;  c_d" ++ [LF] ++ lit "  # don't use ${ a }")
        = pre ++ lit "# ${a} b;  c_d" ++ LF :: rest
        /\ line_start pre).
Proof.
  split; [|split].
  - destruct (comment_line_reproduced default_options
                (lit "http {" ++ [LF] ++ lit "  # it's {x} here  " ++ [LF] ++ lit "{"
                 ++ [LF] ++ lit "}")
                [lit "http {"] (lit "  # it's {x} here  ") [lit "{"; lit "}"]
                eq_refl eq_refl) as [H1 H2].
    apply H2, H1; reflexivity.
  - apply (proj2 (comment_line_reproduced default_options
                    (lit "# ${a} b;  c_d" ++ [LF] ++ lit "  # don't use ${ a }")
                    [lit "# ${a} b;  c_d"] (lit "  # don't use ${ a }") []
                    eq_refl eq_refl)).
    reflexivity.
  - apply (proj2 (comment_line_reproduced default_options
                    (lit "# ${a} b;  c_d" ++ [LF] ++ lit "  # don't use ${ a }")
                    [] (lit "# ${a} b;  c_d") [lit "  # don't use ${ a }"]
                    eq_refl eq_refl)).
    reflexivity.
Defined.
